(** * SES bounce handler: the notification intake and retention pipeline

    A shallow embedding of the request handlers, the CSV store and the
    scheduled job of the repository's server iterations, with the properties
    its specification states about them.

    The server exists in several iterations, each a file of its own:
    - [V1], src/ses-bounces-handler.js: the notification is the request body,
      one row is appended to a CSV text, the clean-up filters its lines;
    - [MultiParse], src/unnamed/part_003: the inner [Message] of the SNS
      envelope is parsed by several strategies, one quoted row per recipient;
    - [CsvStore], src/unnamed/part_005 (lines 513-913): signature check,
      nine-column records, an append behind a lock file, csv-parse and
      csv-writer, report with retry, clean-up by retention days;
    - [Mongo], src/unnamed/part_000: the same endpoint over a database;
    - [MultiParseJob], src/unnamed/part_003 again: the row of a recipient, the
      report and the run of the daily job, requests handled in sequence;
    - [MongoEndpoint], src/unnamed/part_000 again: signature check, the
      swallowing [catch] of [processSNSMessage], the handler.

    Conventions of the embedding.
    - A JavaScript string is the sequence of its UTF-8 bytes ([string]).
    - A JavaScript value is a JSON value or [undefined]; the handlers only
      ever see what [bodyParser.json()] and [JSON.parse] build.  A number is
      carried by the numeral it was read from and observed as the double
      that numeral denotes.
    - An exception is a result of type [Res]; [try]/[catch] is [match].
    - The host's clock, [Date] constructor and [URL] parser are parameters of
      the sections that use them.
    - A file operation succeeds unless the model gives it a fault to take:
      the operations of [appendToCsv] have one each. *)

From Stdlib Require Import String Ascii List ZArith Lia Bool Arith DecimalString DecimalNat.
Import ListNotations.
Set Warnings "-register-all".
Open Scope string_scope.
Open Scope list_scope.

(** ** Strings *)

Module Str.

Definition dq : ascii := "034"%char.
Definition backslash : ascii := "092"%char.
Definition comma : ascii := ","%char.
Definition newline : ascii := "010"%char.

(** [s.split(sep)] for a one-character separator: never the empty list,
    [''.split(',')] is [['']]. *)
Fixpoint split (sep : ascii) (s : string) : list string :=
  match s with
  | EmptyString => [EmptyString]
  | String c r =>
      if Ascii.eqb c sep then EmptyString :: split sep r
      else match split sep r with
           | h :: t => String c h :: t
           | [] => [String c EmptyString]
           end
  end.

(** [lines.join(sep)]. *)
Fixpoint join (sep : string) (l : list string) : string :=
  match l with
  | [] => EmptyString
  | [x] => x
  | x :: t => x ++ sep ++ join sep t
  end.

(** [s.replace(/Q/g, '')] where Q is the double quote: every quote goes. *)
Fixpoint remove_quotes (s : string) : string :=
  match s with
  | EmptyString => EmptyString
  | String c r => if Ascii.eqb c dq then remove_quotes r else String c (remove_quotes r)
  end.

(** [s.replace(/\\Q/g, 'Q')] where Q is the double quote: every backslash
    directly followed by a quote loses the backslash, scanning from the left. *)
Fixpoint unescape_quotes (s : string) : string :=
  match s with
  | EmptyString => EmptyString
  | String c r =>
      match r with
      | String d r' =>
          if Ascii.eqb c backslash && Ascii.eqb d dq
          then String dq (unescape_quotes r')
          else String c (unescape_quotes r)
      | EmptyString => String c EmptyString
      end
  end.

Fixpoint drop_last_quote (s : string) : string :=
  match s with
  | EmptyString => EmptyString
  | String c EmptyString => if Ascii.eqb c dq then EmptyString else s
  | String c r => String c (drop_last_quote r)
  end.

(** [s.replace(/^Q|Q$/g, '')] where Q is the double quote: a quote at the very
    start goes, then a quote at the very end of what is left goes. *)
Definition strip_outer_quotes (s : string) : string :=
  match s with
  | String c r => if Ascii.eqb c dq then drop_last_quote r else drop_last_quote s
  | EmptyString => EmptyString
  end.

(** [s.endsWith(suffix)]. *)
Definition endsWith (s suffix : string) : bool :=
  let n := String.length s in
  let m := String.length suffix in
  (m <=? n)%nat && String.eqb (substring (n - m) m s) suffix.

(** Writes a test input: every apostrophe of [s] stands for a double quote. *)
Fixpoint q (s : string) : string :=
  match s with
  | EmptyString => EmptyString
  | String c r => String (if Ascii.eqb c "'"%char then dq else c) (q r)
  end.

(** Decimal numeral of a natural number, as [String(n)] prints a length. *)
Definition of_nat (n : nat) : string := NilEmpty.string_of_uint (Nat.to_uint n).

End Str.

(** ** JavaScript values and exceptions *)

Module JS.

Inductive exn : Type :=
| TypeError
| SyntaxError
| Error (message : string)
| SystemError (code : string).

(** The outcome of an expression or statement that may throw. *)
Inductive Res (A : Type) : Type :=
| Ok (a : A)
| Throw (e : exn).
Arguments Ok {A} a.
Arguments Throw {A} e.

Definition bind {A B : Type} (r : Res A) (k : A -> Res B) : Res B :=
  match r with
  | Ok a => k a
  | Throw e => Throw e
  end.

Declare Scope js_scope.
Delimit Scope js_scope with js.
Notation "x <- c ;; k" := (bind c (fun x => k))
  (at level 100, c at next level, right associativity) : js_scope.
Open Scope js_scope.

(** What [JSON.parse] builds, and [undefined].  An object is the list of its
    own properties in insertion order, each name once. *)
Inductive value : Type :=
| JUndefined
| JNull
| JBool (b : bool)
| JNum (numeral : string)
| JStr (s : string)
| JArr (elems : list value)
| JObj (props : list (string * value)).

Fixpoint lookup (props : list (string * value)) (name : string) : option value :=
  match props with
  | [] => None
  | (k, v) :: t => if String.eqb k name then Some v else lookup t name
  end.

(** [CreateDataProperty]: a name already present keeps its place and takes
    the new value. *)
Fixpoint set_prop (props : list (string * value)) (name : string) (v : value)
  : list (string * value) :=
  match props with
  | [] => [(name, v)]
  | (k, w) :: t =>
      if String.eqb k name then (k, v) :: t else (k, w) :: set_prop t name v
  end.

Definition is_digit (c : ascii) : bool :=
  let n := nat_of_ascii c in (48 <=? n)%nat && (n <=? 57)%nat.

(** *** Numbers

    A number is carried by the numeral it was read from and observed as the
    double that numeral denotes: [ToBoolean] asks whether it rounds to zero,
    [ToString] prints the shortest decimal that reads back as that double. *)

Definition digit_value (c : ascii) : Z := (Z.of_nat (nat_of_ascii c) - 48)%Z.

(** The digits at the front of [s] read after [acc]: the number, how many
    digits were read, and the text after them. *)
Fixpoint read_digits (s : string) (acc count : Z) : Z * Z * string :=
  match s with
  | String c r =>
      if is_digit c then read_digits r (acc * 10 + digit_value c)%Z (count + 1)%Z
      else (acc, count, s)
  | EmptyString => (acc, count, s)
  end.

(** The number [mantissa * 10 ^ exponent], negated when [negative]. *)
Record decimal : Type := mkDecimal { negative : bool; mantissa : Z; exponent : Z }.

(** What a numeral of JSON denotes: sign, integer digits, fraction digits,
    exponent. *)
Definition decimal_of (numeral : string) : decimal :=
  let (neg, s1) :=
    match numeral with
    | String c r => if Ascii.eqb c "-" then (true, r) else (false, numeral)
    | EmptyString => (false, numeral)
    end in
  let '(int, _, s2) := read_digits s1 0 0 in
  let '(m, fraction, s3) :=
    match s2 with
    | String c r => if Ascii.eqb c "." then read_digits r int 0 else (int, 0%Z, s2)
    | EmptyString => (int, 0%Z, s2)
    end in
  let e :=
    match s3 with
    | String c r =>
        if Ascii.eqb c "e" || Ascii.eqb c "E" then
          match r with
          | String d r' =>
              if Ascii.eqb d "-" then (- fst (fst (read_digits r' 0 0)))%Z
              else if Ascii.eqb d "+" then fst (fst (read_digits r' 0 0))
              else fst (fst (read_digits r 0 0))
          | EmptyString => 0%Z
          end
        else 0%Z
    | EmptyString => 0%Z
    end in
  mkDecimal neg m (e - fraction)%Z.

(** The magnitude rounds to zero: it is zero, or at most half the least
    positive double, [2 ^ -1075] (a tie goes to the even neighbour, zero). *)
Definition rounds_to_zero (d : decimal) : bool :=
  ((mantissa d =? 0) || ((exponent d <? 0) && (mantissa d * 2 ^ 1075 <=? 10 ^ (- exponent d))))%Z.

(** The magnitude of a double: [m * 2 ^ e] with [2 ^ 52 <= m < 2 ^ 53], or
    [e = -1074] for a subnormal. *)
Inductive double : Type :=
| Zero
| Finite (m e : Z)
| Infinity.

(** [num / den] rounded to the nearest integer, a tie to the even one. *)
Definition round_half_even (num den : Z) : Z :=
  (let q := num / den in
   let r := num mod den in
   if 2 * r <? den then q
   else if den <? 2 * r then q + 1
   else if Z.even q then q else q + 1)%Z.

(** The double nearest to the magnitude of [d], ties to even, as IEEE 754
    rounds and [JSON.parse] reads. *)
Definition to_double (d : decimal) : double :=
  (if rounds_to_zero d then Zero
   else
     let num := if 0 <=? exponent d then mantissa d * 10 ^ exponent d else mantissa d in
     let den := if 0 <=? exponent d then 1 else 10 ^ (- exponent d) in
     let t := Z.log2 num - Z.log2 den in
     let at_least := if 0 <=? t then den * 2 ^ t <=? num else den <=? num * 2 ^ (- t) in
     let l := if at_least then t else t - 1 in
     let e := Z.max (l - 52) (-1074) in
     let m := if 0 <=? e then round_half_even num (den * 2 ^ e)
              else round_half_even (num * 2 ^ (- e)) den in
     let (m, e) := if m =? 2 ^ 53 then (2 ^ 52, e + 1) else (m, e) in
     if 971 <? e then Infinity else Finite m e)%Z.

(** The decimal digits of a natural number. *)
Definition digits_of (n : Z) : string := NilEmpty.string_of_uint (N.to_uint (Z.to_N n)).

Fixpoint drop_trailing_zeros (s : string) : string :=
  match s with
  | EmptyString => EmptyString
  | String c r =>
      match drop_trailing_zeros r with
      | EmptyString => if Ascii.eqb c "0" then EmptyString else String c EmptyString
      | r' => String c r'
      end
  end.

Fixpoint zeros (n : nat) : string :=
  match n with
  | O => EmptyString
  | S k => String "0" (zeros k)
  end.

(** The [k]-digit decimals next to [m * 2 ^ e] on either side, with their
    power of ten [n0 - k]: the one that reads back as this double, the
    nearer of the two when both do, the even one on a tie. *)
Definition candidate (m e n0 k : Z) : option (Z * Z) :=
  (let xn := m * 2 ^ Z.max e 0 in
   let xd := 2 ^ Z.max (- e) 0 in
   let p := n0 - k in
   let a := if 0 <=? p then xn else xn * 10 ^ (- p) in
   let b := if 0 <=? p then xd * 10 ^ p else xd in
   let lo := a / b in
   let hi := lo + 1 in
   let same s := match to_double (mkDecimal false s p) with
                 | Finite m' e' => (m' =? m) && (e' =? e)
                 | _ => false
                 end in
   if same lo && same hi then
     match 2 * a ?= (lo + hi) * b with
     | Lt => Some (lo, p)
     | Gt => Some (hi, p)
     | Eq => Some (if Z.even lo then lo else hi, p)
     end
   else if same lo then Some (lo, p)
   else if same hi then Some (hi, p)
   else None)%Z.

(** The fewest digits that do: seventeen always suffice. *)
Fixpoint shortest (m e n0 : Z) (more : nat) (k : Z) : Z * Z :=
  match candidate m e n0 k with
  | Some found => found
  | None =>
      match more with
      | O => (m, e)
      | S fewer => shortest m e n0 fewer (k + 1)%Z
      end
  end.

(** The least [n' >= n] with [xn / xd < 10 ^ n']. *)
Fixpoint first_power (xn xd : Z) (more : nat) (n : Z) : Z :=
  (if (if 0 <=? n then xn <? xd * 10 ^ n else xn * 10 ^ (- n) <? xd) then n
   else match more with
        | O => n
        | S fewer => first_power xn xd fewer (n + 1)
        end)%Z.

(** [Number::toString] of the finite positive double [m * 2 ^ e]: with [n]
    the position of the decimal point among the digits, plain digits for
    [-6 < n <= 21] and the exponent form otherwise. *)
Definition print_finite (m e : Z) : string :=
  let xn := (m * 2 ^ Z.max e 0)%Z in
  let xd := (2 ^ Z.max (- e) 0)%Z in
  let n0 := first_power xn xd 8 (((Z.log2 m + e) * 30103) / 100000 - 1)%Z in
  let (s, p) := shortest m e n0 16 1 in
  let all := digits_of s in
  let n := (p + Z.of_nat (String.length all))%Z in
  match all with
  | EmptyString => "0"
  | String c r =>
      let rest := drop_trailing_zeros r in
      let k := Z.of_nat (S (String.length rest)) in
      if ((k <=? n) && (n <=? 21))%Z then String c (rest ++ zeros (Z.to_nat (n - k)))
      else if ((0 <? n) && (n <=? 21))%Z then
        String c (substring 0 (Z.to_nat (n - 1)) rest ++ "."
                  ++ substring (Z.to_nat (n - 1)) (String.length rest) rest)
      else if ((-6 <? n) && (n <=? 0))%Z then
        String "0" (String "." (zeros (Z.to_nat (- n)) ++ String c rest))
      else
        let exp := ((if (n - 1 <? 0)%Z then "-" else "+") ++ digits_of (Z.abs (n - 1)))%string in
        match rest with
        | EmptyString => String c ("e" ++ exp)
        | _ => String c ("." ++ rest ++ "e" ++ exp)
        end
  end.

(** [String(x)] for the number a numeral denotes. *)
Definition number_to_string (numeral : string) : string :=
  let d := decimal_of numeral in
  match to_double d with
  | Zero => "0"
  | Infinity => if negative d then "-Infinity" else "Infinity"
  | Finite m e => if negative d then String "-" (print_finite m e) else print_finite m e
  end.

(** [ToBoolean]. *)
Definition truthy (v : value) : bool :=
  match v with
  | JUndefined | JNull => false
  | JBool b => b
  | JNum n => negb (rounds_to_zero (decimal_of n))
  | JStr s => negb (String.eqb s EmptyString)
  | JArr _ | JObj _ => true
  end.

(** [typeof v === 'object']. *)
Definition typeof_object (v : value) : bool :=
  match v with
  | JNull | JArr _ | JObj _ => true
  | _ => false
  end.

(** [Array.isArray(v)]. *)
Definition isArray (v : value) : bool :=
  match v with
  | JArr _ => true
  | _ => false
  end.

(** [v === 'text']. *)
Definition is_str (v : value) (text : string) : bool :=
  match v with
  | JStr s => String.eqb s text
  | _ => false
  end.

(** [v.name] for the property names the handlers read.  None of them lives
    on a prototype except [length]; reading from [undefined] or [null]
    throws.  The length of a string is counted in bytes here, which is zero
    exactly when the JavaScript length is. *)
Definition get (v : value) (name : string) : Res value :=
  match v with
  | JUndefined | JNull => Throw TypeError
  | JObj props =>
      match lookup props name with
      | Some w => Ok w
      | None => Ok JUndefined
      end
  | JArr l =>
      if String.eqb name "length" then Ok (JNum (Str.of_nat (List.length l)))
      else Ok JUndefined
  | JStr s =>
      if String.eqb name "length" then Ok (JNum (Str.of_nat (String.length s)))
      else Ok JUndefined
  | JBool _ | JNum _ => Ok JUndefined
  end.

(** [v?.name]. *)
Definition get_opt (v : value) (name : string) : value :=
  match get v name with
  | Ok w => w
  | Throw _ => JUndefined
  end.

(** [v[0]]. *)
Definition first (v : value) : Res value :=
  match v with
  | JUndefined | JNull => Throw TypeError
  | JArr l => Ok (nth 0 l JUndefined)
  | JStr (String c _) => Ok (JStr (String c EmptyString))
  | JObj props =>
      match lookup props "0" with
      | Some w => Ok w
      | None => Ok JUndefined
      end
  | _ => Ok JUndefined
  end.

Definition has_key (props : list (string * value)) (name : string) : bool :=
  match lookup props name with
  | Some _ => true
  | None => false
  end.

(** [ToString], as template literals, [String(v)] and [JSON.parse(v)] apply
    it.  An object prints as [[object Object]] unless an own [toString]
    property (never callable in parsed JSON) hides the inherited method, in
    which case the conversion throws.  An array joins its elements with
    commas, [null] and [undefined] elements printing as nothing.  A number
    prints as [Number::toString] prints the double it denotes. *)
Fixpoint ToString (v : value) : Res string :=
  match v with
  | JUndefined => Ok "undefined"
  | JNull => Ok "null"
  | JBool true => Ok "true"
  | JBool false => Ok "false"
  | JNum n => Ok (number_to_string n)
  | JStr s => Ok s
  | JObj props =>
      if has_key props "toString" then Throw TypeError else Ok "[object Object]"
  | JArr l =>
      (fix join_elems (l : list value) : Res string :=
         match l with
         | [] => Ok EmptyString
         | x :: t =>
             sx <- match x with
                   | JUndefined | JNull => Ok EmptyString
                   | _ => ToString x
                   end ;;
             match t with
             | [] => Ok sx
             | _ => st <- join_elems t ;; Ok (sx ++ "," ++ st)%string
             end
         end) l
  end.

End JS.
Import JS.

(** ** [JSON.parse]

    The grammar of ECMA-404 as [JSON.parse] reads it: a lexer that steps
    through the text one character at a time, then a parser that steps
    through the tokens with the stack of the containers still open. *)

Module JSON.

Inductive token : Type :=
| TLBrace | TRBrace | TLBracket | TRBracket | TColon | TComma
| TString (s : string)
| TNumber (numeral : string)
| TTrue | TFalse | TNull.

(** Where the lexer stands inside a numeral. *)
Inductive nstate : Type :=
| NMinus | NZero | NInt | NDot | NFrac | NExp | NExpSign | NExpDigits.

(** A character of a string literal: written as it is, or a [\uXXXX] unit. *)
Inductive item : Type :=
| Raw (c : ascii)
| Unit16 (u : N).

Inductive lstate : Type :=
| LStart
| LKeyword (rest : string) (t : token)
| LNumber (st : nstate) (rev_numeral : list ascii)
| LString (rev_items : list item)
| LEscape (rev_items : list item)
| LUnicode (rev_items : list item) (digits : list N).

Definition is_ws (c : ascii) : bool :=
  let n := nat_of_ascii c in
  (n =? 32)%nat || (n =? 9)%nat || (n =? 10)%nat || (n =? 13)%nat.

Definition hex_value (c : ascii) : option N :=
  let n := N_of_ascii c in
  if (48 <=? n)%N && (n <=? 57)%N then Some (n - 48)%N
  else if (97 <=? n)%N && (n <=? 102)%N then Some (n - 87)%N
  else if (65 <=? n)%N && (n <=? 70)%N then Some (n - 55)%N
  else None.

Definition byte (n : N) : ascii := ascii_of_N n.

(** UTF-8 of a code point (a lone surrogate is written the same way). *)
Definition utf8 (cp : N) : list ascii :=
  if (cp <? 128)%N then [byte cp]
  else if (cp <? 2048)%N then
    [byte (192 + cp / 64); byte (128 + cp mod 64)]
  else if (cp <? 65536)%N then
    [byte (224 + cp / 4096); byte (128 + (cp / 64) mod 64); byte (128 + cp mod 64)]
  else
    [byte (240 + cp / 262144); byte (128 + (cp / 4096) mod 64);
     byte (128 + (cp / 64) mod 64); byte (128 + cp mod 64)].

Definition is_high (u : N) : bool := (55296 <=? u)%N && (u <? 56320)%N.
Definition is_low (u : N) : bool := (56320 <=? u)%N && (u <? 57344)%N.

(** The bytes of a string literal's items; an escaped surrogate pair is one
    code point. *)
Fixpoint decode_items (l : list item) : list ascii :=
  match l with
  | [] => []
  | Raw c :: r => c :: decode_items r
  | Unit16 u :: r =>
      match r with
      | Unit16 w :: r' =>
          if is_high u && is_low w
          then utf8 (65536 + (u - 55296) * 1024 + (w - 56320)) ++ decode_items r'
          else utf8 u ++ decode_items r
      | _ => utf8 u ++ decode_items r
      end
  end.

Definition string_of_items (rev_items : list item) : string :=
  string_of_list_ascii (decode_items (rev rev_items)).

Definition numeral_of (rev_numeral : list ascii) : string :=
  string_of_list_ascii (rev rev_numeral).

(** One character between tokens. *)
Definition step_start (c : ascii) : option (lstate * list token) :=
  if is_ws c then Some (LStart, [])
  else if Ascii.eqb c "{" then Some (LStart, [TLBrace])
  else if Ascii.eqb c "}" then Some (LStart, [TRBrace])
  else if Ascii.eqb c "[" then Some (LStart, [TLBracket])
  else if Ascii.eqb c "]" then Some (LStart, [TRBracket])
  else if Ascii.eqb c ":" then Some (LStart, [TColon])
  else if Ascii.eqb c "," then Some (LStart, [TComma])
  else if Ascii.eqb c Str.dq then Some (LString [], [])
  else if Ascii.eqb c "-" then Some (LNumber NMinus [c], [])
  else if Ascii.eqb c "0" then Some (LNumber NZero [c], [])
  else if is_digit c then Some (LNumber NInt [c], [])
  else if Ascii.eqb c "t" then Some (LKeyword "rue" TTrue, [])
  else if Ascii.eqb c "f" then Some (LKeyword "alse" TFalse, [])
  else if Ascii.eqb c "n" then Some (LKeyword "ull" TNull, [])
  else None.

(** The numeral ends before [c]: it becomes a token and [c] is read afresh. *)
Definition end_number (acc : list ascii) (c : ascii) : option (lstate * list token) :=
  match step_start c with
  | Some (st, toks) => Some (st, TNumber (numeral_of acc) :: toks)
  | None => None
  end.

Definition is_e (c : ascii) : bool := Ascii.eqb c "e" || Ascii.eqb c "E".

Definition step_number (st : nstate) (acc : list ascii) (c : ascii)
  : option (lstate * list token) :=
  match st with
  | NMinus =>
      if Ascii.eqb c "0" then Some (LNumber NZero (c :: acc), [])
      else if is_digit c then Some (LNumber NInt (c :: acc), [])
      else None
  | NZero =>
      if Ascii.eqb c "." then Some (LNumber NDot (c :: acc), [])
      else if is_e c then Some (LNumber NExp (c :: acc), [])
      else end_number acc c
  | NInt =>
      if is_digit c then Some (LNumber NInt (c :: acc), [])
      else if Ascii.eqb c "." then Some (LNumber NDot (c :: acc), [])
      else if is_e c then Some (LNumber NExp (c :: acc), [])
      else end_number acc c
  | NDot =>
      if is_digit c then Some (LNumber NFrac (c :: acc), []) else None
  | NFrac =>
      if is_digit c then Some (LNumber NFrac (c :: acc), [])
      else if is_e c then Some (LNumber NExp (c :: acc), [])
      else end_number acc c
  | NExp =>
      if Ascii.eqb c "+" || Ascii.eqb c "-" then Some (LNumber NExpSign (c :: acc), [])
      else if is_digit c then Some (LNumber NExpDigits (c :: acc), [])
      else None
  | NExpSign =>
      if is_digit c then Some (LNumber NExpDigits (c :: acc), []) else None
  | NExpDigits =>
      if is_digit c then Some (LNumber NExpDigits (c :: acc), [])
      else end_number acc c
  end.

Definition step_escape (acc : list item) (c : ascii) : option (lstate * list token) :=
  if Ascii.eqb c Str.dq || Ascii.eqb c Str.backslash || Ascii.eqb c "/"
  then Some (LString (Raw c :: acc), [])
  else if Ascii.eqb c "b" then Some (LString (Raw (byte 8) :: acc), [])
  else if Ascii.eqb c "f" then Some (LString (Raw (byte 12) :: acc), [])
  else if Ascii.eqb c "n" then Some (LString (Raw (byte 10) :: acc), [])
  else if Ascii.eqb c "r" then Some (LString (Raw (byte 13) :: acc), [])
  else if Ascii.eqb c "t" then Some (LString (Raw (byte 9) :: acc), [])
  else if Ascii.eqb c "u" then Some (LUnicode acc [], [])
  else None.

Definition step (st : lstate) (c : ascii) : option (lstate * list token) :=
  match st with
  | LStart => step_start c
  | LKeyword rest t =>
      match rest with
      | String k EmptyString => if Ascii.eqb c k then Some (LStart, [t]) else None
      | String k rest' => if Ascii.eqb c k then Some (LKeyword rest' t, []) else None
      | EmptyString => None
      end
  | LNumber ns acc => step_number ns acc c
  | LString acc =>
      if Ascii.eqb c Str.dq then Some (LStart, [TString (string_of_items acc)])
      else if Ascii.eqb c Str.backslash then Some (LEscape acc, [])
      else if (nat_of_ascii c <? 32)%nat then None
      else Some (LString (Raw c :: acc), [])
  | LEscape acc => step_escape acc c
  | LUnicode acc digits =>
      match hex_value c with
      | None => None
      | Some d =>
          match digits with
          | [d2; d1; d0] =>
              Some (LString (Unit16 (((d0 * 16 + d1) * 16 + d2) * 16 + d)%N :: acc), [])
          | _ => Some (LUnicode acc (d :: digits), [])
          end
      end
  end.

(** The end of the text: only between tokens or after a whole numeral. *)
Definition finish (st : lstate) : option (list token) :=
  match st with
  | LStart => Some []
  | LNumber (NZero | NInt | NFrac | NExpDigits) acc => Some [TNumber (numeral_of acc)]
  | _ => None
  end.

Fixpoint lex (st : lstate) (s : string) : option (list token) :=
  match s with
  | EmptyString => finish st
  | String c r =>
      match step st c with
      | None => None
      | Some (st', toks) =>
          match lex st' r with
          | None => None
          | Some more => Some (toks ++ more)
          end
      end
  end.

(** A container still open: an array with its elements so far (last first),
    or an object with its properties so far and the name awaiting a value. *)
Inductive frame : Type :=
| FArr (rev_elems : list value)
| FObj (props : list (string * value)) (key : option string).

Inductive mode : Type :=
| MValue      (* a value must come *)
| MFirst      (* just after an opening bracket: a value or the closing one *)
| MKeyFirst   (* just after an opening brace: a name or the closing one *)
| MKey        (* after a comma in an object: a name *)
| MColon      (* after a name *)
| MAfter      (* after a value inside a container: a comma or the close *)
| MDone (v : value).

Definition pstate : Type := (list frame * mode)%type.

(** A value is complete: it goes into the innermost open container. *)
Definition complete (v : value) (stack : list frame) : option pstate :=
  match stack with
  | [] => Some ([], MDone v)
  | FArr acc :: st => Some (FArr (v :: acc) :: st, MAfter)
  | FObj props (Some k) :: st => Some (FObj (set_prop props k v) None :: st, MAfter)
  | FObj _ None :: _ => None
  end.

Definition scalar (t : token) : option value :=
  match t with
  | TString s => Some (JStr s)
  | TNumber n => Some (JNum n)
  | TTrue => Some (JBool true)
  | TFalse => Some (JBool false)
  | TNull => Some JNull
  | _ => None
  end.

Definition open_value (t : token) (stack : list frame) : option pstate :=
  match t with
  | TLBracket => Some (FArr [] :: stack, MFirst)
  | TLBrace => Some (FObj [] None :: stack, MKeyFirst)
  | _ => match scalar t with
         | Some v => complete v stack
         | None => None
         end
  end.

Definition pstep (ps : pstate) (t : token) : option pstate :=
  let (stack, m) := ps in
  match m with
  | MValue => open_value t stack
  | MFirst =>
      match t, stack with
      | TRBracket, FArr [] :: st => complete (JArr []) st
      | _, _ => open_value t stack
      end
  | MKeyFirst =>
      match t, stack with
      | TString k, FObj props None :: st => Some (FObj props (Some k) :: st, MColon)
      | TRBrace, FObj props None :: st => complete (JObj props) st
      | _, _ => None
      end
  | MKey =>
      match t, stack with
      | TString k, FObj props None :: st => Some (FObj props (Some k) :: st, MColon)
      | _, _ => None
      end
  | MColon =>
      match t with
      | TColon => Some (stack, MValue)
      | _ => None
      end
  | MAfter =>
      match t, stack with
      | TComma, FArr _ :: _ => Some (stack, MValue)
      | TRBracket, FArr acc :: st => complete (JArr (rev acc)) st
      | TComma, FObj _ None :: _ => Some (stack, MKey)
      | TRBrace, FObj props None :: st => complete (JObj props) st
      | _, _ => None
      end
  | MDone _ => None
  end.

Fixpoint run (ps : pstate) (toks : list token) : option value :=
  match toks with
  | [] => match ps with
          | (_, MDone v) => Some v
          | _ => None
          end
  | t :: r => match pstep ps t with
              | Some ps' => run ps' r
              | None => None
              end
  end.

(** [JSON.parse(text)] for a string; [None] is the [SyntaxError]. *)
Definition parse_text (text : string) : option value :=
  match lex LStart text with
  | Some toks => run ([], MValue) toks
  | None => None
  end.

(** [JSON.parse(v)]: the argument is converted to a string first. *)
Definition parse (v : value) : Res value :=
  text <- ToString v ;;
  match parse_text text with
  | Some w => Ok w
  | None => Throw SyntaxError
  end.

End JSON.

(** ** HTTP responses *)

(** The JSON body a handler answers with. *)
Inductive payload : Type :=
| Message (text : string)                        (* { message: text } *)
| ErrorOf (e : exn)                              (* { error: error.message } *)
| ErrorText (text : string)                      (* { error: text } *)
| ErrorDetails (text : string) (details : value) (* { error: text, details } *).

Record response : Type := mkResponse { status : nat; body : payload }.

(** 4xx: the request is at fault. *)
Definition client_error (r : response) : Prop := (400 <= status r < 500)%nat.

Definition nl : string := String Str.newline EmptyString.

(** [line.split(',')[1]]. *)
Definition second_field (line : string) : value :=
  match Str.split Str.comma line with
  | _ :: x :: _ => JStr x
  | _ => JUndefined
  end.

(** [date > cutoff] for a [Date] whose time value is [d] ([None] is the
    invalid date, which compares false with everything). *)
Definition later_than (d : option Z) (cutoff : Z) : bool :=
  match d with
  | Some t => (cutoff <? t)%Z
  | None => false
  end.

(** ** The retry loop of [sendDailyReport]

    The same text in src/unnamed/part_005 (lines 642-655) and in
    src/unnamed/part_000 (lines 114-127). *)

(** What the loop does that the outside sees. *)
Inductive event : Type :=
| SendMail          (* one call of transporter.sendMail *)
| Wait (ms : nat)   (* one setTimeout awaited *).

Section Retry.

(** The outcome of the call of [transporter.sendMail] that [n] calls
    preceded: [None] when it resolves, [Some e] when it rejects with [e]. *)
Variable sendMail : nat -> option exn.

(** [while (retries > 0) { try { send; return } catch { retries--; ... } }]
    entered with [retries] to go after [calls] calls. *)
Fixpoint retry_loop (retries calls : nat) : Res unit * list event :=
  match retries with
  | O => (Ok tt, [])
  | S remaining =>
      match sendMail calls with
      | None => (Ok tt, [SendMail])
      | Some error =>
          match remaining with
          | O => (Throw error, [SendMail])
          | S _ =>
              let (r, events) := retry_loop remaining (S calls) in
              (r, SendMail :: Wait 5000 :: events)
          end
      end
  end.

(** [let retries = 3; while ...]. *)
Definition send_with_retry : Res unit * list event := retry_loop 3 0.

End Retry.

Definition sends (events : list event) : nat :=
  List.length (filter (fun e => match e with SendMail => true | _ => false end) events).

(** ** First iteration: src/ses-bounces-handler.js

    The body of the request is the notification itself; the store is the
    text of [bounces_detailed.csv]. *)

Module V1.

Definition header : string := "Bounced Email,Timestamp,Source Email,Source IP".

(** The file as the start-up code writes it. *)
Definition initial_csv : string := header ++ nl.

(** The [try] block of [app.post('/sns')]: the text of the file afterwards. *)
Definition handle (message : value) (csv : string) : Res string :=
  kind <- get message "notificationType" ;;
  if is_str kind "Bounce" then
    bounce <- get message "bounce" ;;
    mail <- get message "mail" ;;
    recipients <- get bounce "bouncedRecipients" ;;
    recipient <- first recipients ;;
    bouncedEmail <- get recipient "emailAddress" ;;
    timestamp <- get bounce "timestamp" ;;
    sourceEmail <- get mail "source" ;;
    sourceIp <- get mail "sourceIp" ;;
    c1 <- ToString bouncedEmail ;;
    c2 <- ToString timestamp ;;
    c3 <- ToString sourceEmail ;;
    c4 <- ToString sourceIp ;;
    Ok (csv ++ c1 ++ "," ++ c2 ++ "," ++ c3 ++ "," ++ c4 ++ nl)%string
  else
    _ <- get message "Type" ;;
    Ok csv.

Definition post_sns (message : value) (csv : string) : response * string :=
  match handle message csv with
  | Ok csv' => (mkResponse 200 (Message "Notification processed"), csv')
  | Throw e => (mkResponse 500 (ErrorOf e), csv)
  end.

Section Cleanup.

(** [new Date(v).getTime()], [None] for the invalid date. *)
Variable Date_new : value -> option Z.

Definition keep (cutoff : Z) (line : string) : bool :=
  later_than (Date_new (second_field line)) cutoff.

(** The clean-up of the scheduled job; [cutoff] is the instant
    [thirtyDaysAgo] holds. *)
Definition cleanup (cutoff : Z) (csv : string) : string :=
  Str.join nl (filter (keep cutoff) (Str.split Str.newline csv)).

End Cleanup.

End V1.

(** ** Multi-strategy iteration: src/unnamed/part_003

    The envelope's [Message] is parsed by up to three strategies; rows are
    written quoted; the clean-up keeps the header by its index. *)

Module MultiParse.

Inductive strategy : Type := Direct | Unescaped | Double.

(** [JSON.parse(snsMessage.Message)]. *)
Definition direct (sns : value) : Res value :=
  m <- get sns "Message" ;;
  JSON.parse m.

(** [m.replace(..).replace(..)]: only a string has the method. *)
Definition replace_quotes (m : value) : Res string :=
  match m with
  | JStr s => Ok (Str.strip_outer_quotes (Str.unescape_quotes s))
  | _ => Throw TypeError
  end.

Definition unescaped (sns : value) : Res value :=
  m <- get sns "Message" ;;
  text <- replace_quotes m ;;
  JSON.parse (JStr text).

(** [JSON.parse(JSON.parse(snsMessage.Message))]. *)
Definition double (sns : value) : Res value :=
  m <- get sns "Message" ;;
  once <- JSON.parse m ;;
  JSON.parse once.

Inductive decoded : Type :=
| Parsed (by_strategy : strategy) (content : value)
| Unparseable (directParseError escapedParseError nestedParseError : exn).

(** The nested [try]/[catch] of lines 44-69. *)
Definition parse_message (sns : value) : decoded :=
  match direct sns with
  | Ok content => Parsed Direct content
  | Throw e1 =>
      match unescaped sns with
      | Ok content => Parsed Unescaped content
      | Throw e2 =>
          match double sns with
          | Ok content => Parsed Double content
          | Throw e3 => Unparseable e1 e2 e3
          end
      end
  end.

(** [bouncedRecipients.forEach(...)]: one quoted row per recipient, each
    appended before the next recipient is looked at. *)
Fixpoint save_recipients (bounce mail : value) (recipients : list value) (csv : string)
  : Res unit * string :=
  match recipients with
  | [] => (Ok tt, csv)
  | recipient :: rest =>
      let row :=
        bouncedEmail <- get recipient "emailAddress" ;;
        timestamp <- get bounce "timestamp" ;;
        sourceEmail <- get mail "source" ;;
        sourceIp <- get mail "sourceIp" ;;
        c1 <- ToString bouncedEmail ;;
        c2 <- ToString timestamp ;;
        c3 <- ToString sourceEmail ;;
        c4 <- ToString sourceIp ;;
        let d := String Str.dq EmptyString in
        Ok (d ++ c1 ++ d ++ "," ++ d ++ c2 ++ d ++ "," ++ d ++ c3 ++ d ++ ","
              ++ d ++ c4 ++ d ++ nl)%string in
      match row with
      | Ok line => save_recipients bounce mail rest (csv ++ line)
      | Throw e => (Throw e, csv)
      end
  end.

(** What follows the parsing, lines 73-96.  Line 73 writes the type to the
    log by string concatenation, which converts it to a string first. *)
Definition process (content : value) (csv : string) : Res unit * string :=
  match (kind <- get content "notificationType" ;; _ <- ToString kind ;; Ok kind) with
  | Throw e => (Throw e, csv)
  | Ok kind =>
      if is_str kind "Bounce" then
        let bounce := get_opt content "bounce" in
        let mail := get_opt content "mail" in
        if truthy bounce && truthy mail then
          match get_opt bounce "bouncedRecipients" with
          | JArr (r :: rest) => save_recipients bounce mail (r :: rest) csv
          | _ => (Ok tt, csv)
          end
        else (Ok tt, csv)
      else (Ok tt, csv)
  end.

(** [app.post('/sns')]; [is_json] is [req.is('application/json')]. *)
Definition post_sns (is_json : bool) (sns : value) (csv : string) : response * string :=
  if is_json then
    match parse_message sns with
    | Unparseable _ _ _ =>
        match get sns "Message" with
        | Ok m => (mkResponse 400 (ErrorDetails "Unable to parse Message content" m), csv)
        | Throw e => (mkResponse 500 (ErrorOf e), csv)
        end
    | Parsed _ content =>
        match process content csv with
        | (Ok _, csv') => (mkResponse 200 (Message "Notification processed"), csv')
        | (Throw e, csv') => (mkResponse 500 (ErrorOf e), csv')
        end
    end
  else (mkResponse 500 (ErrorOf (Error "Unsupported Content-Type")), csv).

Section Cleanup.

Variable Date_new : value -> option Z.

(** The callback of [allLines.filter], lines 202-208: the timestamp cell is
    unquoted before it is tested, so a line with no comma throws. *)
Definition keep (cutoff : Z) (index : nat) (line : string) : Res bool :=
  match index with
  | O => Ok true
  | S _ =>
      match second_field line with
      | JStr cell =>
          let timestamp := Str.remove_quotes cell in
          if String.eqb timestamp EmptyString then Ok false
          else Ok (later_than (Date_new (JStr timestamp)) cutoff)
      | _ => Throw TypeError
      end
  end.

Fixpoint filter_from (cutoff : Z) (index : nat) (lines : list string) : Res (list string) :=
  match lines with
  | [] => Ok []
  | line :: rest =>
      k <- keep cutoff index line ;;
      kept <- filter_from cutoff (S index) rest ;;
      Ok (if k then line :: kept else kept)
  end.

(** Lines 200-211; [cutoff] is the instant [sevenDaysAgo] holds.  When the
    filter throws nothing is written. *)
Definition cleanup (cutoff : Z) (csv : string) : Res string :=
  kept <- filter_from cutoff 0 (Str.split Str.newline csv) ;;
  Ok (Str.join nl kept).

End Cleanup.

End MultiParse.

(** ** Locked CSV iteration: src/unnamed/part_005, lines 513-913

    The store is [data/bounces_detailed.csv] behind csv-writer and csv-parse.
    The file is represented by its rows of cells, the header row first: what
    csv-parse reads from the text csv-writer wrote (the quoting of one is
    undone by the other; with nine columns no row is an empty line). *)

Module CsvStore.

(** The [header] option of [createObjectCsvStringifier]: id and title. *)
Definition columns : list (string * string) :=
  [ ("email", "Bounced Email");
    ("timestamp", "Timestamp");
    ("sourceEmail", "Source Email");
    ("sourceIp", "Source IP");
    ("bounceType", "Bounce Type");
    ("bounceSubType", "Bounce Sub-Type");
    ("diagnosticCode", "Diagnostic Code");
    ("reportingMTA", "Reporting MTA");
    ("feedbackId", "Feedback ID") ].

Definition ids : list string := map fst columns.
Definition titles : list string := map snd columns.

(** csv-writer's field stringifier: nothing for [undefined], [null] and the
    empty string, [String(v)] otherwise. *)
Definition cell (v : value) : Res string :=
  match v with
  | JUndefined | JNull => Ok EmptyString
  | _ => ToString v
  end.

Fixpoint cells (record : value) (names : list string) : Res (list string) :=
  match names with
  | [] => Ok []
  | name :: rest =>
      v <- get record name ;;
      c <- cell v ;;
      cs <- cells record rest ;;
      Ok (c :: cs)
  end.

(** [csvStringifier.stringifyRecords(records)]: each record gives the cells
    found under the header's ids. *)
Fixpoint stringifyRecords (records : list value) : Res (list (list string)) :=
  match records with
  | [] => Ok []
  | r :: rest =>
      row <- cells r ids ;;
      rows <- stringifyRecords rest ;;
      Ok (row :: rows)
  end.

(** [csvStringifier.getHeaderString()]. *)
Definition getHeaderString : list (list string) := [titles].

(** The object csv-parse builds for a row under [columns: true]: the cells
    under the names of the file's first row. *)
Definition record_of (names fields : list string) : value :=
  JObj (fold_left (fun props kv => set_prop props (fst kv) (JStr (snd kv)))
                  (combine names fields) []).

(** [csv.parse(csvContent, { columns: true, skip_empty_lines: true })]; a row
    whose length differs from the first row's is csv-parse's record-length
    error. *)
Definition csv_parse (table : list (list string)) : Res (list value) :=
  match table with
  | [] => Ok []
  | names :: rows =>
      if forallb (fun r => (List.length r =? List.length names)%nat) rows
      then Ok (map (record_of names) rows)
      else Throw (Error "Invalid Record Length")
  end.

(** *** The file system *)

(** A successful operation on the two files of the store. *)
Inductive op : Type :=
| LockWritten
| Appended (rows : list (list string))
| LockRemoved
| Rewritten (rows : list (list string)).

Record fs : Type := mkFs {
  csv : list (list string);   (* data/bounces_detailed.csv *)
  lock : bool;                (* whether bounces_detailed.csv.lock exists *)
  history : list op           (* the successful operations, latest first *)
}.

(** A computation over the file system that may throw. *)
Definition IO (A : Type) : Type := fs -> Res A * fs.

Definition ret {A : Type} (a : A) : IO A := fun st => (Ok a, st).
Definition raise {A : Type} (e : exn) : IO A := fun st => (Throw e, st).
Definition io_bind {A B : Type} (c : IO A) (k : A -> IO B) : IO B :=
  fun st => match c st with
            | (Ok a, st') => k a st'
            | (Throw e, st') => (Throw e, st')
            end.
Definition try_catch {A : Type} (c : IO A) (handler : exn -> IO A) : IO A :=
  fun st => match c st with
            | (Ok a, st') => (Ok a, st')
            | (Throw e, st') => handler e st'
            end.
Definition lift {A : Type} (r : Res A) : IO A := fun st => (r, st).

Declare Scope io_scope.
Delimit Scope io_scope with io.
Notation "x <<- c ;; k" := (io_bind c (fun x => k))
  (at level 100, c at next level, right associativity) : io_scope.

(** What the environment does to the file operations of one [appendToCsv]:
    [None] lets the operation through, [Some e] makes it reject with [e]. *)
Record faults : Type := mkFaults {
  on_lock_write : option exn;    (* fs.writeFile(lockFile, '') *)
  on_append : option exn;        (* fs.appendFile(csvFilePath, csvString) *)
  on_unlink : option exn;        (* fs.unlink(lockFile) in the try block *)
  on_unlink_again : option exn   (* fs.unlink(lockFile) in the catch block *)
}.

Definition no_faults : faults := mkFaults None None None None.

(** [fs.writeFile(lockFile, '')]: creates the file or empties it. *)
Definition writeLock (fault : option exn) : IO unit :=
  fun st => match fault with
            | Some e => (Throw e, st)
            | None => (Ok tt, mkFs (csv st) true (LockWritten :: history st))
            end.

(** [fs.appendFile(csvFilePath, csvString)]. *)
Definition appendFile (fault : option exn) (rows : list (list string)) : IO unit :=
  fun st => match fault with
            | Some e => (Throw e, st)
            | None => (Ok tt, mkFs (csv st ++ rows) (lock st) (Appended rows :: history st))
            end.

(** [fs.unlink(lockFile)]: rejects when the file is not there. *)
Definition unlinkLock (fault : option exn) : IO unit :=
  fun st => match fault with
            | Some e => (Throw e, st)
            | None =>
                if lock st then (Ok tt, mkFs (csv st) false (LockRemoved :: history st))
                else (Throw (SystemError "ENOENT"), st)
            end.

(** [appendToCsv(data)], lines 792-813. *)
Definition appendToCsv (env : faults) (data : list value) : IO unit :=
  try_catch
    (_ <<- writeLock (on_lock_write env) ;;
     csvString <<- lift (stringifyRecords data) ;;
     _ <<- appendFile (on_append env) csvString ;;
     unlinkLock (on_unlink env))%io
    (fun error =>
       (_ <<- try_catch (unlinkLock (on_unlink_again env)) (fun unlinkError => ret tt) ;;
        raise error)%io).

(** *** The endpoint *)

Section Endpoint.

(** [new URL(text).hostname], [None] when the constructor throws. *)
Variable URL_hostname : string -> option string.

(** The canonical string of [verifySignature]: computed, never used. *)
Fixpoint stringToSign (message : value) (keys : list string) : Res string :=
  match keys with
  | [] => Ok EmptyString
  | key :: rest =>
      v <- get message key ;;
      part <- (if truthy v
               then (text <- ToString v ;; Ok (key ++ nl ++ text ++ nl)%string)
               else Ok EmptyString) ;;
      others <- stringToSign message rest ;;
      Ok (part ++ others)%string
  end.

Definition signed_keys : list string :=
  ["Message"; "MessageId"; "Subject"; "Timestamp"; "TopicArn"; "Type"].

(** [verifySignature(message)], lines 708-749: any exception is [false]. *)
Definition verifySignature (message : value) : bool :=
  let checked :=
    url <- get message "SigningCertURL" ;;
    signature <- get message "Signature" ;;
    version <- get message "SignatureVersion" ;;
    if negb (truthy url) || negb (truthy signature) || negb (truthy version)
    then Ok false
    else
      text <- ToString url ;;
      match URL_hostname text with
      | None => Throw TypeError
      | Some hostname =>
          if negb (Str.endsWith hostname ".amazonaws.com") then Ok false
          else (_ <- stringToSign message signed_keys ;; Ok true)
      end in
  match checked with
  | Ok b => b
  | Throw _ => false
  end.

(** The two ways [processSNSMessage] reads the inner content, lines 759-773. *)
Definition decode (message : value) : Res value :=
  m <- get message "Message" ;;
  if typeof_object m then Ok m
  else match JSON.parse m with
       | Ok content => Ok content
       | Throw _ => Throw (Error "Invalid Message format")
       end.

(** [processSNSMessage(message)], lines 752-789: the content of a bounce,
    [null] for anything else. *)
Definition processSNSMessage (message : value) : Res value :=
  if verifySignature message then
    messageContent <- decode message ;;
    kind <- get messageContent "notificationType" ;;
    if is_str kind "Bounce" then Ok messageContent else Ok JNull
  else Throw (Error "Invalid SNS message signature").

(** [x || placeholder]. *)
Definition or_default (x : value) (placeholder : string) : value :=
  if truthy x then x else JStr placeholder.

(** The callback of [bouncedRecipients.map], lines 831-841. *)
Definition bounceRecord (bounce mail recipient : value) : Res value :=
  emailAddress <- get recipient "emailAddress" ;;
  timestamp <- get bounce "timestamp" ;;
  source <- get mail "source" ;;
  sourceIp <- get mail "sourceIp" ;;
  bounceType <- get bounce "bounceType" ;;
  bounceSubType <- get bounce "bounceSubType" ;;
  diagnosticCode <- get recipient "diagnosticCode" ;;
  reportingMTA <- get bounce "reportingMTA" ;;
  feedbackId <- get bounce "feedbackId" ;;
  Ok (JObj [ ("email", emailAddress);
             ("timestamp", timestamp);
             ("sourceEmail", source);
             ("sourceIp", sourceIp);
             ("bounceType", or_default bounceType "Unknown");
             ("bounceSubType", or_default bounceSubType "Unknown");
             ("diagnosticCode", or_default diagnosticCode "Not provided");
             ("reportingMTA", or_default reportingMTA "Not provided");
             ("feedbackId", or_default feedbackId "Not provided") ]).

Fixpoint map_res {A B : Type} (f : A -> Res B) (l : list A) : Res (list B) :=
  match l with
  | [] => Ok []
  | x :: rest =>
      y <- f x ;;
      ys <- map_res f rest ;;
      Ok (y :: ys)
  end.

(** [bounce.bouncedRecipients.map(...)]: only an array has the method. *)
Definition bounceRecords (bounce mail : value) : Res (list value) :=
  match get_opt bounce "bouncedRecipients" with
  | JArr recipients => map_res (bounceRecord bounce mail) recipients
  | _ => Throw TypeError
  end.

(** The guard of line 827: [!bounce?.bouncedRecipients?.length || !mail]. *)
Definition invalid_structure (bounce mail : value) : bool :=
  negb (truthy (get_opt (get_opt bounce "bouncedRecipients") "length"))
  || negb (truthy mail).

(** The [try] block of [app.post('/sns')], lines 818-844: the message of
    the 200 response, or the exception the [catch] receives. *)
Definition handle (env : faults) (body : value) : IO string :=
  (messageContent <<- lift (processSNSMessage body) ;;
   if negb (truthy messageContent) then ret "Non-bounce notification ignored"
   else
     bounce <<- lift (get messageContent "bounce") ;;
     mail <<- lift (get messageContent "mail") ;;
     if invalid_structure bounce mail
     then raise (Error "Invalid bounce data structure")
     else
       records <<- lift (bounceRecords bounce mail) ;;
       _ <<- appendToCsv env records ;;
       ret "Bounce processed successfully")%io.

(** [app.post('/sns')]: every exception is answered with the same 500. *)
Definition post_sns (env : faults) (body : value) (st : fs) : response * fs :=
  match handle env body st with
  | (Ok text, st') => (mkResponse 200 (Message text), st')
  | (Throw _, st') => (mkResponse 500 (ErrorText "Internal server error"), st')
  end.

End Endpoint.


(** *** The scheduled job *)

Section Job.

Variable Date_new : value -> option Z.
Variable sendMail : nat -> option exn.

(** [records.filter(record => new Date(record['Timestamp']) > date)]. *)
Definition newer_than (date : Z) (records : list value) : list value :=
  filter (fun record => later_than (Date_new (get_opt record "Timestamp")) date) records.

(** [sendDailyReport(transporter)], lines 591-660; [dayAgo] is the instant
    [twentyFourHoursAgo] holds.  The [catch] logs and throws again. *)
Definition sendDailyReport (dayAgo : Z) (st : fs) : Res unit * list event :=
  match csv_parse (csv st) with
  | Throw e => (Throw e, [])
  | Ok records =>
      match newer_than dayAgo records with
      | [] => (Ok tt, [])
      | recentRecords =>
          match stringifyRecords recentRecords with
          | Throw e => (Throw e, [])
          | Ok _ => send_with_retry sendMail
          end
      end
  end.

(** [fs.writeFile(csvFilePath, text)]. *)
Definition writeFile (rows : list (list string)) : IO unit :=
  fun st => (Ok tt, mkFs rows (lock st) (Rewritten rows :: history st)).

(** [cleanupOldData()], lines 663-705; [cutoff] is the instant [cutoffDate]
    holds and [pruning] the outcome of the loop over the backup directories,
    which comes first and leaves the file alone. *)
Definition cleanupOldData (pruning : option exn) (cutoff : Z) : IO unit :=
  match pruning with
  | Some e => raise e
  | None =>
      (records <<- (fun st => (csv_parse (csv st), st)) ;;
       let recentRecords := newer_than cutoff records in
       csvString <<- lift (stringifyRecords recentRecords) ;;
       writeFile (getHeaderString ++ csvString))%io
  end.

(** The callback of [cron.schedule], lines 883-901: the error it logs, if
    any, what the transport saw, and the files afterwards.  [backup] and
    [transporter] are the outcomes of the compressed backup and of
    [createTransporter()]. *)
Definition cron_job (backup transporter pruning : option exn) (dayAgo cutoff : Z) (st : fs)
  : option exn * list event * fs :=
  match backup with
  | Some e => (Some e, [], st)
  | None =>
      match transporter with
      | Some e => (Some e, [], st)
      | None =>
          match sendDailyReport dayAgo st with
          | (Throw e, events) => (Some e, events, st)
          | (Ok _, events) =>
              match cleanupOldData pruning cutoff st with
              | (Throw e, st') => (Some e, events, st')
              | (Ok _, st') => (None, events, st')
              end
          end
      end
  end.

End Job.

End CsvStore.

(** ** Database iteration: src/unnamed/part_000

    Records go to a MongoDB collection; the timestamp is a [Date]. *)

Module Mongo.

(** A document handed to [Bounce.insertMany]; the timestamp is the time
    value of the [Date], [None] for the invalid date. *)
Record document : Type := mkDocument {
  email : value;
  timestamp : option Z;
  sourceEmail : value;
  sourceIp : value;
  bounceType : value;
  bounceSubType : value;
  diagnosticCode : value;
  reportingMTA : value;
  feedbackId : value
}.

Section Endpoint.

Variable Date_new : value -> option Z.

(** The callback of [bouncedRecipients.map], lines 232-242. *)
Definition bounceRecord (bounce mail recipient : value) : Res document :=
  emailAddress <- get recipient "emailAddress" ;;
  ts <- get bounce "timestamp" ;;
  source <- get mail "source" ;;
  ip <- get mail "sourceIp" ;;
  kind <- get bounce "bounceType" ;;
  subType <- get bounce "bounceSubType" ;;
  code <- get recipient "diagnosticCode" ;;
  mta <- get bounce "reportingMTA" ;;
  feedback <- get bounce "feedbackId" ;;
  Ok (mkDocument emailAddress (Date_new ts) source ip
        (CsvStore.or_default kind "Unknown")
        (CsvStore.or_default subType "Unknown")
        (CsvStore.or_default code "Not provided")
        (CsvStore.or_default mta "Not provided")
        (CsvStore.or_default feedback "Not provided")).

End Endpoint.

Section Report.

Variable sendMail : nat -> option exn.

(** [sendDailyReport(transporter)], lines 70-131, given what the query for
    the last 24 hours returned: the [catch] logs the error and returns. *)
Definition sendDailyReport (recentRecords : Res (list document)) : option exn * list event :=
  match recentRecords with
  | Throw e => (Some e, [])
  | Ok [] => (None, [])
  | Ok _ =>
      match send_with_retry sendMail with
      | (Ok _, events) => (None, events)
      | (Throw e, events) => (Some e, events)
      end
  end.

End Report.

End Mongo.

(** ** A host to run examples on

    An instance of the host parameters, exact on the inputs the examples
    use: ISO timestamps with milliseconds and the Z suffix, and lower-case
    https URLs. *)

Module Host.

Definition digit (c : ascii) : option Z :=
  if is_digit c then Some (Z.of_nat (nat_of_ascii c) - 48)%Z else None.

Fixpoint number (s : string) (acc : Z) : option Z :=
  match s with
  | EmptyString => Some acc
  | String c r => match digit c with
                  | Some d => number r (acc * 10 + d)%Z
                  | None => None
                  end
  end.

(** Days from 1970-01-01 to the given day of the proleptic Gregorian
    calendar. *)
Definition days_from_civil (y m d : Z) : Z :=
  let y' := if (m <=? 2)%Z then (y - 1)%Z else y in
  let era := (y' / 400)%Z in
  let yoe := (y' - era * 400)%Z in
  let mp := if (m <=? 2)%Z then (m + 9)%Z else (m - 3)%Z in
  let doy := ((153 * mp + 2) / 5 + d - 1)%Z in
  let doe := (yoe * 365 + yoe / 4 - yoe / 100 + doy)%Z in
  (era * 146097 + doe - 719468)%Z.

Definition is_leap (y : Z) : bool :=
  ((y mod 4 =? 0) && negb (y mod 100 =? 0) || (y mod 400 =? 0))%Z.

Definition days_in_month (y m : Z) : Z :=
  if (m =? 2)%Z then (if is_leap y then 29 else 28)%Z
  else if ((m =? 4) || (m =? 6) || (m =? 9) || (m =? 11))%Z then 30%Z
  else 31%Z.

Definition sep_ok (s : string) (pos : nat) (c : string) : bool :=
  String.eqb (substring pos 1 s) c.

(** The time value of [YYYY-MM-DDTHH:mm:ss.sssZ]. *)
Definition iso_time (s : string) : option Z :=
  if (String.length s =? 24)%nat
     && sep_ok s 4 "-" && sep_ok s 7 "-" && sep_ok s 10 "T" && sep_ok s 13 ":"
     && sep_ok s 16 ":" && sep_ok s 19 "." && sep_ok s 23 "Z"
  then
    match number (substring 0 4 s) 0, number (substring 5 2 s) 0,
          number (substring 8 2 s) 0, number (substring 11 2 s) 0,
          number (substring 14 2 s) 0, number (substring 17 2 s) 0,
          number (substring 20 3 s) 0 with
    | Some y, Some mo, Some d, Some h, Some mi, Some sec, Some ms =>
        if ((1 <=? mo) && (mo <=? 12) && (1 <=? d) && (d <=? days_in_month y mo)
            && (h <=? 23) && (mi <=? 59) && (sec <=? 59))%Z
        then Some ((((days_from_civil y mo d * 24 + h) * 60 + mi) * 60 + sec) * 1000 + ms)%Z
        else None
    | _, _, _, _, _, _, _ => None
    end
  else None.

(** [new Date(v).getTime()] where [v] is an ISO timestamp, [undefined] or
    no date at all. *)
Definition Date_new (v : value) : option Z :=
  match v with
  | JStr s => iso_time s
  | _ => None
  end.

Definition host_char (c : ascii) : bool :=
  let n := nat_of_ascii c in
  ((97 <=? n) && (n <=? 122) || (48 <=? n) && (n <=? 57) || (n =? 45) || (n =? 46))%nat.

Fixpoint host_prefix (s : string) : string :=
  match s with
  | EmptyString => EmptyString
  | String c r => if host_char c then String c (host_prefix r) else EmptyString
  end.

(** [new URL(text).hostname] for [https://host/path]. *)
Definition URL_hostname (text : string) : option string :=
  if String.eqb (substring 0 8 text) "https://" then
    let rest := substring 8 (String.length text - 8) text in
    let host := host_prefix rest in
    if negb (String.eqb host EmptyString)
       && String.eqb (substring (String.length host) 1 rest) "/"
    then Some host else None
  else None.

End Host.

(** ** Sample inputs *)

Module Samples.

(** A bounce notification of SES for two recipients, as JSON text. *)
Definition notification_text : string :=
  Str.q "{'notificationType':'Bounce','bounce':{'bounceType':'Permanent','bouncedRecipients':[{'emailAddress':'a@example.com'},{'emailAddress':'b@example.com','diagnosticCode':'smtp; 550'}],'timestamp':'2030-01-02T03:04:05.678Z'},'mail':{'source':'sender@example.com','sourceIp':'192.0.2.1'}}".

(** A notification with the given recipients, timestamp and [mail]. *)
Definition notification (recipients : list value) (timestamp mail : value) : value :=
  JObj [ ("notificationType", JStr "Bounce");
         ("bounce", JObj [ ("bounceType", JStr "Permanent");
                           ("bouncedRecipients", JArr recipients);
                           ("timestamp", timestamp) ]);
         ("mail", mail) ].

Definition recipient_a : value := JObj [("emailAddress", JStr "a@example.com")].
Definition recipient_b : value :=
  JObj [("emailAddress", JStr "b@example.com"); ("diagnosticCode", JStr "smtp; 550")].
Definition mail : value :=
  JObj [("source", JStr "sender@example.com"); ("sourceIp", JStr "192.0.2.1")].
Definition instant : value := JStr "2030-01-02T03:04:05.678Z".

(** What [notification_text] parses to. *)
Definition two_recipients : value := notification [recipient_a; recipient_b] instant mail.

(** An SNS envelope around [m], signed by an amazonaws.com certificate. *)
Definition envelope (m : value) : value :=
  JObj [ ("Type", JStr "Notification");
         ("Message", m);
         ("SigningCertURL", JStr "https://sns.us-east-1.amazonaws.com/cert.pem");
         ("Signature", JStr "c2ln");
         ("SignatureVersion", JStr "1") ].

(** A freshly initialised store, no lock held. *)
Definition empty_store : CsvStore.fs := CsvStore.mkFs CsvStore.getHeaderString false [].

End Samples.

(** [k] delivery attempts with the five-second wait between one attempt and
    the next: what the specification's words describe. *)
Fixpoint attempts (k : nat) : list event :=
  match k with
  | O => []
  | S O => [SendMail]
  | S k' => SendMail :: Wait 5000 :: attempts k'
  end.

(** ** The decoder of the specification

    The specification's words for the decoding of the inner [Message], to
    compare the decoders of the code with: four strategies tried in order,
    (a) the message is a structured object already, (b) parse it once,
    (c) strip one layer of escaping and the surrounding quotes, then parse,
    (d) parse it, then parse the result; the first success wins, and when
    all fail the error carries the raw message. *)

Module Spec.

Inductive attempt : Type := AsObject | ParseOnce | StripThenParse | ParseTwice.

Definition as_object (m : value) : option value :=
  match m with
  | JObj _ => Some m
  | _ => None
  end.

Definition parse_once (m : value) : option value :=
  match m with
  | JStr s => JSON.parse_text s
  | _ => None
  end.

Definition strip_then_parse (m : value) : option value :=
  match m with
  | JStr s => JSON.parse_text (Str.strip_outer_quotes (Str.unescape_quotes s))
  | _ => None
  end.

Definition parse_twice (m : value) : option value :=
  match parse_once m with
  | Some once => parse_once once
  | None => None
  end.

Definition strategies : list (attempt * (value -> option value)) :=
  [ (AsObject, as_object); (ParseOnce, parse_once);
    (StripThenParse, strip_then_parse); (ParseTwice, parse_twice) ].

Inductive outcome : Type :=
| Decoded (by_attempt : attempt) (content : value)
| MalformedMessage (raw : value).

Fixpoint first_success (l : list (attempt * (value -> option value))) (m : value) : outcome :=
  match l with
  | [] => MalformedMessage m
  | (a, f) :: rest =>
      match f m with
      | Some content => Decoded a content
      | None => first_success rest m
      end
  end.

Definition decode (m : value) : outcome := first_success strategies m.

End Spec.

(** ** The order of the file operations

    In a history (latest first) every append to the data file comes right
    after the lock file was written. *)
Fixpoint appends_under_lock (h : list CsvStore.op) : bool :=
  match h with
  | [] => true
  | CsvStore.Appended _ :: rest =>
      match rest with
      | CsvStore.LockWritten :: _ => appends_under_lock rest
      | _ => false
      end
  | _ :: rest => appends_under_lock rest
  end.

(** ** Rows of the locked CSV store *)

(** A row of nine empty cells. *)
Definition blank_row : list string := repeat EmptyString 9.

(** The row's timestamp cell is a date after [cutoff]. *)
Definition row_is_recent (Date_new : value -> option Z) (cutoff : Z) (row : list string) : bool :=
  later_than (Date_new (JStr (nth 1 row EmptyString))) cutoff.

Definition nine_cells (row : list string) : Prop := List.length row = 9%nat.

(** ** Vocabulary of the properties *)

(** A field the event leaves unset. *)
Definition unset (v : value) : Prop := v = JUndefined \/ v = JNull \/ v = JStr EmptyString.

(** Neither missing, nor [null], nor the empty string. *)
Definition filled (v : value) : Prop :=
  v <> JUndefined /\ v <> JNull /\ v <> JStr EmptyString.

(** What the file holds for an optional field whose value in the event is
    [v]: the placeholder when [v] is falsy, the text of [v] otherwise, which
    is [v] itself for a non-empty string and empty for an array at most. *)
Definition stored_optional (v : value) (placeholder cell : string) : Prop :=
  (truthy v = false -> cell = placeholder)
  /\ (truthy v = true -> CsvStore.cell v = Ok cell)
  /\ (forall s, v = JStr s -> s <> EmptyString -> cell = s)
  /\ (cell = EmptyString -> exists elems, v = JArr elems).

(** What the file holds for a field that is copied: the text of the value,
    nothing for a missing or [null] one. *)
Definition stored_copy (v : value) (cell : string) : Prop :=
  CsvStore.cell v = Ok cell
  /\ (v = JUndefined \/ v = JNull -> cell = EmptyString).

(** The row of a recipient, cell by cell. *)
Definition stored_row (bounce mail recipient : value) (row : list string) : Prop :=
  nine_cells row
  /\ stored_copy (get_opt recipient "emailAddress") (nth 0 row EmptyString)
  /\ stored_copy (get_opt bounce "timestamp") (nth 1 row EmptyString)
  /\ stored_copy (get_opt mail "source") (nth 2 row EmptyString)
  /\ stored_copy (get_opt mail "sourceIp") (nth 3 row EmptyString)
  /\ stored_optional (get_opt bounce "bounceType") "Unknown" (nth 4 row EmptyString)
  /\ stored_optional (get_opt bounce "bounceSubType") "Unknown" (nth 5 row EmptyString)
  /\ stored_optional (get_opt recipient "diagnosticCode") "Not provided"
       (nth 6 row EmptyString)
  /\ stored_optional (get_opt bounce "reportingMTA") "Not provided" (nth 7 row EmptyString)
  /\ stored_optional (get_opt bounce "feedbackId") "Not provided" (nth 8 row EmptyString).

(** The parser has not finished with [undefined]. *)
Definition defined_result (ps : JSON.pstate) : Prop :=
  match snd ps with
  | JSON.MDone v => v <> JUndefined
  | _ => True
  end.

(** The five fields the record builders give a placeholder to. *)
Definition optional_ids : list string :=
  ["bounceType"; "bounceSubType"; "diagnosticCode"; "reportingMTA"; "feedbackId"].

(** ** More of src/unnamed/part_003: the row of a recipient, the daily job *)

Module MultiParseJob.

(** The row that the callback of [forEach] appends for one recipient,
    lines 81-86. *)
Definition quoted_row (bounce mail recipient : value) : Res string :=
  bouncedEmail <- get recipient "emailAddress" ;;
  timestamp <- get bounce "timestamp" ;;
  sourceEmail <- get mail "source" ;;
  sourceIp <- get mail "sourceIp" ;;
  c1 <- ToString bouncedEmail ;;
  c2 <- ToString timestamp ;;
  c3 <- ToString sourceEmail ;;
  c4 <- ToString sourceIp ;;
  let d := String Str.dq EmptyString in
  Ok (d ++ c1 ++ d ++ "," ++ d ++ c2 ++ d ++ "," ++ d ++ c3 ++ d ++ ","
        ++ d ++ c4 ++ d ++ nl)%string.

(** Three bytes that are the UTF-8 of a white space or line terminator of
    ECMAScript beyond U+00FF. *)
Definition space3 (a b c : nat) : bool :=
  (((a =? 225) && (b =? 154) && (c =? 128))
   || ((a =? 226) && (b =? 128)
       && (((128 <=? c) && (c <=? 138)) || (c =? 168) || (c =? 169) || (c =? 175)))
   || ((a =? 226) && (b =? 129) && (c =? 159))
   || ((a =? 227) && (b =? 128) && (c =? 128))
   || ((a =? 239) && (b =? 187) && (c =? 191)))%nat.

(** [line.trim() === '']: white space and line terminators only. *)
Fixpoint is_blank (s : string) : bool :=
  match s with
  | EmptyString => true
  | String a r =>
      let n := nat_of_ascii a in
      if (((9 <=? n) && (n <=? 13)) || (n =? 32))%nat then is_blank r
      else match r with
           | String b r2 =>
               if ((n =? 194) && (nat_of_ascii b =? 160))%nat then is_blank r2
               else match r2 with
                    | String c r3 =>
                        if space3 n (nat_of_ascii b) (nat_of_ascii c) then is_blank r3
                        else false
                    | EmptyString => false
                    end
           | EmptyString => false
           end
  end.

Section Tick.

Variable Date_new : value -> option Z.

(** The callback of [lines.filter] for the report, lines 151-159. *)
Definition in_report (dayAgo : Z) (index : nat) (line : string) : Res bool :=
  match index with
  | O => Ok true
  | S _ =>
      if is_blank line then Ok false
      else match second_field line with
           | JStr cell =>
               Ok (later_than (Date_new (JStr (Str.remove_quotes cell))) dayAgo)
           | _ => Throw TypeError
           end
  end.

Fixpoint report_from (dayAgo : Z) (index : nat) (lines : list string) : Res (list string) :=
  match lines with
  | [] => Ok []
  | line :: rest =>
      k <- in_report dayAgo index line ;;
      kept <- report_from dayAgo (S index) rest ;;
      Ok (if k then line :: kept else kept)
  end.

(** How a run of the job ends: it returns at line 164 with nothing to
    report, an exception leaves the callback, or the data file is rewritten
    (what follows only removes old backup files). *)
Inductive ending : Type :=
| NothingToReport
| Threw (e : exn)
| Rewrote.

Record run : Type := mkRun {
  how : ending;
  mailed : option string;   (* the attachment handed to transporter.sendMail *)
  backup : option string;   (* the text copied to the backup file *)
  file : string             (* bounces_detailed.csv afterwards *)
}.

(** The callback of [cron.schedule], lines 141-211, on an existing data
    file; [dayAgo] and [cutoff] are the instants [twentyFourHoursAgo] and
    [sevenDaysAgo] hold. *)
Definition tick (dayAgo cutoff : Z) (csv : string) : run :=
  match report_from dayAgo 0 (Str.split Str.newline csv) with
  | Throw e => mkRun (Threw e) None None csv
  | Ok filteredLines =>
      if (List.length filteredLines <=? 1)%nat then mkRun NothingToReport None None csv
      else
        let last24HoursCsv := Str.join nl filteredLines in
        match MultiParse.cleanup Date_new cutoff csv with
        | Throw e => mkRun (Threw e) (Some last24HoursCsv) (Some csv) csv
        | Ok text => mkRun Rewrote (Some last24HoursCsv) (Some csv) text
        end
  end.

End Tick.

(** The requests to [/sns] in the order they are handled, each with what
    [req.is('application/json')] says of it: the text of the data file after
    the last one.  (The handler is synchronous; no request sees the file in
    the middle of another.) *)
Definition serve (requests : list (bool * value)) (csv : string) : string :=
  fold_left (fun text request => snd (MultiParse.post_sns (fst request) (snd request) text))
            requests csv.

End MultiParseJob.

(** ** More of src/unnamed/part_000: the endpoint *)

Module MongoEndpoint.

Section Endpoint.

Variable URL_hostname : string -> option string.
Variable Date_new : value -> option Z.

(** [verifySignature(message)], lines 134-154. *)
Definition verifySignature (message : value) : bool :=
  let checked :=
    url <- get message "SigningCertURL" ;;
    signature <- get message "Signature" ;;
    version <- get message "SignatureVersion" ;;
    if negb (truthy url) || negb (truthy signature) || negb (truthy version)
    then Ok false
    else
      text <- ToString url ;;
      match URL_hostname text with
      | None => Throw TypeError
      | Some hostname => Ok (Str.endsWith hostname ".amazonaws.com")
      end in
  match checked with
  | Ok b => b
  | Throw _ => false
  end.

(** The [try] block of [processSNSMessage], lines 159-181. *)
Definition processSNSMessage_try (message : value) : Res value :=
  if verifySignature message then
    messageContent <- CsvStore.decode message ;;
    kind <- get messageContent "notificationType" ;;
    if is_str kind "Bounce" then Ok messageContent else Ok JNull
  else Throw (Error "Invalid SNS message signature").

(** [processSNSMessage(message)], lines 157-185: the [catch] logs the error
    and falls off the end of the function. *)
Definition processSNSMessage (message : value) : value :=
  match processSNSMessage_try message with
  | Ok v => v
  | Throw _ => JUndefined
  end.

(** [app.post('/sns')], lines 216-251: the answer, and the documents handed
    to [Bounce.insertMany] when it is called; [insert] is the outcome of
    that call. *)
Definition post_sns (insert : option exn) (body : value)
  : response * option (list Mongo.document) :=
  let messageContent := processSNSMessage body in
  if negb (truthy messageContent)
  then (mkResponse 200 (Message "Non-bounce notification ignored"), None)
  else
    let failed := mkResponse 500 (ErrorText "Internal server error") in
    match get messageContent "bounce", get messageContent "mail" with
    | Ok bounce, Ok mail =>
        if CsvStore.invalid_structure bounce mail then (failed, None)
        else match get_opt bounce "bouncedRecipients" with
             | JArr recipients =>
                 match CsvStore.map_res (Mongo.bounceRecord Date_new bounce mail) recipients with
                 | Ok bounceRecords =>
                     match insert with
                     | None => (mkResponse 200 (Message "Bounce processed successfully"),
                                Some bounceRecords)
                     | Some _ => (failed, Some bounceRecords)
                     end
                 | Throw _ => (failed, None)
                 end
             | _ => (failed, None)
             end
    | _, _ => (failed, None)
    end.

End Endpoint.

End MongoEndpoint.

(** ** Further vocabulary *)

(** The character [c] occurs in [s]. *)
Fixpoint has_char (c : ascii) (s : string) : bool :=
  match s with
  | EmptyString => false
  | String d r => Ascii.eqb d c || has_char c r
  end.

(** Every double quote of [s] gets a backslash before it: the escaping that
    the second strategy of part_003 takes away. *)
Fixpoint escape_quotes (s : string) : string :=
  match s with
  | EmptyString => EmptyString
  | String c r =>
      if Ascii.eqb c Str.dq then String Str.backslash (String Str.dq (escape_quotes r))
      else String c (escape_quotes r)
  end.

(** The line is not blank and its second cell, unquoted, is a date after
    [dayAgo]: what the report of part_003 asks of a data line. *)
Definition in_last_day (Date_new : value -> option Z) (dayAgo : Z) (line : string) : bool :=
  negb (MultiParseJob.is_blank line)
  && match second_field line with
     | JStr cell => later_than (Date_new (JStr (Str.remove_quotes cell))) dayAgo
     | _ => false
     end.

(** The text ends with a newline. *)
Definition ends_with_newline (s : string) : Prop := exists t, s = (t ++ nl)%string.

(** The texts of [lines] one after the other. *)
Definition glue (lines : list string) : string := fold_right append EmptyString lines.

(** * Properties *)

(** ** Strings and lines *)

Lemma split_nonempty (sep : ascii) (s : string) :
  exists h t, Str.split sep s = h :: t.
Proof.
  destruct s as [|c r]; simpl.
  - eauto.
  - destruct (Ascii.eqb c sep); [eauto|].
    destruct (Str.split sep r); eauto.
Qed.

(** A text that ends with the separator splits into its lines and one more,
    empty, line. *)
Lemma split_trailing_separator (sep : ascii) (s : string) :
  Str.split sep (s ++ String sep EmptyString) = Str.split sep s ++ [EmptyString].
Proof.
  induction s as [|c r IH]; simpl.
  - rewrite Ascii.eqb_refl. reflexivity.
  - destruct (Ascii.eqb c sep).
    + rewrite IH. reflexivity.
    + rewrite IH. destruct (split_nonempty sep r) as (h & t & E).
      rewrite E. reflexivity.
Qed.

Lemma split_length_pos (sep : ascii) (s : string) :
  (0 < List.length (Str.split sep s))%nat.
Proof.
  destruct (split_nonempty sep s) as (h & t & E). rewrite E. simpl. lia.
Qed.

Lemma parsed_sample :
  JSON.parse_text Samples.notification_text = Some Samples.two_recipients.
Proof. vm_compute. reflexivity. Qed.

(** [JSON.parse] on the corners of the grammar. *)
Example parse_corners :
  JSON.parse_text (Str.q " { 'a' : [ 1 , -0.5e+3 , true , null , 'x\u0041\n' ] , 'b' : {} } ")
  = Some (JObj [ ("a", JArr [JNum "1"; JNum "-0.5e+3"; JBool true; JNull;
                             JStr (String "x" (String "A" nl))]);
                 ("b", JObj []) ])
  /\ JSON.parse_text (Str.q "{'a':1,'b':2,'a':3}") = Some (JObj [("a", JNum "3"); ("b", JNum "2")])
  /\ JSON.parse_text "[1,]" = None
  /\ JSON.parse_text "01" = None
  /\ JSON.parse_text "1." = None
  /\ JSON.parse_text (Str.q "{'a':1,}") = None
  /\ JSON.parse_text (Str.q "'\u00e9'") = Some (JStr "é")
  /\ JSON.parse_text "" = None
  /\ JSON.parse_text "undefined" = None
  /\ JSON.parse JNull = Ok JNull
  /\ JSON.parse (JArr [JNum "7"]) = Ok (JNum "7").
Proof. vm_compute. repeat split. Qed.

(** Numbers as [String] and [Boolean] see them. *)
Example number_corners :
  map number_to_string
      [ "1.50"; "1e3"; "-0"; "1E400"; "0.1"; "0.30000000000000004"; "1e21"; "1e-7";
        "0.000001"; "5e-324"; "2.5e-324"; "1e-400"; "1e23"; "9007199254740993";
        "-0.5e+3"; "123456789012345678901234567890"; "1.7976931348623157e308" ]
  = [ "1.5"; "1000"; "0"; "Infinity"; "0.1"; "0.30000000000000004"; "1e+21"; "1e-7";
      "0.000001"; "5e-324"; "5e-324"; "0"; "1e+23"; "9007199254740992";
      "-500"; "1.2345678901234568e+29"; "1.7976931348623157e+308" ]
  /\ map (fun n => truthy (JNum n)) ["0"; "-0.0e7"; "1e-400"; "2.5e-324"; "1"; "1E400"]
     = [false; false; false; true; true; true].
Proof. vm_compute. split; reflexivity. Qed.

(** ** Decoding the inner message *)

Lemma object_text_is_not_JSON : JSON.parse_text "[object Object]" = None.
Proof. vm_compute. reflexivity. Qed.

Lemma parse_string (s : string) :
  JSON.parse (JStr s) =
    match JSON.parse_text s with
    | Some w => Ok w
    | None => Throw SyntaxError
    end.
Proof. reflexivity. Qed.

(** The double parse starts with the parse that the direct strategy made:
    it cannot succeed where that one failed. *)
Lemma double_fails_after_direct (sns : value) (e : exn) :
  MultiParse.direct sns = Throw e -> MultiParse.double sns = Throw e.
Proof.
  unfold MultiParse.direct, MultiParse.double.
  destruct (get sns "Message") as [m|e0]; simpl; [|trivial].
  destruct (JSON.parse m); simpl; [discriminate|trivial].
Qed.

Lemma parse_message_never_double (sns content : value) :
  MultiParse.parse_message sns <> MultiParse.Parsed MultiParse.Double content.
Proof.
  unfold MultiParse.parse_message.
  destruct (MultiParse.direct sns) as [c|e1] eqn:D; [discriminate|].
  rewrite (double_fails_after_direct sns e1 D).
  destruct (MultiParse.unescaped sns); discriminate.
Qed.

Lemma parse_message_of_string (sns : value) (s : string) :
  get sns "Message" = Ok (JStr s) ->
  MultiParse.parse_message sns =
    match JSON.parse_text s with
    | Some content => MultiParse.Parsed MultiParse.Direct content
    | None =>
        match JSON.parse_text (Str.strip_outer_quotes (Str.unescape_quotes s)) with
        | Some content => MultiParse.Parsed MultiParse.Unescaped content
        | None => MultiParse.Unparseable SyntaxError SyntaxError SyntaxError
        end
    end.
Proof.
  intros G.
  unfold MultiParse.parse_message, MultiParse.direct, MultiParse.unescaped, MultiParse.double.
  rewrite G. simpl. rewrite !parse_string.
  destruct (JSON.parse_text s); [reflexivity|]. simpl.
  destruct (JSON.parse_text (Str.strip_outer_quotes (Str.unescape_quotes s))); reflexivity.
Qed.

Lemma parse_message_of_object (sns : value) (props : list (string * value)) :
  get sns "Message" = Ok (JObj props) ->
  exists e, MultiParse.parse_message sns = MultiParse.Unparseable e TypeError e.
Proof.
  intros G.
  unfold MultiParse.parse_message, MultiParse.direct, MultiParse.unescaped, MultiParse.double.
  rewrite G.
  assert (P : JSON.parse (JObj props) = Throw TypeError
              \/ JSON.parse (JObj props) = Throw SyntaxError).
  { unfold JSON.parse. cbn [ToString bind].
    destruct (has_key props "toString"); [left; reflexivity|right].
    cbn [bind]. rewrite object_text_is_not_JSON. reflexivity. }
  cbn [bind MultiParse.replace_quotes].
  destruct P as [P | P]; rewrite P; cbn [bind]; eauto.
Qed.

(** C1, as the code has it.  Neither decoder tries the four strategies of
    the specification.  part_003 parses a string [Message] directly, then
    with the escaping and the outer quotes stripped; its double parse comes
    last and never decides; a structured object fails every strategy; when
    all fail the answer is 400 with the raw [Message].  [processSNSMessage]
    of part_005 takes an object-typed [Message] as it is and parses anything
    else once; its failure is the error [Invalid Message format], which does
    not carry the message. *)
Theorem decoders_try_their_strategies_in_order :
  (forall sns content, MultiParse.direct sns = Ok content ->
     MultiParse.parse_message sns = MultiParse.Parsed MultiParse.Direct content)
  /\ (forall sns e content, MultiParse.direct sns = Throw e ->
        MultiParse.unescaped sns = Ok content ->
        MultiParse.parse_message sns = MultiParse.Parsed MultiParse.Unescaped content)
  /\ (forall sns s, get sns "Message" = Ok (JStr s) ->
     MultiParse.parse_message sns =
       match JSON.parse_text s with
       | Some content => MultiParse.Parsed MultiParse.Direct content
       | None =>
           match JSON.parse_text (Str.strip_outer_quotes (Str.unescape_quotes s)) with
           | Some content => MultiParse.Parsed MultiParse.Unescaped content
           | None => MultiParse.Unparseable SyntaxError SyntaxError SyntaxError
           end
       end)
  /\ (forall sns content,
        MultiParse.parse_message sns <> MultiParse.Parsed MultiParse.Double content)
  /\ (forall sns props, get sns "Message" = Ok (JObj props) ->
        exists e, MultiParse.parse_message sns = MultiParse.Unparseable e TypeError e)
  /\ (forall sns m e1 e2 e3 csv, get sns "Message" = Ok m ->
        MultiParse.parse_message sns = MultiParse.Unparseable e1 e2 e3 ->
        MultiParse.post_sns true sns csv
        = (mkResponse 400 (ErrorDetails "Unable to parse Message content" m), csv))
  /\ (forall message m, get message "Message" = Ok m -> typeof_object m = true ->
        CsvStore.decode message = Ok m)
  /\ (forall message s, get message "Message" = Ok (JStr s) ->
        CsvStore.decode message =
          match JSON.parse_text s with
          | Some content => Ok content
          | None => Throw (Error "Invalid Message format")
          end)
  /\ (forall URL_hostname env message e st,
        CsvStore.verifySignature URL_hostname message = true ->
        CsvStore.decode message = Throw e ->
        CsvStore.handle URL_hostname env message st = (Throw e, st)
        /\ CsvStore.post_sns URL_hostname env message st
           = (mkResponse 500 (ErrorText "Internal server error"), st)).
Proof.
  split; [|split; [|split; [|split; [|split; [|split; [|split; [|split]]]]]]].
  - intros sns content D. unfold MultiParse.parse_message. rewrite D. reflexivity.
  - intros sns e content D U. unfold MultiParse.parse_message. rewrite D, U. reflexivity.
  - exact parse_message_of_string.
  - exact parse_message_never_double.
  - exact parse_message_of_object.
  - intros sns m e1 e2 e3 csv G U. unfold MultiParse.post_sns. rewrite U, G. reflexivity.
  - intros message m G T. unfold CsvStore.decode. rewrite G. simpl. rewrite T. reflexivity.
  - intros message s G. unfold CsvStore.decode. rewrite G. simpl.
    rewrite parse_string. destruct (JSON.parse_text s); reflexivity.
  - intros URL_hostname env message e st V D.
    assert (E : CsvStore.handle URL_hostname env message st = (Throw e, st)).
    { unfold CsvStore.handle, CsvStore.io_bind, CsvStore.lift, CsvStore.processSNSMessage.
      rewrite V, D. reflexivity. }
    split; [exact E|]. unfold CsvStore.post_sns. rewrite E. reflexivity.
Qed.

(** The notification as a once-encoded string, and the string with its
    quotes escaped, through both decoders. *)
Lemma decoders_try_their_strategies_in_order_witness :
  let escaped := Str.q "{\'notificationType\':\'Bounce\'}" in
  MultiParse.parse_message (Samples.envelope (JStr Samples.notification_text))
  = MultiParse.Parsed MultiParse.Direct Samples.two_recipients
  /\ MultiParse.parse_message (Samples.envelope (JStr escaped))
     = MultiParse.Parsed MultiParse.Unescaped (JObj [("notificationType", JStr "Bounce")])
  /\ CsvStore.decode (Samples.envelope Samples.two_recipients) = Ok Samples.two_recipients
  /\ CsvStore.decode (Samples.envelope (JStr escaped)) = Throw (Error "Invalid Message format").
Proof.
  intros escaped.
  destruct decoders_try_their_strategies_in_order as (_ & _ & H1 & _ & _ & _ & H5 & H6 & _).
  split; [|split; [|split]].
  - rewrite (H1 (Samples.envelope (JStr Samples.notification_text))
               Samples.notification_text eq_refl).
    vm_compute. reflexivity.
  - rewrite (H1 (Samples.envelope (JStr escaped)) escaped eq_refl).
    vm_compute. reflexivity.
  - apply H5; reflexivity.
  - rewrite (H6 (Samples.envelope (JStr escaped)) escaped eq_refl).
    vm_compute. reflexivity.
Defined.

(** C1 as stated fails on both decoders: the specification's decoder takes a
    structured object by strategy (a), part_003 answers 400 to it; the
    specification's decoder takes a string with escaped quotes by strategy
    (c), [processSNSMessage] throws on it and the endpoint answers 500
    without the raw string. *)
Lemma decoders_differ_from_the_four_strategies :
  let escaped := JStr (Str.q "{\'notificationType\':\'Bounce\'}") in
  (Spec.decode Samples.two_recipients = Spec.Decoded Spec.AsObject Samples.two_recipients
   /\ MultiParse.post_sns true (Samples.envelope Samples.two_recipients) V1.initial_csv
      = (mkResponse 400 (ErrorDetails "Unable to parse Message content" Samples.two_recipients),
         V1.initial_csv))
  /\ (Spec.decode escaped
      = Spec.Decoded Spec.StripThenParse (JObj [("notificationType", JStr "Bounce")])
      /\ CsvStore.decode (Samples.envelope escaped) = Throw (Error "Invalid Message format")
      /\ CsvStore.post_sns Host.URL_hostname CsvStore.no_faults (Samples.envelope escaped)
           Samples.empty_store
         = (mkResponse 500 (ErrorText "Internal server error"), Samples.empty_store)).
Proof.
  vm_compute. repeat split.
Qed.

(** ** The endpoint of part_005 *)

Section EndpointFacts.

Variable URL_hostname : string -> option string.

Lemma get_object (props : list (string * value)) (name : string) :
  get (JObj props) name = Ok (get_opt (JObj props) name).
Proof.
  unfold get_opt. simpl. destruct (lookup props name); reflexivity.
Qed.

Lemma invalid_structure_when (bounce mail : value) :
  get_opt bounce "bouncedRecipients" = JArr []
  \/ get_opt bounce "bouncedRecipients" = JUndefined
  \/ get_opt bounce "bouncedRecipients" = JNull
  \/ mail = JUndefined
  \/ mail = JNull ->
  CsvStore.invalid_structure bounce mail = true.
Proof.
  unfold CsvStore.invalid_structure.
  intros [H | [H | [H | [H | H]]]]; rewrite H; try reflexivity; apply orb_true_r.
Qed.

(** Only an object has a notification type that is a string. *)
Lemma kind_string_is_object (content : value) (kind : string) :
  get content "notificationType" = Ok (JStr kind) ->
  exists props, content = JObj props.
Proof.
  destruct content as [| |b|n|s|l|props]; simpl; try discriminate.
  eauto.
Qed.

Lemma processSNSMessage_not_bounce (body content kind : value) :
  CsvStore.verifySignature URL_hostname body = true ->
  CsvStore.decode body = Ok content ->
  get content "notificationType" = Ok kind ->
  is_str kind "Bounce" = false ->
  CsvStore.processSNSMessage URL_hostname body = Ok JNull.
Proof.
  intros V D K B. unfold CsvStore.processSNSMessage.
  rewrite V, D. simpl. rewrite K. simpl. rewrite B. reflexivity.
Qed.

Lemma processSNSMessage_bounce (body content : value) :
  CsvStore.verifySignature URL_hostname body = true ->
  CsvStore.decode body = Ok content ->
  get content "notificationType" = Ok (JStr "Bounce") ->
  CsvStore.processSNSMessage URL_hostname body = Ok content /\ truthy content = true.
Proof.
  intros V D K. unfold CsvStore.processSNSMessage.
  rewrite V, D. simpl. rewrite K. simpl. split; [reflexivity|].
  destruct (kind_string_is_object content "Bounce" K) as [props ->]. reflexivity.
Qed.

End EndpointFacts.

(** *** What [JSON.parse] returns is never [undefined] *)

Lemma complete_defined (v : value) (stack : list JSON.frame) (ps : JSON.pstate) :
  v <> JUndefined -> JSON.complete v stack = Some ps -> defined_result ps.
Proof.
  intros N. unfold JSON.complete, defined_result.
  destruct stack as [|[acc|props [k|]] st]; intros E; inversion E; subst; cbn; auto.
Qed.

Lemma open_value_defined (t : JSON.token) (stack : list JSON.frame) (ps : JSON.pstate) :
  JSON.open_value t stack = Some ps -> defined_result ps.
Proof.
  destruct t; cbn [JSON.open_value JSON.scalar]; intros E;
    try (inversion E; subst; exact I);
    try discriminate E;
    (eapply complete_defined; [|exact E]; discriminate).
Qed.

Lemma pstep_defined (ps ps' : JSON.pstate) (t : JSON.token) :
  JSON.pstep ps t = Some ps' -> defined_result ps'.
Proof.
  destruct ps as [stack m]. unfold JSON.pstep.
  destruct m; try discriminate;
    try (apply open_value_defined);
    destruct t; try discriminate;
    try (apply open_value_defined);
    try (intros E; inversion E; subst; exact I);
    destruct stack as [|[acc|props [k|]] st]; try discriminate;
    try (apply open_value_defined);
    try (intros E; inversion E; subst; exact I);
    try (intros E; eapply complete_defined; [|exact E]; discriminate);
    destruct acc; try (apply open_value_defined);
    intros E; eapply complete_defined; [|exact E]; discriminate.
Qed.

Lemma run_defined (toks : list JSON.token) :
  forall (ps : JSON.pstate) (v : value),
  defined_result ps -> JSON.run ps toks = Some v -> v <> JUndefined.
Proof.
  induction toks as [|t r IH]; intros [stack m] v D; cbn [JSON.run].
  - destruct m; try discriminate. intros E. inversion E; subst. exact D.
  - destruct (JSON.pstep (stack, m) t) as [ps'|] eqn:P; [|discriminate].
    apply IH. exact (pstep_defined _ _ _ P).
Qed.

Lemma parse_text_defined (text : string) (v : value) :
  JSON.parse_text text = Some v -> v <> JUndefined.
Proof.
  unfold JSON.parse_text. destruct (JSON.lex JSON.LStart text) as [toks|]; [|discriminate].
  apply run_defined. exact I.
Qed.

Lemma decode_defined (body content : value) :
  CsvStore.decode body = Ok content -> content <> JUndefined.
Proof.
  unfold CsvStore.decode.
  destruct (get body "Message") as [m|]; cbn [bind]; [|discriminate].
  destruct (typeof_object m) eqn:T.
  - intros E. inversion E; subst. intros ->. discriminate T.
  - unfold JSON.parse. destruct (ToString m) as [text|]; cbn [bind]; [|discriminate].
    destruct (JSON.parse_text text) as [w|] eqn:P; [|discriminate].
    intros E. inversion E; subst. exact (parse_text_defined _ _ P).
Qed.

(** C7, as the code has it.  An envelope that passes the signature check and
    decodes to a content whose [notificationType] is not [Bounce] is
    answered 200 [Non-bounce notification ignored] unless the content is
    [null]; a content of [null] has no [notificationType] to read, the read
    throws and the answer is 500.  Either way the files are left as they
    were, whatever the environment would have done to a write. *)
Theorem non_bounce_notification_is_ignored
  (URL_hostname : string -> option string) (env : CsvStore.faults)
  (body content : value) (st : CsvStore.fs) :
  CsvStore.verifySignature URL_hostname body = true ->
  CsvStore.decode body = Ok content ->
  is_str (get_opt content "notificationType") "Bounce" = false ->
  (content <> JNull ->
   CsvStore.post_sns URL_hostname env body st
   = (mkResponse 200 (Message "Non-bounce notification ignored"), st))
  /\ (content = JNull ->
      CsvStore.post_sns URL_hostname env body st
      = (mkResponse 500 (ErrorText "Internal server error"), st)).
Proof.
  intros V D B. split.
  - intros N.
    assert (K : get content "notificationType" = Ok (get_opt content "notificationType")).
    { pose proof (decode_defined body content D) as U.
      unfold get_opt. destruct content; try reflexivity; try contradiction.
      cbn [get]. destruct (lookup props "notificationType"); reflexivity. }
    unfold CsvStore.post_sns, CsvStore.handle, CsvStore.io_bind, CsvStore.lift.
    rewrite (processSNSMessage_not_bounce URL_hostname body content _ V D K B).
    reflexivity.
  - intros ->.
    unfold CsvStore.post_sns, CsvStore.handle, CsvStore.io_bind, CsvStore.lift,
      CsvStore.processSNSMessage.
    rewrite V, D. reflexivity.
Qed.

(** A complaint and a subscription confirmation, each in a signed envelope. *)
Lemma non_bounce_notification_is_ignored_witness :
  let complaint := JStr (Str.q "{'notificationType':'Complaint','complaint':{}}") in
  let confirmation := JObj [("notificationType", JStr "SubscriptionConfirmation")] in
  CsvStore.post_sns Host.URL_hostname CsvStore.no_faults (Samples.envelope complaint)
    Samples.empty_store
  = (mkResponse 200 (Message "Non-bounce notification ignored"), Samples.empty_store)
  /\ CsvStore.post_sns Host.URL_hostname CsvStore.no_faults (Samples.envelope confirmation)
       Samples.empty_store
     = (mkResponse 200 (Message "Non-bounce notification ignored"), Samples.empty_store).
Proof.
  intros complaint confirmation. split.
  - apply (non_bounce_notification_is_ignored Host.URL_hostname CsvStore.no_faults
             (Samples.envelope complaint)
             (JObj [("notificationType", JStr "Complaint"); ("complaint", JObj [])])
             Samples.empty_store); try (vm_compute; reflexivity).
    discriminate.
  - apply (non_bounce_notification_is_ignored Host.URL_hostname CsvStore.no_faults
             (Samples.envelope confirmation) confirmation Samples.empty_store);
      try (vm_compute; reflexivity).
    discriminate.
Defined.

(** C7 as stated fails: a decoded content that is no bounce can be answered
    with an error.  A [Message] of [null], as the text or as the value,
    passes the signature check and is decoded, to [null]; its
    [notificationType] cannot be read, and the answer is 500. *)
Lemma null_content_is_answered_with_an_error :
  CsvStore.verifySignature Host.URL_hostname (Samples.envelope (JStr "null")) = true
  /\ CsvStore.decode (Samples.envelope (JStr "null")) = Ok JNull
  /\ CsvStore.decode (Samples.envelope JNull) = Ok JNull
  /\ is_str (get_opt JNull "notificationType") "Bounce" = false
  /\ CsvStore.post_sns Host.URL_hostname CsvStore.no_faults (Samples.envelope (JStr "null"))
       Samples.empty_store
     = (mkResponse 500 (ErrorText "Internal server error"), Samples.empty_store)
  /\ CsvStore.post_sns Host.URL_hostname CsvStore.no_faults (Samples.envelope JNull)
       Samples.empty_store
     = (mkResponse 500 (ErrorText "Internal server error"), Samples.empty_store).
Proof.
  vm_compute. repeat split.
Qed.

(** C6, as the code has it.  A bounce whose recipients are missing or empty,
    or whose [mail] is missing, makes the handler throw [Invalid bounce data
    structure] before anything is written; the endpoint answers it like
    every other exception, with 500 [Internal server error]. *)
Theorem invalid_bounce_structure_is_rejected
  (URL_hostname : string -> option string) (env : CsvStore.faults)
  (body content : value) (st : CsvStore.fs) :
  CsvStore.verifySignature URL_hostname body = true ->
  CsvStore.decode body = Ok content ->
  get content "notificationType" = Ok (JStr "Bounce") ->
  get_opt (get_opt content "bounce") "bouncedRecipients" = JArr []
  \/ get_opt (get_opt content "bounce") "bouncedRecipients" = JUndefined
  \/ get_opt (get_opt content "bounce") "bouncedRecipients" = JNull
  \/ get_opt content "mail" = JUndefined
  \/ get_opt content "mail" = JNull ->
  CsvStore.handle URL_hostname env body st
  = (Throw (Error "Invalid bounce data structure"), st)
  /\ CsvStore.post_sns URL_hostname env body st
     = (mkResponse 500 (ErrorText "Internal server error"), st).
Proof.
  intros V D K H.
  destruct (processSNSMessage_bounce URL_hostname body content V D K) as [P T].
  assert (E : CsvStore.handle URL_hostname env body st
              = (Throw (Error "Invalid bounce data structure"), st)).
  { destruct (kind_string_is_object content "Bounce" K) as [props ->].
    unfold CsvStore.handle, CsvStore.io_bind, CsvStore.lift.
    rewrite P, T, !get_object. cbv beta iota. simpl negb. cbv iota.
    rewrite (invalid_structure_when _ _ H). reflexivity. }
  split; [exact E|]. unfold CsvStore.post_sns. rewrite E. reflexivity.
Qed.

(** A bounce with an empty list of recipients. *)
Lemma invalid_bounce_structure_is_rejected_witness :
  let body := Samples.envelope (Samples.notification [] Samples.instant Samples.mail) in
  CsvStore.handle Host.URL_hostname CsvStore.no_faults body Samples.empty_store
  = (Throw (Error "Invalid bounce data structure"), Samples.empty_store)
  /\ CsvStore.post_sns Host.URL_hostname CsvStore.no_faults body Samples.empty_store
     = (mkResponse 500 (ErrorText "Internal server error"), Samples.empty_store).
Proof.
  intros body.
  apply (invalid_bounce_structure_is_rejected Host.URL_hostname CsvStore.no_faults body
           (Samples.notification [] Samples.instant Samples.mail)).
  - vm_compute. reflexivity.
  - reflexivity.
  - reflexivity.
  - left. reflexivity.
Defined.

(** C6 as stated fails: the rejection is not reported as a client-input
    error.  A bounce without recipients is answered 500. *)
Lemma invalid_bounce_is_not_a_client_error :
  let body := Samples.envelope (Samples.notification [] Samples.instant Samples.mail) in
  let r := fst (CsvStore.post_sns Host.URL_hostname CsvStore.no_faults body
                  Samples.empty_store) in
  status r = 500%nat /\ ~ client_error r.
Proof.
  vm_compute. split; [reflexivity|]. intros [_ H].
  apply (Nat.lt_irrefl 500). exact H.
Qed.

(** ** Placeholders *)

Lemma truthy_filled (v : value) : truthy v = true -> filled v.
Proof.
  intros T. repeat split; intros E; subst; discriminate.
Qed.

Lemma or_default_filled (x : value) (placeholder : string) :
  placeholder <> EmptyString -> filled (CsvStore.or_default x placeholder).
Proof.
  intros N. apply truthy_filled. unfold CsvStore.or_default.
  destruct (truthy x) eqn:T; [exact T|]. simpl.
  destruct placeholder; [contradiction|reflexivity].
Qed.

Lemma or_default_unset (x : value) (placeholder : string) :
  unset x -> CsvStore.or_default x placeholder = JStr placeholder.
Proof.
  intros [-> | [-> | ->]]; reflexivity.
Qed.

Lemma or_default_set (x : value) (placeholder : string) :
  truthy x = true -> CsvStore.or_default x placeholder = x.
Proof.
  intros T. unfold CsvStore.or_default. rewrite T. reflexivity.
Qed.

(** What the builder of part_005 puts under each id. *)
Lemma bounceRecord_fields (bounce mail recipient record : value) :
  CsvStore.bounceRecord bounce mail recipient = Ok record ->
  record = JObj
    [ ("email", get_opt recipient "emailAddress");
      ("timestamp", get_opt bounce "timestamp");
      ("sourceEmail", get_opt mail "source");
      ("sourceIp", get_opt mail "sourceIp");
      ("bounceType", CsvStore.or_default (get_opt bounce "bounceType") "Unknown");
      ("bounceSubType", CsvStore.or_default (get_opt bounce "bounceSubType") "Unknown");
      ("diagnosticCode",
       CsvStore.or_default (get_opt recipient "diagnosticCode") "Not provided");
      ("reportingMTA", CsvStore.or_default (get_opt bounce "reportingMTA") "Not provided");
      ("feedbackId", CsvStore.or_default (get_opt bounce "feedbackId") "Not provided") ].
Proof.
  unfold CsvStore.bounceRecord, get_opt.
  destruct (get recipient "emailAddress") as [v1|]; simpl; [|discriminate].
  destruct (get bounce "timestamp") as [v2|]; simpl; [|discriminate].
  destruct (get mail "source") as [v3|]; simpl; [|discriminate].
  destruct (get mail "sourceIp") as [v4|]; simpl; [|discriminate].
  destruct (get bounce "bounceType") as [v5|]; simpl; [|discriminate].
  destruct (get bounce "bounceSubType") as [v6|]; simpl; [|discriminate].
  destruct (get recipient "diagnosticCode") as [v7|]; simpl; [|discriminate].
  destruct (get bounce "reportingMTA") as [v8|]; simpl; [|discriminate].
  destruct (get bounce "feedbackId") as [v9|]; simpl; [|discriminate].
  intros E. inversion E. reflexivity.
Qed.

(** ** One record per recipient in part_005 *)

Lemma map_res_Forall2 {A B : Type} (f : A -> Res B) (l : list A) :
  forall ys, CsvStore.map_res f l = Ok ys -> Forall2 (fun x y => f x = Ok y) l ys.
Proof.
  induction l as [|x l IH]; simpl; intros ys E.
  - inversion E. constructor.
  - destruct (f x) as [y|] eqn:Fx; simpl in E; [|discriminate].
    destruct (CsvStore.map_res f l) as [ys'|]; simpl in E; [|discriminate].
    inversion E. constructor; [exact Fx|]. apply IH. reflexivity.
Qed.

Lemma stringifyRecords_length (records : list value) :
  forall rows, CsvStore.stringifyRecords records = Ok rows ->
  List.length rows = List.length records.
Proof.
  induction records as [|r records IH]; cbn [CsvStore.stringifyRecords]; intros rows E.
  - inversion E. reflexivity.
  - destruct (CsvStore.cells r CsvStore.ids); cbn [bind] in E; [|discriminate].
    destruct (CsvStore.stringifyRecords records); cbn [bind] in E; [|discriminate].
    inversion E. cbn [List.length]. rewrite (IH _ eq_refl). reflexivity.
Qed.

(** The handler of part_005 builds one record for each recipient, in the
    order of the recipients. *)
Lemma bounceRecords_one_per_recipient (bounce mail : value) (records : list value) :
  CsvStore.bounceRecords bounce mail = Ok records ->
  exists recipients,
    get_opt bounce "bouncedRecipients" = JArr recipients
    /\ Forall2 (fun recipient record => CsvStore.bounceRecord bounce mail recipient = Ok record)
         recipients records
    /\ List.length records = List.length recipients.
Proof.
  unfold CsvStore.bounceRecords.
  destruct (get_opt bounce "bouncedRecipients") as [| | | | |recipients|]; try discriminate.
  intros E. exists recipients. apply map_res_Forall2 in E.
  split; [reflexivity|]. split; [exact E|].
  symmetry. eapply Forall2_length. exact E.
Qed.

(** Two records of one bounce differ in [email] and [diagnosticCode] at
    most. *)
Lemma records_of_one_bounce_share_fields
  (bounce mail r1 r2 record1 record2 : value) (id : string) :
  CsvStore.bounceRecord bounce mail r1 = Ok record1 ->
  CsvStore.bounceRecord bounce mail r2 = Ok record2 ->
  id <> "email" -> id <> "diagnosticCode" ->
  get_opt record1 id = get_opt record2 id.
Proof.
  intros E1 E2 N1 N2.
  apply bounceRecord_fields in E1. apply bounceRecord_fields in E2. subst.
  unfold get_opt. cbn [get lookup].
  destruct (String.eqb "email" id) eqn:Q1;
    [apply String.eqb_eq in Q1; congruence|].
  destruct (String.eqb "timestamp" id); [reflexivity|].
  destruct (String.eqb "sourceEmail" id); [reflexivity|].
  destruct (String.eqb "sourceIp" id); [reflexivity|].
  destruct (String.eqb "bounceType" id); [reflexivity|].
  destruct (String.eqb "bounceSubType" id); [reflexivity|].
  destruct (String.eqb "diagnosticCode" id) eqn:Q2;
    [apply String.eqb_eq in Q2; congruence|].
  destruct (String.eqb "reportingMTA" id); [reflexivity|].
  destruct (String.eqb "feedbackId" id); reflexivity.
Qed.

(** With nothing failing, an accepted bounce makes the data file longer by
    one row per recipient. *)
Lemma post_sns_appends_one_row_per_recipient
  (URL_hostname : string -> option string) (body : value) (st st' : CsvStore.fs) :
  CsvStore.handle URL_hostname CsvStore.no_faults body st
  = (Ok "Bounce processed successfully", st') ->
  exists content recipients rows,
    CsvStore.processSNSMessage URL_hostname body = Ok content
    /\ get_opt (get_opt content "bounce") "bouncedRecipients" = JArr recipients
    /\ CsvStore.csv st' = CsvStore.csv st ++ rows
    /\ List.length rows = List.length recipients.
Proof.
  unfold CsvStore.handle, CsvStore.io_bind, CsvStore.lift.
  destruct (CsvStore.processSNSMessage URL_hostname body) as [content|] eqn:P;
    [|discriminate].
  destruct (truthy content) eqn:T; cbn [negb]; cbv iota; [|unfold CsvStore.ret; discriminate].
  destruct (get content "bounce") as [bounce|] eqn:Gb; [|discriminate].
  destruct (get content "mail") as [mail|] eqn:Gm; [|discriminate].
  destruct (CsvStore.invalid_structure bounce mail); [unfold CsvStore.raise; discriminate|].
  destruct (CsvStore.bounceRecords bounce mail) as [records|] eqn:R; [|discriminate].
  destruct (bounceRecords_one_per_recipient bounce mail records R) as (recipients & Hr & _ & Hl).
  unfold CsvStore.appendToCsv, CsvStore.try_catch, CsvStore.io_bind, CsvStore.lift,
    CsvStore.writeLock, CsvStore.appendFile, CsvStore.unlinkLock, CsvStore.ret, CsvStore.raise.
  cbn [CsvStore.no_faults CsvStore.on_lock_write CsvStore.on_append CsvStore.on_unlink
       CsvStore.on_unlink_again CsvStore.csv CsvStore.lock CsvStore.history].
  destruct (CsvStore.stringifyRecords records) as [rows|] eqn:S.
  - cbn [CsvStore.csv CsvStore.lock CsvStore.history]. intros E. inversion E.
    exists content, recipients, rows.
    split; [reflexivity|]. split.
    + unfold get_opt at 2. rewrite Gb. exact Hr.
    + split; [reflexivity|].
      rewrite (stringifyRecords_length records rows S). exact Hl.
  - cbn [CsvStore.csv CsvStore.lock CsvStore.history]. discriminate.
Qed.

(** ** What is stored for the fields of a bounce *)

Lemma unset_falsy (v : value) : unset v -> truthy v = false.
Proof. intros [-> | [-> | ->]]; reflexivity. Qed.

(** A number never prints as the empty string. *)
Lemma number_to_string_nonempty (numeral : string) :
  number_to_string numeral <> EmptyString.
Proof.
  unfold number_to_string.
  destruct (to_double (decimal_of numeral)) as [|m e|]; [discriminate| |].
  - destruct (negative (decimal_of numeral)); [discriminate|].
    unfold print_finite. destruct (shortest _ _ _ _ _) as [s p].
    destruct (digits_of s) as [|c r]; [discriminate|].
    repeat match goal with
           | |- context [if ?b then _ else _] => destruct b
           end; try discriminate;
      destruct (drop_trailing_zeros r); discriminate.
  - destruct (negative (decimal_of numeral)); discriminate.
Qed.

Lemma cell_or_default (v : value) (placeholder c : string) :
  placeholder <> EmptyString ->
  CsvStore.cell (CsvStore.or_default v placeholder) = Ok c ->
  stored_optional v placeholder c.
Proof.
  intros N. unfold CsvStore.or_default, stored_optional.
  destruct (truthy v) eqn:T.
  - intros C. split; [discriminate|]. split; [intros _; exact C|]. split.
    + intros s -> _. cbn in C. now inversion C.
    + intros ->. destruct v as [| |b|n|s|l|o]; try discriminate T.
      * destruct b; [cbn in C; discriminate C | discriminate T].
      * cbn in C. inversion C as [E]. now apply number_to_string_nonempty in E.
      * cbn in C. inversion C; subst. discriminate T.
      * eauto.
      * cbn in C. destruct (has_key o "toString"); discriminate C.
  - cbn [CsvStore.cell ToString]. intros C. inversion C; subst c.
    split; [reflexivity|]. split; [discriminate|]. split.
    + intros s -> Hs. cbn in T. destruct s; [contradiction | discriminate T].
    + intros E. contradiction.
Qed.

Lemma cell_copy (v : value) (c : string) : CsvStore.cell v = Ok c -> stored_copy v c.
Proof.
  intros C. split; [exact C|]. intros [-> | ->]; cbn in C; now inversion C.
Qed.

(** The row written for the record of a recipient. *)
Lemma stored_row_of_record (bounce mail recipient record : value) (row : list string) :
  CsvStore.bounceRecord bounce mail recipient = Ok record ->
  CsvStore.cells record CsvStore.ids = Ok row ->
  stored_row bounce mail recipient row.
Proof.
  intros E C. apply bounceRecord_fields in E. subst record.
  cbn [CsvStore.cells CsvStore.ids CsvStore.columns map fst get lookup
       String.eqb Ascii.eqb Bool.eqb bind] in C.
  destruct (CsvStore.cell (get_opt recipient "emailAddress")) as [c1|] eqn:C1;
    cbn [bind] in C; [|discriminate C].
  destruct (CsvStore.cell (get_opt bounce "timestamp")) as [c2|] eqn:C2;
    cbn [bind] in C; [|discriminate C].
  destruct (CsvStore.cell (get_opt mail "source")) as [c3|] eqn:C3;
    cbn [bind] in C; [|discriminate C].
  destruct (CsvStore.cell (get_opt mail "sourceIp")) as [c4|] eqn:C4;
    cbn [bind] in C; [|discriminate C].
  destruct (CsvStore.cell (CsvStore.or_default (get_opt bounce "bounceType") "Unknown"))
    as [c5|] eqn:C5; cbn [bind] in C; [|discriminate C].
  destruct (CsvStore.cell (CsvStore.or_default (get_opt bounce "bounceSubType") "Unknown"))
    as [c6|] eqn:C6; cbn [bind] in C; [|discriminate C].
  destruct (CsvStore.cell
              (CsvStore.or_default (get_opt recipient "diagnosticCode") "Not provided"))
    as [c7|] eqn:C7; cbn [bind] in C; [|discriminate C].
  destruct (CsvStore.cell (CsvStore.or_default (get_opt bounce "reportingMTA") "Not provided"))
    as [c8|] eqn:C8; cbn [bind] in C; [|discriminate C].
  destruct (CsvStore.cell (CsvStore.or_default (get_opt bounce "feedbackId") "Not provided"))
    as [c9|] eqn:C9; cbn [bind] in C; [|discriminate C].
  assert (R : row = [c1; c2; c3; c4; c5; c6; c7; c8; c9]) by congruence.
  subst row. unfold stored_row. cbn [nth].
  split; [reflexivity|].
  do 4 (split; [now apply cell_copy|]).
  do 4 (split; [apply cell_or_default; [discriminate | assumption]|]).
  apply cell_or_default; [discriminate | assumption].
Qed.

Lemma stringifyRecords_Forall2 (records : list value) :
  forall rows, CsvStore.stringifyRecords records = Ok rows ->
  Forall2 (fun record row => CsvStore.cells record CsvStore.ids = Ok row) records rows.
Proof.
  induction records as [|r records IH]; cbn [CsvStore.stringifyRecords]; intros rows E.
  - inversion E. constructor.
  - destruct (CsvStore.cells r CsvStore.ids) as [row|] eqn:C; cbn [bind] in E;
      [|discriminate].
    destruct (CsvStore.stringifyRecords records) as [rows'|]; cbn [bind] in E;
      [|discriminate].
    inversion E. constructor; [exact C | apply IH; reflexivity].
Qed.

(** What an accepted bounce goes through, with no file operation failing. *)
Lemma accepted_bounce_rows
  (URL_hostname : string -> option string) (body : value) (st : CsvStore.fs) :
  fst (CsvStore.post_sns URL_hostname CsvStore.no_faults body st)
  = mkResponse 200 (Message "Bounce processed successfully") ->
  exists content records rows,
    CsvStore.processSNSMessage URL_hostname body = Ok content
    /\ CsvStore.bounceRecords (get_opt content "bounce") (get_opt content "mail") = Ok records
    /\ CsvStore.stringifyRecords records = Ok rows
    /\ CsvStore.csv (snd (CsvStore.post_sns URL_hostname CsvStore.no_faults body st))
       = CsvStore.csv st ++ rows.
Proof.
  unfold CsvStore.post_sns, CsvStore.handle, CsvStore.io_bind, CsvStore.lift.
  destruct (CsvStore.processSNSMessage URL_hostname body) as [content|];
    [|cbn; discriminate].
  destruct (truthy content); cbn [negb]; cbv iota;
    [|unfold CsvStore.ret; cbn; discriminate].
  destruct (get content "bounce") as [bounce|] eqn:Gb; [|cbn; discriminate].
  destruct (get content "mail") as [mail|] eqn:Gm; [|cbn; discriminate].
  assert (Eb : get_opt content "bounce" = bounce) by (unfold get_opt; now rewrite Gb).
  assert (Em : get_opt content "mail" = mail) by (unfold get_opt; now rewrite Gm).
  destruct (CsvStore.invalid_structure bounce mail);
    [unfold CsvStore.raise; cbn; discriminate|].
  destruct (CsvStore.bounceRecords bounce mail) as [records|] eqn:R; [|cbn; discriminate].
  unfold CsvStore.appendToCsv, CsvStore.try_catch, CsvStore.io_bind, CsvStore.lift,
    CsvStore.writeLock, CsvStore.appendFile, CsvStore.unlinkLock, CsvStore.ret,
    CsvStore.raise.
  cbn [CsvStore.no_faults CsvStore.on_lock_write CsvStore.on_append CsvStore.on_unlink
       CsvStore.on_unlink_again CsvStore.csv CsvStore.lock CsvStore.history].
  destruct (CsvStore.stringifyRecords records) as [rows|] eqn:S;
    cbn [fst snd CsvStore.csv CsvStore.lock CsvStore.history].
  - intros _. exists content, records, rows. rewrite Eb, Em.
    split; [reflexivity|]. split; [exact R|]. split; [exact S | reflexivity].
  - destruct (CsvStore.lock st); cbn; discriminate.
Qed.

(** C8, as the code has it.  For an accepted bounce the data file grows by
    one row per recipient, and in each of these rows every one of the five
    optional fields holds the placeholder ([Unknown] for the two bounce
    types, [Not provided] for the other three) when the event's value is
    unset (missing, [null], the empty string, or falsy in another way), and
    otherwise the event's value converted to a string: the value itself
    when it is a non-empty string, and the empty string only when the value
    is an array.  The other four fields are stored as they come and are
    empty when the event lacks them.  The record built in memory, of
    part_005 and of part_000 alike, holds the placeholder or the event's
    value under each of the five. *)
Theorem optional_fields_get_placeholders
  (URL_hostname : string -> option string) (Date_new : value -> option Z)
  (body : value) (st : CsvStore.fs) (bounce mail recipient : value) :
  (fst (CsvStore.post_sns URL_hostname CsvStore.no_faults body st)
   = mkResponse 200 (Message "Bounce processed successfully") ->
   exists content recipients rows,
     CsvStore.processSNSMessage URL_hostname body = Ok content
     /\ get_opt (get_opt content "bounce") "bouncedRecipients" = JArr recipients
     /\ CsvStore.csv (snd (CsvStore.post_sns URL_hostname CsvStore.no_faults body st))
        = CsvStore.csv st ++ rows
     /\ Forall2 (stored_row (get_opt content "bounce") (get_opt content "mail"))
                recipients rows)
  /\ (forall record row, CsvStore.bounceRecord bounce mail recipient = Ok record ->
        CsvStore.cells record CsvStore.ids = Ok row ->
        stored_row bounce mail recipient row)
  /\ (forall record, CsvStore.bounceRecord bounce mail recipient = Ok record ->
     get_opt record "bounceType" = CsvStore.or_default (get_opt bounce "bounceType") "Unknown"
     /\ get_opt record "bounceSubType"
        = CsvStore.or_default (get_opt bounce "bounceSubType") "Unknown"
     /\ get_opt record "diagnosticCode"
        = CsvStore.or_default (get_opt recipient "diagnosticCode") "Not provided"
     /\ get_opt record "reportingMTA"
        = CsvStore.or_default (get_opt bounce "reportingMTA") "Not provided"
     /\ get_opt record "feedbackId"
        = CsvStore.or_default (get_opt bounce "feedbackId") "Not provided"
     /\ Forall (fun id => filled (get_opt record id)) optional_ids
     /\ get_opt record "email" = get_opt recipient "emailAddress"
     /\ get_opt record "timestamp" = get_opt bounce "timestamp"
     /\ get_opt record "sourceEmail" = get_opt mail "source"
     /\ get_opt record "sourceIp" = get_opt mail "sourceIp")
  /\ (forall doc, Mongo.bounceRecord Date_new bounce mail recipient = Ok doc ->
        Mongo.bounceType doc = CsvStore.or_default (get_opt bounce "bounceType") "Unknown"
        /\ Mongo.bounceSubType doc
           = CsvStore.or_default (get_opt bounce "bounceSubType") "Unknown"
        /\ Mongo.diagnosticCode doc
           = CsvStore.or_default (get_opt recipient "diagnosticCode") "Not provided"
        /\ Mongo.reportingMTA doc
           = CsvStore.or_default (get_opt bounce "reportingMTA") "Not provided"
        /\ Mongo.feedbackId doc
           = CsvStore.or_default (get_opt bounce "feedbackId") "Not provided"
        /\ filled (Mongo.bounceType doc) /\ filled (Mongo.bounceSubType doc)
        /\ filled (Mongo.diagnosticCode doc) /\ filled (Mongo.reportingMTA doc)
        /\ filled (Mongo.feedbackId doc))
  /\ (forall x placeholder, unset x -> CsvStore.or_default x placeholder = JStr placeholder)
  /\ (forall x placeholder, truthy x = true -> CsvStore.or_default x placeholder = x)
  /\ (forall x, unset x -> truthy x = false).
Proof.
  split; [|split; [|split; [|split; [|split; [|split]]]]].
  - intros A.
    destruct (accepted_bounce_rows URL_hostname body st A)
      as (content & records & rows & P & R & S & E).
    destruct (bounceRecords_one_per_recipient _ _ records R) as (recipients & Hr & F & _).
    exists content, recipients, rows.
    split; [exact P|]. split; [exact Hr|]. split; [exact E|].
    apply stringifyRecords_Forall2 in S. clear -F S.
    revert rows S. induction F as [|r record rs records Hrec F IH]; intros rows S.
    + inversion S. constructor.
    + inversion S as [|? row ? rows' Hrow S']; subst. constructor; [|now apply IH].
      exact (stored_row_of_record _ _ _ _ _ Hrec Hrow).
  - intros record row. apply stored_row_of_record.
  - intros record E. apply bounceRecord_fields in E. subst record.
    repeat split; try reflexivity.
    repeat constructor; apply or_default_filled; discriminate.
  - intros doc. unfold Mongo.bounceRecord, get_opt.
    destruct (get recipient "emailAddress") as [v1|]; simpl; [|discriminate].
    destruct (get bounce "timestamp") as [v2|]; simpl; [|discriminate].
    destruct (get mail "source") as [v3|]; simpl; [|discriminate].
    destruct (get mail "sourceIp") as [v4|]; simpl; [|discriminate].
    destruct (get bounce "bounceType") as [v5|]; simpl; [|discriminate].
    destruct (get bounce "bounceSubType") as [v6|]; simpl; [|discriminate].
    destruct (get recipient "diagnosticCode") as [v7|]; simpl; [|discriminate].
    destruct (get bounce "reportingMTA") as [v8|]; simpl; [|discriminate].
    destruct (get bounce "feedbackId") as [v9|]; simpl; [|discriminate].
    intros E. inversion E. simpl.
    repeat split; try reflexivity; apply or_default_filled; discriminate.
  - exact or_default_unset.
  - exact or_default_set.
  - exact unset_falsy.
Qed.

(** The bounce of the sample, stored: the second recipient's diagnostic code
    is kept, the fields the event does not have get their placeholders. *)
Lemma optional_fields_get_placeholders_witness :
  let body := Samples.envelope (JStr Samples.notification_text) in
  exists rows,
    CsvStore.csv (snd (CsvStore.post_sns Host.URL_hostname CsvStore.no_faults body
                         Samples.empty_store))
    = CsvStore.csv Samples.empty_store ++ rows
    /\ Forall2 (stored_row (get_opt Samples.two_recipients "bounce") Samples.mail)
               [Samples.recipient_a; Samples.recipient_b] rows
    /\ map (fun row => nth 6 row EmptyString) rows = ["Not provided"; "smtp; 550"]
    /\ map (fun row => nth 5 row EmptyString) rows = ["Unknown"; "Unknown"].
Proof.
  intros body.
  destruct (optional_fields_get_placeholders Host.URL_hostname Host.Date_new body
              Samples.empty_store JNull JNull JNull) as (H & _).
  destruct (H eq_refl) as (content & recipients & rows & P & R & E & F).
  assert (C : Ok content = Ok Samples.two_recipients)
    by (rewrite <- P; vm_compute; reflexivity).
  injection C as ->.
  assert (Rs : JArr recipients = JArr [Samples.recipient_a; Samples.recipient_b])
    by (rewrite <- R; reflexivity).
  injection Rs as ->.
  exists rows. split; [exact E|]. split; [exact F|].
  assert (Rows : rows = tl (CsvStore.csv (snd (CsvStore.post_sns Host.URL_hostname
                                                 CsvStore.no_faults body Samples.empty_store)))).
  { rewrite E. reflexivity. }
  rewrite Rows. split; vm_compute; reflexivity.
Defined.

(** C8 as stated fails: a field of a stored record can be empty.  A bounce
    whose [mail] has no [sourceIp] is accepted and the row written has an
    empty cell there; a bounce whose [bounceType] is the empty array is
    accepted, the array counts as set, and it is written as an empty
    cell. *)
Lemma stored_record_can_have_an_empty_field :
  let mail := JObj [("source", JStr "sender@example.com")] in
  let body := Samples.envelope
                (Samples.notification [Samples.recipient_a] Samples.instant mail) in
  let array := Samples.envelope
                 (JStr (Str.q "{'notificationType':'Bounce','bounce':{'bounceType':[],'bouncedRecipients':[{'emailAddress':'a@example.com'}],'timestamp':'2030-01-02T03:04:05.678Z'},'mail':{'source':'sender@example.com','sourceIp':'192.0.2.1'}}")) in
  fst (CsvStore.post_sns Host.URL_hostname CsvStore.no_faults body Samples.empty_store)
  = mkResponse 200 (Message "Bounce processed successfully")
  /\ CsvStore.csv (snd (CsvStore.post_sns Host.URL_hostname CsvStore.no_faults body
                          Samples.empty_store))
     = [ CsvStore.titles;
         [ "a@example.com"; "2030-01-02T03:04:05.678Z"; "sender@example.com"; EmptyString;
           "Permanent"; "Unknown"; "Not provided"; "Not provided"; "Not provided" ] ]
  /\ fst (CsvStore.post_sns Host.URL_hostname CsvStore.no_faults array Samples.empty_store)
     = mkResponse 200 (Message "Bounce processed successfully")
  /\ CsvStore.csv (snd (CsvStore.post_sns Host.URL_hostname CsvStore.no_faults array
                          Samples.empty_store))
     = [ CsvStore.titles;
         [ "a@example.com"; "2030-01-02T03:04:05.678Z"; "sender@example.com"; "192.0.2.1";
           EmptyString; "Unknown"; "Not provided"; "Not provided"; "Not provided" ] ].
Proof.
  vm_compute. repeat split.
Qed.

(** ** One row per recipient *)

(** C2.  A bounce with N recipients is to give N records.  The handler of
    ses-bounces-handler.js reads [bouncedRecipients[0]] only: what it
    appends does not depend on the recipients after the first, and the
    two-recipient sample leaves one row. *)
Theorem V1_records_first_recipient_only
  (recipient : value) (others : list value) (timestamp mail : value) (csv : string) :
  V1.post_sns (Samples.notification (recipient :: others) timestamp mail) csv
  = V1.post_sns (Samples.notification [recipient] timestamp mail) csv
  /\ V1.post_sns Samples.two_recipients V1.initial_csv
     = (mkResponse 200 (Message "Notification processed"),
        (V1.initial_csv
           ++ "a@example.com,2030-01-02T03:04:05.678Z,sender@example.com,192.0.2.1" ++ nl)%string).
Proof.
  split; reflexivity.
Qed.

(** ** The lock around the append *)

(** C9, as the code has it.  [appendToCsv] writes the lock file before it
    appends, and appends only when that write went through.  It removes the
    lock file at the end of the [try] block, and again in the [catch] block
    when anything before has failed; so the lock file is gone after the
    call, on success and on failure of the write alike, as long as the
    removal in the [catch] block does not fail itself.  The data file is
    either unchanged or longer by the rows of this call. *)
Theorem appendToCsv_releases_the_lock
  (env : CsvStore.faults) (data : list value) (st : CsvStore.fs) :
  let r := fst (CsvStore.appendToCsv env data st) in
  let st' := snd (CsvStore.appendToCsv env data st) in
  (appends_under_lock (CsvStore.history st) = true ->
   appends_under_lock (CsvStore.history st') = true)
  /\ (CsvStore.on_unlink_again env = None -> CsvStore.lock st' = false)
  /\ (r = Ok tt -> CsvStore.lock st' = false)
  /\ (CsvStore.csv st' = CsvStore.csv st
      \/ exists rows, CsvStore.stringifyRecords data = Ok rows
                      /\ CsvStore.on_lock_write env = None
                      /\ CsvStore.csv st' = CsvStore.csv st ++ rows).
Proof.
  destruct env as [[e1|] [e2|] [e3|] [e4|]];
    destruct st as [table [|] h];
    unfold CsvStore.appendToCsv, CsvStore.try_catch, CsvStore.io_bind, CsvStore.lift,
      CsvStore.writeLock, CsvStore.appendFile, CsvStore.unlinkLock, CsvStore.ret,
      CsvStore.raise;
    cbn [CsvStore.on_lock_write CsvStore.on_append CsvStore.on_unlink
         CsvStore.on_unlink_again CsvStore.csv CsvStore.lock CsvStore.history];
    destruct (CsvStore.stringifyRecords data) as [rows|e];
    cbn [fst snd CsvStore.csv CsvStore.lock CsvStore.history appends_under_lock];
    (split; [tauto|]); (split; [try reflexivity; try discriminate|]);
    (split; [try reflexivity; try discriminate|]);
    try (left; reflexivity); try (right; exists rows; repeat split; reflexivity).
Qed.

(** A record appended to a fresh store with nothing failing, and with the
    append failing: no lock file afterwards. *)
Lemma appendToCsv_releases_the_lock_witness :
  let record := JObj [("email", JStr "a@example.com")] in
  let disk_full := CsvStore.mkFaults None (Some (SystemError "ENOSPC")) None None in
  CsvStore.lock (snd (CsvStore.appendToCsv CsvStore.no_faults [record] Samples.empty_store))
  = false
  /\ CsvStore.lock (snd (CsvStore.appendToCsv disk_full [record] Samples.empty_store))
     = false.
Proof.
  intros record disk_full. split.
  - destruct (appendToCsv_releases_the_lock CsvStore.no_faults [record] Samples.empty_store)
      as (_ & H & _).
    apply H. reflexivity.
  - destruct (appendToCsv_releases_the_lock disk_full [record] Samples.empty_store)
      as (_ & H & _).
    apply H. reflexivity.
Defined.

(** C9 as stated fails: there is an exit on which the lock stays.  The
    append fails, the removal of the lock file in the [catch] block fails
    too (an error that is logged and dropped), and the call ends with the
    first error and the lock file in place. *)
Lemma lock_file_stays_when_its_removal_fails :
  let env := CsvStore.mkFaults None (Some (SystemError "ENOSPC")) None
               (Some (SystemError "EACCES")) in
  let record := JObj [("email", JStr "a@example.com")] in
  fst (CsvStore.appendToCsv env [record] Samples.empty_store) = Throw (SystemError "ENOSPC")
  /\ CsvStore.lock (snd (CsvStore.appendToCsv env [record] Samples.empty_store)) = true.
Proof.
  vm_compute. split; reflexivity.
Qed.

(** ** Delivery with retry *)

Lemma sends_after_wait (ms : nat) (events : list event) :
  sends (SendMail :: Wait ms :: events) = S (sends events).
Proof. reflexivity. Qed.

Lemma sends_attempts (k : nat) : sends (attempts k) = k.
Proof.
  induction k as [|k IH]; [reflexivity|].
  destruct k as [|k']; [reflexivity|].
  change (attempts (S (S k'))) with (SendMail :: Wait 5000 :: attempts (S k')).
  rewrite sends_after_wait, IH. reflexivity.
Qed.

(** The loop on the eight ways three calls can end. *)
Lemma send_with_retry_cases (sendMail : nat -> option exn) :
  send_with_retry sendMail =
  match sendMail 0 with
  | None => (Ok tt, attempts 1)
  | Some _ =>
      match sendMail 1 with
      | None => (Ok tt, attempts 2)
      | Some _ =>
          match sendMail 2 with
          | None => (Ok tt, attempts 3)
          | Some e => (Throw e, attempts 3)
          end
      end
  end.
Proof.
  unfold send_with_retry. simpl.
  destruct (sendMail 0); [|reflexivity].
  destruct (sendMail 1); [|reflexivity].
  destruct (sendMail 2); reflexivity.
Qed.

(** ** The clean-up that keeps lines by their index (part_003) *)

Section MultiParseCleanup.

Variable Date_new : value -> option Z.
Variable cutoff : Z.

Lemma keep_throws_TypeError (index : nat) (line : string) (e : exn) :
  MultiParse.keep Date_new cutoff index line = Throw e -> e = TypeError.
Proof.
  unfold MultiParse.keep. destruct index; [discriminate|].
  destruct (second_field line); try (intros H; inversion H; reflexivity).
  destruct (String.eqb _ _); discriminate.
Qed.

(** A last line without a comma, anywhere but in the first place, makes the
    filter throw whatever the lines before it are. *)
Lemma filter_from_trailing_empty (lines : list string) :
  forall index, (0 < index + List.length lines)%nat ->
  MultiParse.filter_from Date_new cutoff index (lines ++ [EmptyString]) = Throw TypeError.
Proof.
  induction lines as [|line rest IH]; intros index Hpos; simpl.
  - destruct index as [|n]; [simpl in Hpos; lia|]. reflexivity.
  - destruct (MultiParse.keep Date_new cutoff index line) as [k|e] eqn:K; simpl.
    + rewrite IH by lia. reflexivity.
    + apply keep_throws_TypeError in K. subst. reflexivity.
Qed.

Lemma cleanup_throws_on_trailing_newline (csv : string) :
  MultiParse.cleanup Date_new cutoff (csv ++ nl) = Throw TypeError.
Proof.
  unfold MultiParse.cleanup, nl. rewrite split_trailing_separator.
  rewrite filter_from_trailing_empty; [reflexivity|].
  pose proof (split_length_pos Str.newline csv). lia.
Qed.

End MultiParseCleanup.

(** ** The clean-up of the first iteration *)

Lemma V1_split_header (rest : string) :
  Str.split Str.newline (V1.header ++ nl ++ rest) = V1.header :: Str.split Str.newline rest.
Proof. reflexivity. Qed.

Lemma V1_cleanup_drops_header (Date_new : value -> option Z) (cutoff : Z) (rest : string) :
  Date_new (JStr "Timestamp") = None ->
  V1.cleanup Date_new cutoff (V1.header ++ nl ++ rest) = V1.cleanup Date_new cutoff rest.
Proof.
  intros H. unfold V1.cleanup. rewrite V1_split_header. simpl filter.
  unfold V1.keep at 1.
  replace (second_field V1.header) with (JStr "Timestamp") by reflexivity.
  rewrite H. reflexivity.
Qed.

(** C3.  deleteOlderThan is to remove exactly the rows at or before the
    horizon and to keep the header row.  Neither clean-up does: on a file
    that ends with a newline (every file the server writes does) the filter
    of part_003 throws on the last, empty, line before anything is pruned;
    the filter of ses-bounces-handler.js tests the header row like a data
    row and drops it, [Timestamp] being no date. *)
Theorem cleanup_throws_or_drops_header
  (Date_new : value -> option Z) (cutoff : Z) (csv rows : string) :
  Date_new (JStr "Timestamp") = None ->
  MultiParse.cleanup Date_new cutoff (csv ++ nl) = Throw TypeError
  /\ V1.cleanup Date_new cutoff (V1.header ++ nl ++ rows) = V1.cleanup Date_new cutoff rows.
Proof.
  intros H. split.
  - apply cleanup_throws_on_trailing_newline.
  - apply V1_cleanup_drops_header. exact H.
Qed.

(** The files a bounce leaves behind in the two iterations, pruned with a
    horizon long before the bounce: one run throws, the other returns the
    data row without the header. *)
Lemma cleanup_throws_or_drops_header_witness :
  MultiParse.cleanup Host.Date_new 0
    (snd (MultiParse.post_sns true (Samples.envelope (JStr Samples.notification_text))
            V1.initial_csv)) = Throw TypeError
  /\ V1.cleanup Host.Date_new 0 (snd (V1.post_sns Samples.two_recipients V1.initial_csv))
     = "a@example.com,2030-01-02T03:04:05.678Z,sender@example.com,192.0.2.1".
Proof.
  pose proof (cleanup_throws_or_drops_header Host.Date_new 0
    (V1.header ++ nl ++ Str.q "'a@example.com','2030-01-02T03:04:05.678Z','sender@example.com','192.0.2.1'" ++ nl
       ++ Str.q "'b@example.com','2030-01-02T03:04:05.678Z','sender@example.com','192.0.2.1'")
    ("a@example.com,2030-01-02T03:04:05.678Z,sender@example.com,192.0.2.1" ++ nl)
    eq_refl) as [H1 H2].
  split.
  - exact H1.
  - etransitivity; [exact H2 | reflexivity].
Defined.

(** ** The clean-up of the locked CSV store *)

Section CleanupFacts.

Variable Date_new : value -> option Z.
Variable cutoff : Z.

Lemma nine_cells_inv (row : list string) :
  nine_cells row ->
  exists c1 c2 c3 c4 c5 c6 c7 c8 c9, row = [c1; c2; c3; c4; c5; c6; c7; c8; c9].
Proof.
  unfold nine_cells. intros H.
  do 9 (destruct row as [|? row]; [discriminate|]).
  destruct row; [|discriminate]. repeat eexists.
Qed.

(** csv-parse names the cells of a row by the titles; csv-writer looks for
    the ids, finds none, and writes nine empty cells. *)
Lemma cells_of_parsed_row (row : list string) :
  nine_cells row ->
  CsvStore.cells (CsvStore.record_of CsvStore.titles row) CsvStore.ids = Ok blank_row.
Proof.
  intros H. destruct (nine_cells_inv row H) as (c1&c2&c3&c4&c5&c6&c7&c8&c9&->).
  reflexivity.
Qed.

Lemma timestamp_of_parsed_row (row : list string) :
  nine_cells row ->
  get_opt (CsvStore.record_of CsvStore.titles row) "Timestamp" = JStr (nth 1 row EmptyString).
Proof.
  intros H. destruct (nine_cells_inv row H) as (c1&c2&c3&c4&c5&c6&c7&c8&c9&->).
  reflexivity.
Qed.

Lemma csv_parse_rows (rows : list (list string)) :
  Forall nine_cells rows ->
  CsvStore.csv_parse (CsvStore.titles :: rows)
  = Ok (map (CsvStore.record_of CsvStore.titles) rows).
Proof.
  intros H. unfold CsvStore.csv_parse.
  replace (forallb _ rows) with true; [reflexivity|].
  symmetry. apply forallb_forall. intros r Hr.
  rewrite Forall_forall in H. rewrite (H r Hr). reflexivity.
Qed.

Lemma newer_than_parsed (rows : list (list string)) :
  Forall nine_cells rows ->
  CsvStore.newer_than Date_new cutoff (map (CsvStore.record_of CsvStore.titles) rows)
  = map (CsvStore.record_of CsvStore.titles) (filter (row_is_recent Date_new cutoff) rows).
Proof.
  induction 1 as [|row rows Hrow Hrows IH]; [reflexivity|].
  unfold CsvStore.newer_than in *. cbn [map filter].
  rewrite (timestamp_of_parsed_row row Hrow), IH.
  change (later_than (Date_new (JStr (nth 1 row EmptyString))) cutoff)
    with (row_is_recent Date_new cutoff row).
  destruct (row_is_recent Date_new cutoff row); reflexivity.
Qed.

Lemma stringify_parsed (rows : list (list string)) :
  Forall nine_cells rows ->
  CsvStore.stringifyRecords (map (CsvStore.record_of CsvStore.titles) rows)
  = Ok (map (fun _ => blank_row) rows).
Proof.
  induction 1 as [|row rows Hrow Hrows IH]; [reflexivity|].
  cbn [map CsvStore.stringifyRecords].
  rewrite (cells_of_parsed_row row Hrow), IH. reflexivity.
Qed.

Lemma filter_nine_cells (f : list string -> bool) (rows : list (list string)) :
  Forall nine_cells rows -> Forall nine_cells (filter f rows).
Proof.
  intros H. apply Forall_forall. intros r Hr.
  apply filter_In in Hr. rewrite Forall_forall in H. apply H. tauto.
Qed.

(** One run: the rows after the horizon stay in number, each as a row of
    empty cells. *)
Lemma cleanupOldData_blanks (rows : list (list string)) (st : CsvStore.fs) :
  CsvStore.csv st = CsvStore.titles :: rows ->
  Forall nine_cells rows ->
  fst (CsvStore.cleanupOldData Date_new None cutoff st) = Ok tt
  /\ CsvStore.csv (snd (CsvStore.cleanupOldData Date_new None cutoff st))
     = CsvStore.titles
       :: map (fun _ => blank_row) (filter (row_is_recent Date_new cutoff) rows).
Proof.
  intros E H.
  unfold CsvStore.cleanupOldData, CsvStore.io_bind, CsvStore.lift, CsvStore.writeFile.
  rewrite E, (csv_parse_rows rows H), (newer_than_parsed rows H).
  rewrite (stringify_parsed _ (filter_nine_cells _ rows H)).
  split; reflexivity.
Qed.

Lemma blank_rows_nine (rows : list (list string)) :
  Forall nine_cells (map (fun _ : list string => blank_row) rows).
Proof.
  apply Forall_forall. intros r Hr. apply in_map_iff in Hr.
  destruct Hr as (x & <- & _). reflexivity.
Qed.

Lemma blank_rows_not_recent (rows : list (list string)) :
  Date_new (JStr EmptyString) = None ->
  filter (row_is_recent Date_new cutoff) (map (fun _ : list string => blank_row) rows) = [].
Proof.
  intros H. induction rows as [|r rows IH]; [reflexivity|].
  cbn [map filter]. unfold row_is_recent at 1. simpl nth. rewrite H. exact IH.
Qed.

End CleanupFacts.

(** ** The report runs the retry loop *)

(** With a row of the last day in the file, [sendDailyReport] of part_005
    is the retry loop on its transport. *)
Lemma sendDailyReport_runs_the_loop
  (Date_new : value -> option Z) (sendMail : nat -> option exn) (dayAgo : Z)
  (rows : list (list string)) (st : CsvStore.fs) :
  CsvStore.csv st = CsvStore.titles :: rows ->
  Forall nine_cells rows ->
  (exists row, In row rows /\ row_is_recent Date_new dayAgo row = true) ->
  CsvStore.sendDailyReport Date_new sendMail dayAgo st = send_with_retry sendMail.
Proof.
  intros E H (row & Hin & Hrecent). unfold CsvStore.sendDailyReport.
  rewrite E, (csv_parse_rows rows H), (newer_than_parsed Date_new dayAgo rows H).
  assert (Hf : In row (filter (row_is_recent Date_new dayAgo) rows))
    by (apply filter_In; split; assumption).
  pose proof (stringify_parsed _ (filter_nine_cells (row_is_recent Date_new dayAgo) rows H))
    as SP.
  destruct (filter (row_is_recent Date_new dayAgo) rows) as [|r recent]; [contradiction|].
  cbn [map] in SP. cbn [map]. rewrite SP. reflexivity.
Qed.

(** C5.  [sendDailyReport], when there is something to report (a row of the
    last 24 hours in the file of part_005, a record returned by the query of
    part_000), runs the retry loop on the transport it was given.  The loop
    calls the transport at most three times and waits five seconds after a
    failed call before the next one; when call [k] is the first to succeed
    the report is sent with exactly [k] calls; only when all three calls
    fail does the loop throw, the error of the third call, which the
    scheduled job of part_005 and the [catch] of part_000 log without ending
    the process. *)
Theorem sendDailyReport_retries_three_times (sendMail : nat -> option exn) :
  (sends (snd (send_with_retry sendMail)) <= 3)%nat
  /\ (forall k, (1 <= k <= 3)%nat ->
        (forall i, (i < k - 1)%nat -> sendMail i <> None) ->
        sendMail (k - 1)%nat = None ->
        send_with_retry sendMail = (Ok tt, attempts k)
        /\ sends (snd (send_with_retry sendMail)) = k)
  /\ (forall e, fst (send_with_retry sendMail) = Throw e <->
        sendMail 0%nat <> None /\ sendMail 1%nat <> None /\ sendMail 2%nat = Some e)
  /\ (forall e, fst (send_with_retry sendMail) = Throw e ->
        snd (send_with_retry sendMail) = attempts 3)
  /\ (forall Date_new pruning dayAgo cutoff st e events,
        CsvStore.sendDailyReport Date_new sendMail dayAgo st = (Throw e, events) ->
        CsvStore.cron_job Date_new sendMail None None pruning dayAgo cutoff st
        = (Some e, events, st))
  /\ (forall d ds e,
        fst (send_with_retry sendMail) = Throw e ->
        Mongo.sendDailyReport sendMail (Ok (d :: ds)) = (Some e, attempts 3))
  /\ (forall Date_new dayAgo rows st,
        CsvStore.csv st = CsvStore.titles :: rows ->
        Forall nine_cells rows ->
        (exists row, In row rows /\ row_is_recent Date_new dayAgo row = true) ->
        CsvStore.sendDailyReport Date_new sendMail dayAgo st = send_with_retry sendMail)
  /\ (forall d ds,
        Mongo.sendDailyReport sendMail (Ok (d :: ds))
        = (match fst (send_with_retry sendMail) with
           | Ok _ => None
           | Throw e => Some e
           end,
           snd (send_with_retry sendMail))).
Proof.
  pose proof (send_with_retry_cases sendMail) as C.
  assert (first_success : forall k, (1 <= k <= 3)%nat ->
            (forall i, (i < k - 1)%nat -> sendMail i <> None) ->
            sendMail (k - 1)%nat = None ->
            send_with_retry sendMail = (Ok tt, attempts k)).
  { intros k Hk Hfail Hok.
    destruct k as [|[|[|[|k]]]]; try lia; simpl in Hok; rewrite C.
    - rewrite Hok. reflexivity.
    - destruct (sendMail 0) eqn:E0; [|exfalso; apply (Hfail 0%nat); [lia|exact E0]].
      rewrite Hok. reflexivity.
    - destruct (sendMail 0) eqn:E0; [|exfalso; apply (Hfail 0%nat); [lia|exact E0]].
      destruct (sendMail 1) eqn:E1; [|exfalso; apply (Hfail 1%nat); [lia|exact E1]].
      rewrite Hok. reflexivity. }
  assert (all_fail : forall e, fst (send_with_retry sendMail) = Throw e <->
            sendMail 0%nat <> None /\ sendMail 1%nat <> None /\ sendMail 2%nat = Some e).
  { intros e. rewrite C. split.
    - destruct (sendMail 0); [|discriminate].
      destruct (sendMail 1); [|discriminate].
      destruct (sendMail 2); [|discriminate].
      simpl. intros E. inversion E. repeat split; discriminate.
    - intros (H0 & H1 & H2).
      destruct (sendMail 0); [|congruence].
      destruct (sendMail 1); [|congruence].
      rewrite H2. reflexivity. }
  assert (trace : forall e, fst (send_with_retry sendMail) = Throw e ->
            snd (send_with_retry sendMail) = attempts 3).
  { intros e. rewrite C.
    destruct (sendMail 0); [|discriminate].
    destruct (sendMail 1); [|discriminate].
    destruct (sendMail 2); [reflexivity|discriminate]. }
  split; [|split; [|split; [|split; [|split; [|split; [|split]]]]]].
  - rewrite C. destruct (sendMail 0); [|cbv; lia].
    destruct (sendMail 1); [|cbv; lia].
    destruct (sendMail 2); cbv; lia.
  - intros k Hk Hfail Hok. split.
    + apply first_success; assumption.
    + rewrite (first_success k Hk Hfail Hok). apply sends_attempts.
  - exact all_fail.
  - exact trace.
  - intros Date_new pruning dayAgo cutoff st e events E.
    unfold CsvStore.cron_job. rewrite E. reflexivity.
  - intros d ds e E. unfold Mongo.sendDailyReport.
    pose proof (trace e E) as T.
    destruct (send_with_retry sendMail) as [r events]. simpl in E, T. subst. reflexivity.
  - intros Date_new dayAgo rows st. apply sendDailyReport_runs_the_loop.
  - intros d ds. unfold Mongo.sendDailyReport.
    destruct (send_with_retry sendMail) as [[u|e] events]; reflexivity.
Qed.

(** A transport that fails twice and then succeeds, on the file the sample
    bounce leaves: the report is sent with three calls and two waits of
    five seconds. *)
Lemma sendDailyReport_retries_three_times_witness :
  let sendMail := fun n => if (n <? 2)%nat then Some (Error "ECONNREFUSED") else None in
  let st := snd (CsvStore.post_sns Host.URL_hostname CsvStore.no_faults
                   (Samples.envelope (JStr Samples.notification_text)) Samples.empty_store) in
  send_with_retry sendMail
  = (Ok tt, [SendMail; Wait 5000; SendMail; Wait 5000; SendMail])
  /\ sends (snd (send_with_retry sendMail)) = 3%nat
  /\ CsvStore.sendDailyReport Host.Date_new sendMail 0 st = send_with_retry sendMail.
Proof.
  intros sendMail st.
  destruct (sendDailyReport_retries_three_times sendMail) as (_ & H & _ & _ & _ & _ & R & _).
  destruct (H 3%nat) as [H1 H2].
  - lia.
  - intros i Hi. assert (i = 0 \/ i = 1)%nat as [-> | ->] by lia; discriminate.
  - reflexivity.
  - split; [exact H1|]. split; [exact H2|].
    apply (R Host.Date_new 0%Z (tl (CsvStore.csv st)) st eq_refl).
    + repeat constructor.
    + eexists. split; [left; reflexivity | reflexivity].
Defined.

(** C4.  deleteOlderThan is to be idempotent.  [cleanupOldData] is not: it
    reads the rows under the titles of the header and writes them back
    under the ids of the stringifier, so the rows the first call keeps are
    written as rows of empty cells, and the second call, finding no date in
    them, deletes them all. *)
Theorem cleanupOldData_twice_deletes_what_once_kept
  (Date_new : value -> option Z) (cutoff : Z)
  (rows : list (list string)) (st : CsvStore.fs) :
  Date_new (JStr EmptyString) = None ->
  CsvStore.csv st = CsvStore.titles :: rows ->
  Forall nine_cells rows ->
  let once := snd (CsvStore.cleanupOldData Date_new None cutoff st) in
  let twice := snd (CsvStore.cleanupOldData Date_new None cutoff once) in
  CsvStore.csv once
  = CsvStore.titles :: map (fun _ => blank_row) (filter (row_is_recent Date_new cutoff) rows)
  /\ CsvStore.csv twice = [CsvStore.titles]
  /\ (filter (row_is_recent Date_new cutoff) rows <> [] ->
      CsvStore.csv twice <> CsvStore.csv once).
Proof.
  intros D E H once twice.
  destruct (cleanupOldData_blanks Date_new cutoff rows st E H) as [_ E1].
  fold once in E1.
  destruct (cleanupOldData_blanks Date_new cutoff _ once E1 (blank_rows_nine _)) as [_ E2].
  fold twice in E2. rewrite (blank_rows_not_recent Date_new cutoff _ D) in E2.
  split; [exact E1|]. split; [exact E2|].
  intros N. rewrite E1, E2. intros C. apply N.
  destruct (filter (row_is_recent Date_new cutoff) rows); [reflexivity|discriminate].
Qed.

(** The store after the two-recipient sample, pruned with a horizon long
    before the bounce: two empty rows after one run, none after two. *)
Lemma cleanupOldData_twice_deletes_what_once_kept_witness :
  let st := snd (CsvStore.post_sns Host.URL_hostname CsvStore.no_faults
                   (Samples.envelope (JStr Samples.notification_text)) Samples.empty_store) in
  let once := snd (CsvStore.cleanupOldData Host.Date_new None 0 st) in
  let twice := snd (CsvStore.cleanupOldData Host.Date_new None 0 once) in
  CsvStore.csv once = [CsvStore.titles; blank_row; blank_row]
  /\ CsvStore.csv twice = [CsvStore.titles]
  /\ CsvStore.csv twice <> CsvStore.csv once.
Proof.
  intros st once twice.
  destruct (cleanupOldData_twice_deletes_what_once_kept Host.Date_new 0
              (tl (CsvStore.csv st)) st eq_refl eq_refl)
    as (H1 & H2 & H3).
  - repeat constructor.
  - split; [exact H1|]. split; [exact H2|]. apply H3. discriminate.
Defined.

(** C10.  After a clean-up every remaining data row is to carry a date
    after the horizon.  After [cleanupOldData] of part_005 no remaining row
    carries a date at all: each is a row of empty cells, one for every row
    that was after the horizon.  The clean-up of part_003 throws on a file
    that ends with a newline and prunes nothing, so a row without a date
    stays where it is. *)
Theorem cleanup_leaves_rows_without_dates
  (Date_new : value -> option Z) (cutoff : Z)
  (rows : list (list string)) (st : CsvStore.fs) (text : string) :
  CsvStore.csv st = CsvStore.titles :: rows ->
  Forall nine_cells rows ->
  let after := CsvStore.csv (snd (CsvStore.cleanupOldData Date_new None cutoff st)) in
  (forall row, In row (tl after) -> row = blank_row /\ nth 1 row "?" = EmptyString)
  /\ List.length (tl after) = List.length (filter (row_is_recent Date_new cutoff) rows)
  /\ MultiParse.cleanup Date_new cutoff (text ++ nl) = Throw TypeError.
Proof.
  intros E H after.
  destruct (cleanupOldData_blanks Date_new cutoff rows st E H) as [_ E1].
  fold after in E1. rewrite E1. cbn [tl]. split; [|split].
  - intros row Hr. apply in_map_iff in Hr. destruct Hr as (x & <- & _).
    split; reflexivity.
  - apply length_map.
  - apply cleanup_throws_on_trailing_newline.
Qed.

(** The store after the two-recipient sample in part_005, and a file of
    part_003 with a row whose timestamp is no date. *)
Lemma cleanup_leaves_rows_without_dates_witness :
  let st := snd (CsvStore.post_sns Host.URL_hostname CsvStore.no_faults
                   (Samples.envelope (JStr Samples.notification_text)) Samples.empty_store) in
  let file := (V1.header ++ nl ++ Str.q "'a@example.com','yesterday','s@example.com','192.0.2.1'")%string in
  tl (CsvStore.csv (snd (CsvStore.cleanupOldData Host.Date_new None 0 st)))
  = [blank_row; blank_row]
  /\ MultiParse.cleanup Host.Date_new 0 (file ++ nl) = Throw TypeError.
Proof.
  intros st file.
  destruct (cleanup_leaves_rows_without_dates Host.Date_new 0
              (tl (CsvStore.csv st)) st file eq_refl)
    as (H1 & H2 & H3).
  - repeat constructor.
  - split; [reflexivity|exact H3].
Defined.

(** * Further properties of the code *)
(** ** Lines: [split] and [join] undo each other *)

Lemma append_assoc (a b c : string) : ((a ++ b) ++ c = a ++ (b ++ c))%string.
Proof. induction a as [|x a IH]; [reflexivity|]. cbn [append]. now rewrite IH. Qed.

Lemma join_cons_char (sep : string) (c : ascii) (h : string) (t : list string) :
  Str.join sep (String c h :: t) = String c (Str.join sep (h :: t)).
Proof. destruct t; reflexivity. Qed.

(** Joining the pieces of a split with the separator gives the text back. *)
Lemma join_split (sep : ascii) (s : string) :
  Str.join (String sep EmptyString) (Str.split sep s) = s.
Proof.
  induction s as [|c r IH]; [reflexivity|].
  cbn [Str.split].
  destruct (split_nonempty sep r) as (h & t & E). rewrite E in *.
  destruct (Ascii.eqb c sep) eqn:Ec.
  - apply Ascii.eqb_eq in Ec. subst c.
    change (Str.join (String sep EmptyString) (EmptyString :: h :: t))
      with (String sep (Str.join (String sep EmptyString) (h :: t))).
    now rewrite IH.
  - rewrite join_cons_char. now rewrite IH.
Qed.

Lemma split_without_separator (sep : ascii) (s : string) :
  has_char sep s = false -> Str.split sep s = [s].
Proof.
  induction s as [|c r IH]; [reflexivity|].
  cbn [has_char Str.split]. intros H. apply orb_false_iff in H as [Hc Hr].
  rewrite Hc, (IH Hr). reflexivity.
Qed.

Lemma split_with_separator (sep : ascii) (s : string) :
  has_char sep s = true -> exists a b t, Str.split sep s = a :: b :: t.
Proof.
  induction s as [|c r IH]; [discriminate|].
  cbn [has_char Str.split]. intros H.
  destruct (Ascii.eqb c sep).
  - destruct (split_nonempty sep r) as (h & t & E). rewrite E. eauto.
  - destruct (IH H) as (a & b & t & E). rewrite E. eauto.
Qed.

(** The pieces of a split do not hold the separator. *)
Lemma split_pieces (sep : ascii) (s : string) :
  Forall (fun piece => has_char sep piece = false) (Str.split sep s).
Proof.
  induction s as [|c r IH]; cbn [Str.split].
  - constructor; [reflexivity | constructor].
  - destruct (Ascii.eqb c sep) eqn:Ec.
    + constructor; [reflexivity | exact IH].
    + destruct (Str.split sep r) as [|h t].
      * constructor; [|constructor]. cbn [has_char]. now rewrite Ec.
      * inversion IH; subst. constructor; [|assumption].
        cbn [has_char]. now rewrite Ec.
Qed.

(** A piece, the separator, more text: the piece is the first piece. *)
Lemma split_app_separator (sep : ascii) (a b : string) :
  has_char sep a = false ->
  Str.split sep (a ++ String sep b) = a :: Str.split sep b.
Proof.
  induction a as [|c r IH]; cbn [has_char]; intros H.
  - cbn. now rewrite Ascii.eqb_refl.
  - apply orb_false_iff in H as [Hc Hr].
    cbn [append Str.split]. rewrite Hc, (IH Hr). reflexivity.
Qed.

(** A piece and more text without a separator between them: the first piece
    of the text continues the piece. *)
Lemma split_app_piece (sep : ascii) (a b : string) :
  has_char sep a = false ->
  Str.split sep (a ++ b)
  = match Str.split sep b with
    | h :: t => (a ++ h)%string :: t
    | [] => [a]
    end.
Proof.
  induction a as [|c r IH]; cbn [has_char]; intros H.
  - cbn [append]. destruct (split_nonempty sep b) as (h & t & E). now rewrite E.
  - apply orb_false_iff in H as [Hc Hr].
    cbn [append Str.split]. rewrite Hc, (IH Hr).
    destruct (Str.split sep b); reflexivity.
Qed.

(** Splitting what a join of separator-free pieces gave returns the pieces. *)
Lemma split_join (sep : ascii) (l : list string) :
  l <> [] ->
  Forall (fun piece => has_char sep piece = false) l ->
  Str.split sep (Str.join (String sep EmptyString) l) = l.
Proof.
  induction l as [|x t IH]; [congruence|]. intros _ H.
  inversion H as [|? ? Hx Ht]; subst.
  destruct t as [|y t'].
  - cbn [Str.join]. now apply split_without_separator.
  - change (Str.join (String sep EmptyString) (x :: y :: t'))
      with (x ++ String sep (Str.join (String sep EmptyString) (y :: t')))%string.
    rewrite (split_app_separator _ _ _ Hx), IH; [reflexivity | congruence | assumption].
Qed.

(** Text written after a join continues the last piece. *)
Lemma split_join_app (sep : ascii) (l : list string) (more : string) :
  l <> [] ->
  Forall (fun piece => has_char sep piece = false) l ->
  Str.split sep (Str.join (String sep EmptyString) l ++ more)
  = removelast l ++ Str.split sep (last l EmptyString ++ more).
Proof.
  induction l as [|x t IH]; [congruence|]. intros _ H.
  inversion H as [|? ? Hx Ht]; subst.
  destruct t as [|y t'].
  - reflexivity.
  - change (Str.join (String sep EmptyString) (x :: y :: t') ++ more)%string
      with ((x ++ String sep (Str.join (String sep EmptyString) (y :: t'))) ++ more)%string.
    rewrite append_assoc.
    change (String sep (Str.join (String sep EmptyString) (y :: t')) ++ more)%string
      with (String sep (Str.join (String sep EmptyString) (y :: t') ++ more)%string).
    rewrite (split_app_separator _ _ _ Hx), IH; [reflexivity | congruence | assumption].
Qed.

(** ** The length of a list is zero as a number only when the list is empty *)

Lemma read_digits_uint (d : Decimal.uint) :
  forall acc count : Z, (0 <= acc)%Z ->
  exists v c,
    read_digits (NilEmpty.string_of_uint d) acc count = (v, c, EmptyString)
    /\ (0 <= v)%Z
    /\ (v = 0%Z -> acc = 0%Z /\ Nat.of_uint_acc d 0 = 0%nat).
Proof.
  induction d as [|d IH|d IH|d IH|d IH|d IH|d IH|d IH|d IH|d IH|d IH]; intros acc count Hacc;
    cbn [NilEmpty.string_of_uint read_digits];
    try (exists acc, count; repeat split; auto; fail);
    match goal with
    | |- context [is_digit ?c] => change (is_digit c) with true; cbv iota
    end;
    match goal with
    | |- context [read_digits _ ?a ?c] =>
        destruct (IH a c) as (v & c' & E & Hv & Hz);
          [unfold digit_value; cbn; lia|];
          exists v, c'; split; [exact E|]; split; [exact Hv|];
          intros Z0; destruct (Hz Z0) as [Ha Hd]; unfold digit_value in Ha; cbn in Ha;
          split; [lia | try lia]
    end.
  cbn [Nat.of_uint_acc]. exact Hd.
Qed.

Lemma decimal_of_uint (d : Decimal.uint) :
  exists v, decimal_of (NilEmpty.string_of_uint d) = mkDecimal false v 0
            /\ (v = 0%Z -> Nat.of_uint d = 0%nat).
Proof.
  destruct (read_digits_uint d 0 0) as (v & c & E & _ & Hz); [lia|].
  exists v. split; [|intros Z0; exact (proj2 (Hz Z0))].
  unfold decimal_of.
  destruct d; cbn [NilEmpty.string_of_uint] in *;
    try match goal with
        | |- context [Ascii.eqb ?c "-"] => change (Ascii.eqb c "-") with false; cbv iota
        end;
    rewrite E; reflexivity.
Qed.

Lemma positive_length_is_truthy (n : nat) : truthy (JNum (Str.of_nat (S n))) = true.
Proof.
  cbn [truthy]. unfold Str.of_nat.
  destruct (decimal_of_uint (Nat.to_uint (S n))) as (v & E & Hz). rewrite E.
  unfold rounds_to_zero. cbn [mantissa exponent].
  destruct (v =? 0)%Z eqn:V; [|reflexivity].
  apply Z.eqb_eq in V. apply Hz in V. rewrite Unsigned.of_to in V. discriminate V.
Qed.

Lemma filter_Forall {A : Type} (P : A -> Prop) (f : A -> bool) (l : list A) :
  Forall P l -> Forall P (filter f l).
Proof.
  induction 1; cbn [filter]; [constructor|].
  destruct (f x); [constructor|]; assumption.
Qed.

Lemma filter_filter {A : Type} (f : A -> bool) (l : list A) :
  filter f (filter f l) = filter f l.
Proof.
  induction l as [|x t IH]; [reflexivity|]. cbn [filter].
  destruct (f x) eqn:E; [|exact IH]. cbn [filter]. now rewrite E, IH.
Qed.

(** ** The first iteration: more of the clean-up and of the handler *)

(** X1.  The clean-up of src/ses-bounces-handler.js is idempotent: applied to
    the text it wrote, with the same horizon, it writes that text again. *)
Theorem V1_cleanup_idempotent (Date_new : value -> option Z) (cutoff : Z) (csv : string) :
  V1.cleanup Date_new cutoff (V1.cleanup Date_new cutoff csv)
  = V1.cleanup Date_new cutoff csv.
Proof.
  unfold V1.cleanup.
  pose proof (filter_Forall _ (V1.keep Date_new cutoff) _ (split_pieces Str.newline csv)) as F.
  destruct (filter (V1.keep Date_new cutoff) (Str.split Str.newline csv)) as [|x t] eqn:E.
  - cbn. destruct (V1.keep Date_new cutoff EmptyString); reflexivity.
  - unfold nl. rewrite split_join; [|congruence|exact F].
    rewrite <- E, filter_filter. reflexivity.
Qed.

(** X2.  The text the clean-up of src/ses-bounces-handler.js writes does not
    end its last kept line: whatever is appended next (the handler appends a
    row and a newline) continues that line instead of starting a new one. *)
Theorem V1_cleanup_leaves_last_line_open
  (Date_new : value -> option Z) (cutoff : Z) (csv row : string) :
  let kept := filter (V1.keep Date_new cutoff) (Str.split Str.newline csv) in
  kept <> [] ->
  has_char Str.newline row = false ->
  Str.split Str.newline (V1.cleanup Date_new cutoff csv ++ row ++ nl)
  = removelast kept ++ [(last kept EmptyString ++ row)%string; EmptyString].
Proof.
  intros kept Hk Hrow. unfold V1.cleanup. fold kept.
  assert (F : Forall (fun piece => has_char Str.newline piece = false) kept)
    by (apply filter_Forall, split_pieces).
  unfold nl at 1. rewrite split_join_app by assumption.
  f_equal.
  assert (L : has_char Str.newline (last kept EmptyString) = false).
  { clear -F Hk. induction F as [|x l Hx Hl IH]; [congruence|].
    destruct l; [exact Hx|]. apply IH. congruence. }
  rewrite <- append_assoc. unfold nl.
  rewrite split_trailing_separator, split_without_separator; [reflexivity|].
  clear -L Hrow. induction (last kept EmptyString) as [|c r IH]; [exact Hrow|].
  cbn [has_char append] in *. apply orb_false_iff in L as [Hc Hr].
  now rewrite Hc, IH.
Qed.

Lemma V1_cleanup_leaves_last_line_open_witness :
  let row := "a@example.com,2030-01-02T03:04:05.678Z,sender@example.com,192.0.2.1" in
  Str.split Str.newline
    (V1.cleanup Host.Date_new 0 (V1.initial_csv ++ row ++ nl) ++ row ++ nl)
  = [(row ++ row)%string; EmptyString].
Proof.
  intros row.
  apply (V1_cleanup_leaves_last_line_open Host.Date_new 0 (V1.initial_csv ++ row ++ nl) row);
    [vm_compute; discriminate | reflexivity].
Defined.

(** X3.  A bounce without recipients reaches [bouncedRecipients[0].emailAddress]
    in src/ses-bounces-handler.js: the handler answers 500 with the TypeError
    and writes nothing. *)
Theorem V1_bounce_without_recipients_is_a_TypeError
  (props bounce : list (string * value)) (csv : string) :
  lookup props "notificationType" = Some (JStr "Bounce") ->
  lookup props "bounce" = Some (JObj bounce) ->
  lookup bounce "bouncedRecipients" = Some (JArr []) ->
  V1.post_sns (JObj props) csv = (mkResponse 500 (ErrorOf TypeError), csv).
Proof.
  intros Hk Hb Hr. unfold V1.post_sns, V1.handle.
  cbn [get]. rewrite Hk, Hb. cbn [bind is_str String.eqb Ascii.eqb Bool.eqb get].
  destruct (lookup props "mail"); cbn [bind]; rewrite Hr; reflexivity.
Qed.

Lemma V1_bounce_without_recipients_is_a_TypeError_witness :
  V1.post_sns (Samples.notification [] Samples.instant Samples.mail) V1.initial_csv
  = (mkResponse 500 (ErrorOf TypeError), V1.initial_csv).
Proof.
  apply (V1_bounce_without_recipients_is_a_TypeError _
           [ ("bounceType", JStr "Permanent"); ("bouncedRecipients", JArr []);
             ("timestamp", Samples.instant) ]); reflexivity.
Defined.

(** ** The multi-strategy iteration: rows, decoding, clean-up, job *)

Lemma save_recipients_cons (bounce mail recipient : value) (rest : list value) (csv : string) :
  MultiParse.save_recipients bounce mail (recipient :: rest) csv
  = match MultiParseJob.quoted_row bounce mail recipient with
    | Ok line => MultiParse.save_recipients bounce mail rest (csv ++ line)
    | Throw e => (Throw e, csv)
    end.
Proof. reflexivity. Qed.

(** X4.  [forEach] of part_003 writes row after row: when every recipient
    gives a row, the file grows by these rows in the recipients' order; when
    a recipient makes the callback throw, the rows of the recipients before
    it are already in the file and stay there. *)
Theorem save_recipients_keeps_rows_written_before_a_failure
  (bounce mail : value) (recipients : list value) (lines : list string) (csv : string) :
  Forall2 (fun recipient line => MultiParseJob.quoted_row bounce mail recipient = Ok line)
          recipients lines ->
  MultiParse.save_recipients bounce mail recipients csv = (Ok tt, (csv ++ glue lines)%string)
  /\ forall (bad : value) (rest : list value) (e : exn),
       MultiParseJob.quoted_row bounce mail bad = Throw e ->
       MultiParse.save_recipients bounce mail (recipients ++ bad :: rest) csv
       = (Throw e, (csv ++ glue lines)%string).
Proof.
  intros F. revert csv.
  induction F as [|r line rs ls Hr F IH]; intros csv.
  - assert (E : (csv ++ glue [])%string = csv).
    { unfold glue. cbn. clear. induction csv as [|c s IH]; [reflexivity|].
      cbn [append]. now rewrite IH. }
    rewrite E. split; [reflexivity|].
    intros bad rest e Hbad. cbn [app]. rewrite save_recipients_cons, Hbad. reflexivity.
  - assert (E : (csv ++ glue (line :: ls))%string = ((csv ++ line) ++ glue ls)%string)
      by (unfold glue; cbn [fold_right]; now rewrite append_assoc).
    rewrite E. destruct (IH (csv ++ line)%string) as [IH1 IH2]. split.
    + rewrite save_recipients_cons, Hr. exact IH1.
    + intros bad rest e Hbad. cbn [app]. rewrite save_recipients_cons, Hr.
      now apply IH2.
Qed.

Lemma save_recipients_keeps_rows_written_before_a_failure_witness :
  let row := Str.q "'a@example.com','2030-01-02T03:04:05.678Z','sender@example.com','192.0.2.1'" in
  let bounce := get_opt Samples.two_recipients "bounce" in
  MultiParse.save_recipients bounce Samples.mail [Samples.recipient_a] V1.initial_csv
  = (Ok tt, (V1.initial_csv ++ row ++ nl)%string)
  /\ MultiParse.save_recipients bounce Samples.mail
       [Samples.recipient_a; JNull; Samples.recipient_b] V1.initial_csv
     = (Throw TypeError, (V1.initial_csv ++ row ++ nl)%string).
Proof.
  intros row bounce.
  destruct (save_recipients_keeps_rows_written_before_a_failure bounce Samples.mail
              [Samples.recipient_a] [(row ++ nl)%string] V1.initial_csv) as [H1 H2].
  - repeat constructor.
  - split; [exact H1|]. exact (H2 JNull [Samples.recipient_b] TypeError eq_refl).
Defined.

(** X5.  part_003 takes a bounce without recipients, or without [mail], as
    nothing to do: whenever the guard of the later iterations would call the
    structure invalid, the answer is 200 and the file is left as it was. *)
Theorem MultiParse_answers_200_to_an_invalid_bounce
  (sns content : value) (by_strategy : MultiParse.strategy) (csv : string) :
  MultiParse.parse_message sns = MultiParse.Parsed by_strategy content ->
  get content "notificationType" = Ok (JStr "Bounce") ->
  CsvStore.invalid_structure (get_opt content "bounce") (get_opt content "mail") = true ->
  MultiParse.post_sns true sns csv
  = (mkResponse 200 (Message "Notification processed"), csv).
Proof.
  intros P K I. unfold MultiParse.post_sns. rewrite P.
  assert (E : MultiParse.process content csv = (Ok tt, csv)).
  { unfold MultiParse.process. rewrite K. cbn [is_str String.eqb Ascii.eqb Bool.eqb].
    unfold CsvStore.invalid_structure in I.
    destruct (truthy (get_opt content "bounce")); [|reflexivity].
    destruct (truthy (get_opt content "mail")); cbn [andb];
      [|reflexivity].
    rewrite orb_false_r in I.
    destruct (get_opt (get_opt content "bounce") "bouncedRecipients") as [| |b|n|s|l|o];
      try reflexivity.
    destruct l as [|r rest]; [reflexivity|].
    unfold get_opt in I. cbn [get String.eqb Ascii.eqb Bool.eqb] in I.
    cbn [List.length] in I. rewrite positive_length_is_truthy in I. discriminate I. }
  rewrite E. reflexivity.
Qed.

Lemma MultiParse_answers_200_to_an_invalid_bounce_witness :
  MultiParse.post_sns true
    (Samples.envelope
       (JStr (Str.q "{'notificationType':'Bounce','bounce':{'bouncedRecipients':[]},'mail':{}}")))
    V1.initial_csv
  = (mkResponse 200 (Message "Notification processed"), V1.initial_csv).
Proof.
  apply (MultiParse_answers_200_to_an_invalid_bounce _
           (JObj [ ("notificationType", JStr "Bounce");
                   ("bounce", JObj [("bouncedRecipients", JArr [])]);
                   ("mail", JObj []) ])
           MultiParse.Direct); vm_compute; reflexivity.
Defined.

(** X6.  A [Message] that was encoded twice, a JSON string holding the JSON
    text, is parsed by the first strategy of part_003 to that text, which has
    no [notificationType]: the answer is 200 and nothing is written, whatever
    the text holds. *)
Theorem double_encoded_message_is_ignored (sns : value) (s inner : string) (csv : string) :
  get sns "Message" = Ok (JStr s) ->
  JSON.parse_text s = Some (JStr inner) ->
  MultiParse.parse_message sns = MultiParse.Parsed MultiParse.Direct (JStr inner)
  /\ MultiParse.post_sns true sns csv
     = (mkResponse 200 (Message "Notification processed"), csv).
Proof.
  intros G P.
  assert (E : MultiParse.parse_message sns = MultiParse.Parsed MultiParse.Direct (JStr inner))
    by (rewrite (parse_message_of_string sns s G), P; reflexivity).
  split; [exact E|].
  unfold MultiParse.post_sns. rewrite E.
  unfold MultiParse.process. cbn [get].
  destruct (String.eqb "notificationType" "length") eqn:L; [discriminate L|].
  reflexivity.
Qed.

Lemma double_encoded_message_is_ignored_witness :
  let twice := String Str.dq (escape_quotes Samples.notification_text
                               ++ String Str.dq EmptyString) in
  MultiParse.parse_message (Samples.envelope (JStr twice))
  = MultiParse.Parsed MultiParse.Direct (JStr Samples.notification_text)
  /\ MultiParse.post_sns true (Samples.envelope (JStr twice)) V1.initial_csv
     = (mkResponse 200 (Message "Notification processed"), V1.initial_csv).
Proof.
  intros twice.
  apply (double_encoded_message_is_ignored (Samples.envelope (JStr twice)) twice
           Samples.notification_text); vm_compute; reflexivity.
Defined.

Lemma escape_quotes_head (s : string) :
  match escape_quotes s with
  | String c _ => Ascii.eqb c Str.dq = false
  | EmptyString => True
  end.
Proof.
  destruct s as [|c r]; cbn [escape_quotes]; [exact I|].
  destruct (Ascii.eqb c Str.dq) eqn:E; [reflexivity | exact E].
Qed.

(** Taking the backslashes away undoes the escaping. *)
Lemma unescape_escape (s : string) : Str.unescape_quotes (escape_quotes s) = s.
Proof.
  induction s as [|c r IH]; [reflexivity|].
  cbn [escape_quotes]. destruct (Ascii.eqb c Str.dq) eqn:E.
  - apply Ascii.eqb_eq in E. subst c.
    cbn [Str.unescape_quotes]. rewrite !Ascii.eqb_refl. cbn [andb]. now rewrite IH.
  - pose proof (escape_quotes_head r) as Hh.
    cbn [Str.unescape_quotes].
    destruct (escape_quotes r) as [|d r'] eqn:Er.
    + destruct r; [reflexivity|]. cbn [escape_quotes] in Er.
      destruct (Ascii.eqb a Str.dq); discriminate Er.
    + rewrite Hh, andb_false_r. now rewrite IH.
Qed.

(** X7.  The second strategy of part_003 undoes one escaping of the quotes:
    a [Message] whose quotes carry backslashes, and which is not JSON as it
    stands, is decoded to what the text without the backslashes and without
    quotes around it parses to. *)
Theorem unescaped_strategy_undoes_escaping (sns : value) (text : string) (content : value) :
  get sns "Message" = Ok (JStr (escape_quotes text)) ->
  JSON.parse_text (escape_quotes text) = None ->
  JSON.parse_text (Str.strip_outer_quotes text) = Some content ->
  MultiParse.parse_message sns = MultiParse.Parsed MultiParse.Unescaped content.
Proof.
  intros G N P.
  rewrite (parse_message_of_string sns _ G), N, unescape_escape, P. reflexivity.
Qed.

Lemma unescaped_strategy_undoes_escaping_witness :
  MultiParse.parse_message (Samples.envelope (JStr (escape_quotes Samples.notification_text)))
  = MultiParse.Parsed MultiParse.Unescaped Samples.two_recipients
  /\ MultiParse.parse_message
       (Samples.envelope
          (JStr (escape_quotes (String Str.dq (Samples.notification_text
                                               ++ String Str.dq EmptyString)))))
     = MultiParse.Parsed MultiParse.Unescaped Samples.two_recipients.
Proof.
  split.
  - apply (unescaped_strategy_undoes_escaping _ Samples.notification_text);
      vm_compute; reflexivity.
  - apply (unescaped_strategy_undoes_escaping _
             (String Str.dq (Samples.notification_text ++ String Str.dq EmptyString)));
      vm_compute; reflexivity.
Defined.

(** *** The clean-up of part_003, when it throws and what it keeps *)

Section MultiParseCleanupMore.

Variable Date_new : value -> option Z.
Variable cutoff : Z.

Lemma second_field_without_comma (line : string) :
  has_char Str.comma line = false -> second_field line = JUndefined.
Proof.
  intros H. unfold second_field. now rewrite (split_without_separator _ _ H).
Qed.

Lemma second_field_with_comma (line : string) :
  has_char Str.comma line = true -> exists cell, second_field line = JStr cell.
Proof.
  intros H. unfold second_field.
  destruct (split_with_separator _ _ H) as (a & b & t & E). rewrite E. eauto.
Qed.

Lemma keep_after_first (index : nat) (line : string) :
  MultiParse.keep Date_new cutoff (S index) line
  = if has_char Str.comma line
    then Ok (match second_field line with
             | JStr cell =>
                 negb (String.eqb (Str.remove_quotes cell) EmptyString)
                 && later_than (Date_new (JStr (Str.remove_quotes cell))) cutoff
             | _ => false
             end)
    else Throw TypeError.
Proof.
  unfold MultiParse.keep. destruct (has_char Str.comma line) eqn:H.
  - destruct (second_field_with_comma line H) as [cell ->].
    destruct (String.eqb (Str.remove_quotes cell) EmptyString); reflexivity.
  - now rewrite (second_field_without_comma line H).
Qed.

Lemma filter_from_throws (lines : list string) (index : nat) :
  MultiParse.filter_from Date_new cutoff (S index) lines = Throw TypeError
  <-> Exists (fun line => has_char Str.comma line = false) lines.
Proof.
  revert index. induction lines as [|line rest IH]; intros index.
  - cbn. split; [discriminate | intros H; inversion H].
  - cbn [MultiParse.filter_from]. rewrite keep_after_first.
    destruct (has_char Str.comma line) eqn:H; cbn [bind].
    + rewrite Exists_cons, <- (IH (S index)).
      destruct (MultiParse.filter_from Date_new cutoff (S (S index)) rest) as [kept|e];
        cbn [bind]; split; try discriminate; try tauto.
      * intros [C | C]; congruence.
      * intros [C | C]; [congruence | exact C].
    + split; [intros _; now left | reflexivity].
Qed.

Lemma filter_from_throws_TypeError (lines : list string) (index : nat) (e : exn) :
  MultiParse.filter_from Date_new cutoff index lines = Throw e -> e = TypeError.
Proof.
  revert index. induction lines as [|line rest IH]; intros index; [discriminate|].
  cbn [MultiParse.filter_from].
  destruct (MultiParse.keep Date_new cutoff index line) as [k|e0] eqn:K; cbn [bind].
  - destruct (MultiParse.filter_from Date_new cutoff (S index) rest) as [kept|e1] eqn:F;
      cbn [bind]; [discriminate|].
    intros H. inversion H; subst. eapply IH; eauto.
  - intros H. inversion H; subst. eapply keep_throws_TypeError; eauto.
Qed.

(** What the filter keeps, it keeps again. *)
Lemma filter_from_kept (lines kept : list string) (index : nat) :
  MultiParse.filter_from Date_new cutoff (S index) lines = Ok kept ->
  Forall (fun line => MultiParse.keep Date_new cutoff 1 line = Ok true) kept
  /\ (forall P : string -> Prop, Forall P lines -> Forall P kept).
Proof.
  revert kept index. induction lines as [|line rest IH]; intros kept index.
  - cbn. intros H. inversion H; subst. split; [constructor | trivial].
  - cbn [MultiParse.filter_from].
    destruct (MultiParse.keep Date_new cutoff (S index) line) as [k|e] eqn:K; cbn [bind];
      [|discriminate].
    destruct (MultiParse.filter_from Date_new cutoff (S (S index)) rest) as [kept'|e] eqn:F;
      cbn [bind]; [|discriminate].
    destruct (IH _ _ F) as [IH1 IH2].
    intros H. inversion H; subst. destruct k.
    + split.
      * constructor; [exact K | exact IH1].
      * intros P HP. inversion HP; subst. constructor; auto.
    + split; [exact IH1|]. intros P HP. inversion HP; subst. auto.
Qed.

Lemma filter_from_fixed (kept : list string) (index : nat) :
  Forall (fun line => MultiParse.keep Date_new cutoff 1 line = Ok true) kept ->
  MultiParse.filter_from Date_new cutoff (S index) kept = Ok kept.
Proof.
  intros F. revert index. induction F as [|line rest K F IH]; intros index; [reflexivity|].
  cbn [MultiParse.filter_from].
  change (MultiParse.keep Date_new cutoff (S index) line)
    with (MultiParse.keep Date_new cutoff 1 line).
  rewrite K. cbn [bind]. rewrite IH. reflexivity.
Qed.

End MultiParseCleanupMore.

(** X8.  The clean-up of part_003 throws exactly when a line other than the
    first has no comma, and then it is a TypeError; a file ending with a
    newline has such a line, its last. *)
Theorem MultiParse_cleanup_throws_iff_a_line_has_no_comma
  (Date_new : value -> option Z) (cutoff : Z) (csv : string) :
  (MultiParse.cleanup Date_new cutoff csv = Throw TypeError
   <-> Exists (fun line => has_char Str.comma line = false)
              (tl (Str.split Str.newline csv)))
  /\ (forall e, MultiParse.cleanup Date_new cutoff csv = Throw e -> e = TypeError).
Proof.
  unfold MultiParse.cleanup.
  destruct (split_nonempty Str.newline csv) as (h & t & E). rewrite E. cbn [tl].
  cbn [MultiParse.filter_from MultiParse.keep bind].
  split.
  - rewrite <- (filter_from_throws Date_new cutoff t 0).
    destruct (MultiParse.filter_from Date_new cutoff 1 t) as [kept|e]; cbn [bind];
      split; congruence.
  - intros e.
    destruct (MultiParse.filter_from Date_new cutoff 1 t) as [kept|e0] eqn:F; cbn [bind];
      [discriminate|].
    intros H. inversion H; subst. eapply filter_from_throws_TypeError; eauto.
Qed.

(** X9.  When the clean-up of part_003 does not throw, the text it writes
    starts with the first line of the file, every line after it carries a
    date after the horizon, and cleaning that text again returns it
    unchanged. *)
Theorem MultiParse_cleanup_result
  (Date_new : value -> option Z) (cutoff : Z) (csv text : string) :
  MultiParse.cleanup Date_new cutoff csv = Ok text ->
  hd EmptyString (Str.split Str.newline text) = hd EmptyString (Str.split Str.newline csv)
  /\ Forall (fun line => exists cell,
               second_field line = JStr cell
               /\ later_than (Date_new (JStr (Str.remove_quotes cell))) cutoff = true)
            (tl (Str.split Str.newline text))
  /\ MultiParse.cleanup Date_new cutoff text = Ok text.
Proof.
  unfold MultiParse.cleanup.
  pose proof (split_pieces Str.newline csv) as Pieces.
  destruct (split_nonempty Str.newline csv) as (h & t & E). rewrite E in *. cbn [hd].
  cbn [MultiParse.filter_from MultiParse.keep bind].
  destruct (MultiParse.filter_from Date_new cutoff 1 t) as [kept|e] eqn:F; cbn [bind];
    [|discriminate].
  intros H. assert (T : Str.join nl (h :: kept) = text) by congruence.
  clear H. subst text.
  destruct (filter_from_kept Date_new cutoff t kept 0 F) as [K P].
  inversion Pieces as [|? ? Hh Ht]; subst.
  assert (S : Str.split Str.newline (Str.join nl (h :: kept)) = h :: kept).
  { unfold nl. apply split_join; [congruence|]. constructor; [exact Hh | now apply P]. }
  rewrite S. cbn [hd tl]. split; [reflexivity|]. split.
  - clear -K. induction K as [|line rest Hl K IH]; constructor; [|exact IH].
    unfold MultiParse.keep in Hl. destruct (second_field line) as [| |b|n|cell|l|o];
      try discriminate Hl.
    exists cell. split; [reflexivity|].
    destruct (String.eqb (Str.remove_quotes cell) EmptyString); [discriminate Hl|].
    now inversion Hl.
  - cbn [MultiParse.filter_from MultiParse.keep bind].
    rewrite (filter_from_fixed Date_new cutoff kept 0 K). reflexivity.
Qed.

Lemma MultiParse_cleanup_result_witness :
  let old := Str.q "'a@example.com','1999-01-02T03:04:05.678Z','sender@example.com','192.0.2.1'" in
  let new := Str.q "'b@example.com','2030-01-02T03:04:05.678Z','sender@example.com','192.0.2.1'" in
  let text := (V1.header ++ nl ++ new)%string in
  MultiParse.cleanup Host.Date_new 946684800000 (V1.header ++ nl ++ old ++ nl ++ new) = Ok text
  /\ MultiParse.cleanup Host.Date_new 946684800000 text = Ok text.
Proof.
  intros old new text.
  assert (H : MultiParse.cleanup Host.Date_new 946684800000
                (V1.header ++ nl ++ old ++ nl ++ new) = Ok text)
    by (vm_compute; reflexivity).
  split; [exact H|].
  exact (proj2 (proj2 (MultiParse_cleanup_result Host.Date_new 946684800000 _ text H))).
Defined.

(** *** The daily job of part_003 *)

(** X10.  The daily job of part_003 never rewrites a data file that ends
    with a newline: the run returns early with nothing to report or ends in
    an exception, and when a report was handed to the transport and the
    backup was copied the exception is the TypeError of the clean-up; the
    file is the same afterwards. *)
Theorem tick_leaves_a_terminated_file_as_it_is
  (Date_new : value -> option Z) (dayAgo cutoff : Z) (csv : string) :
  MultiParseJob.file (MultiParseJob.tick Date_new dayAgo cutoff (csv ++ nl)) = (csv ++ nl)%string
  /\ MultiParseJob.how (MultiParseJob.tick Date_new dayAgo cutoff (csv ++ nl))
     <> MultiParseJob.Rewrote
  /\ (MultiParseJob.mailed (MultiParseJob.tick Date_new dayAgo cutoff (csv ++ nl)) <> None ->
      MultiParseJob.how (MultiParseJob.tick Date_new dayAgo cutoff (csv ++ nl))
      = MultiParseJob.Threw TypeError
      /\ MultiParseJob.backup (MultiParseJob.tick Date_new dayAgo cutoff (csv ++ nl))
         = Some (csv ++ nl)%string).
Proof.
  unfold MultiParseJob.tick.
  rewrite (cleanup_throws_on_trailing_newline Date_new cutoff csv).
  destruct (MultiParseJob.report_from Date_new dayAgo 0 (Str.split Str.newline (csv ++ nl)))
    as [filteredLines|e]; cbn.
  - destruct (List.length filteredLines <=? 1)%nat; cbn;
      repeat split; try discriminate; try congruence.
  - repeat split; try discriminate; try congruence.
Qed.

(** The same for a text known to end with a newline. *)
Lemma tick_on_terminated_file
  (Date_new : value -> option Z) (dayAgo cutoff : Z) (csv : string) :
  ends_with_newline csv ->
  MultiParseJob.file (MultiParseJob.tick Date_new dayAgo cutoff csv) = csv
  /\ MultiParseJob.how (MultiParseJob.tick Date_new dayAgo cutoff csv) <> MultiParseJob.Rewrote.
Proof.
  intros [t ->]. unfold MultiParseJob.tick.
  rewrite (cleanup_throws_on_trailing_newline Date_new cutoff t).
  destruct (MultiParseJob.report_from Date_new dayAgo 0 (Str.split Str.newline (t ++ nl)))
    as [filteredLines|e]; cbn [MultiParseJob.file MultiParseJob.how].
  - destruct (List.length filteredLines <=? 1)%nat; cbn [MultiParseJob.file MultiParseJob.how];
      split; try reflexivity; discriminate.
  - split; [reflexivity | discriminate].
Qed.

Lemma ends_with_newline_app (a b : string) :
  ends_with_newline b -> ends_with_newline (a ++ b).
Proof.
  intros [t ->]. exists (a ++ t)%string. now rewrite append_assoc.
Qed.

Lemma ends_with_newline_cons (c : ascii) (s : string) :
  ends_with_newline s -> ends_with_newline (String c s).
Proof. intros [t ->]. exists (String c t). reflexivity. Qed.

Ltac terminated :=
  lazymatch goal with
  | |- ends_with_newline nl => exists EmptyString; reflexivity
  | |- ends_with_newline (String _ _) => apply ends_with_newline_cons; terminated
  | |- ends_with_newline (_ ++ _)%string => apply ends_with_newline_app; terminated
  end.

Lemma quoted_row_ends_with_newline (bounce mail recipient : value) (line : string) :
  MultiParseJob.quoted_row bounce mail recipient = Ok line -> ends_with_newline line.
Proof.
  unfold MultiParseJob.quoted_row.
  destruct (get recipient "emailAddress") as [v1|]; cbn [bind]; [|discriminate].
  destruct (get bounce "timestamp") as [v2|]; cbn [bind]; [|discriminate].
  destruct (get mail "source") as [v3|]; cbn [bind]; [|discriminate].
  destruct (get mail "sourceIp") as [v4|]; cbn [bind]; [|discriminate].
  destruct (ToString v1) as [c1|]; cbn [bind]; [|discriminate].
  destruct (ToString v2) as [c2|]; cbn [bind]; [|discriminate].
  destruct (ToString v3) as [c3|]; cbn [bind]; [|discriminate].
  destruct (ToString v4) as [c4|]; cbn [bind]; [|discriminate].
  intros E. inversion E. terminated.
Qed.

Lemma save_recipients_ends_with_newline (bounce mail : value) (recipients : list value) :
  forall csv, ends_with_newline csv ->
  ends_with_newline (snd (MultiParse.save_recipients bounce mail recipients csv)).
Proof.
  induction recipients as [|r rest IH]; intros csv H; [exact H|].
  rewrite save_recipients_cons.
  destruct (MultiParseJob.quoted_row bounce mail r) as [line|e] eqn:Q; [|exact H].
  apply IH, ends_with_newline_app. exact (quoted_row_ends_with_newline _ _ _ _ Q).
Qed.

Lemma post_sns_ends_with_newline (is_json : bool) (sns : value) (csv : string) :
  ends_with_newline csv -> ends_with_newline (snd (MultiParse.post_sns is_json sns csv)).
Proof.
  intros H. unfold MultiParse.post_sns.
  destruct is_json; [|exact H].
  destruct (MultiParse.parse_message sns) as [by_strategy content|e1 e2 e3].
  - assert (P : ends_with_newline (snd (MultiParse.process content csv))).
    { unfold MultiParse.process.
      destruct (get content "notificationType") as [kind|]; cbn [bind]; [|exact H].
      destruct (ToString kind); cbn [bind]; [|exact H].
      destruct (is_str kind "Bounce"); [|exact H].
      destruct (truthy (get_opt content "bounce") && truthy (get_opt content "mail"));
        [|exact H].
      destruct (get_opt (get_opt content "bounce") "bouncedRecipients")
        as [| |b|n|s|l|o]; try exact H.
      destruct l as [|r rest]; [exact H|].
      now apply save_recipients_ends_with_newline. }
    destruct (MultiParse.process content csv) as [[u|e] csv']; exact P.
  - destruct (get sns "Message"); exact H.
Qed.

(** X11.  Whatever requests the server of part_003 handles, starting from
    the file its start-up code writes, the data file ends with a newline,
    and so the daily job never rewrites it: no row is ever removed. *)
Theorem tick_never_prunes_what_the_server_wrote
  (Date_new : value -> option Z) (dayAgo cutoff : Z) (requests : list (bool * value)) :
  ends_with_newline (MultiParseJob.serve requests V1.initial_csv)
  /\ MultiParseJob.file
       (MultiParseJob.tick Date_new dayAgo cutoff (MultiParseJob.serve requests V1.initial_csv))
     = MultiParseJob.serve requests V1.initial_csv
  /\ MultiParseJob.how
       (MultiParseJob.tick Date_new dayAgo cutoff (MultiParseJob.serve requests V1.initial_csv))
     <> MultiParseJob.Rewrote.
Proof.
  assert (E : ends_with_newline (MultiParseJob.serve requests V1.initial_csv)).
  { unfold MultiParseJob.serve.
    assert (G : forall csv, ends_with_newline csv ->
                ends_with_newline
                  (fold_left (fun text request =>
                                snd (MultiParse.post_sns (fst request) (snd request) text))
                             requests csv)).
    { induction requests as [|r rest IH]; intros csv H; [exact H|].
      cbn [fold_left]. apply IH, post_sns_ends_with_newline, H. }
    apply G. exists V1.header. reflexivity. }
  split; [exact E|].
  exact (tick_on_terminated_file Date_new dayAgo cutoff _ E).
Qed.

(** *** The report of part_003 *)

(** [trim] takes away the white space of ECMAScript, beyond ASCII too. *)
Example is_blank_corners :
  MultiParseJob.is_blank EmptyString = true
  /\ MultiParseJob.is_blank (String " " (String "009" (String "013" EmptyString))) = true
  /\ MultiParseJob.is_blank (String "194" (String "160" EmptyString)) = true
  /\ MultiParseJob.is_blank (String "239" (String "187" (String "191" EmptyString))) = true
  /\ MultiParseJob.is_blank (String "226" (String "128" (String "139" EmptyString))) = false
  /\ MultiParseJob.is_blank " a" = false.
Proof. vm_compute. repeat split. Qed.

Lemma report_from_after_first
  (Date_new : value -> option Z) (dayAgo : Z) (lines kept : list string) (index : nat) :
  MultiParseJob.report_from Date_new dayAgo (S index) lines = Ok kept ->
  kept = filter (in_last_day Date_new dayAgo) lines.
Proof.
  revert kept index. induction lines as [|line rest IH]; intros kept index.
  - cbn. intros E. now inversion E.
  - cbn [MultiParseJob.report_from MultiParseJob.in_report filter]. unfold in_last_day at 1.
    destruct (MultiParseJob.is_blank line); cbn [negb andb bind].
    + destruct (MultiParseJob.report_from Date_new dayAgo (S (S index)) rest) as [k|] eqn:R;
        cbn [bind]; [|discriminate].
      intros E. inversion E; subst. exact (IH _ _ R).
    + destruct (second_field line) as [| |b|n|cell|l|o]; cbn [bind]; try discriminate.
      destruct (MultiParseJob.report_from Date_new dayAgo (S (S index)) rest) as [k|] eqn:R;
        cbn [bind]; [|discriminate].
      intros E. inversion E; subst. rewrite (IH _ _ R).
      destruct (later_than (Date_new (JStr (Str.remove_quotes cell))) dayAgo); reflexivity.
Qed.

(** X12.  When the daily job of part_003 hands a report to the transport,
    the attachment is the first line of the data file followed by exactly
    the lines that are not blank and carry a date after the 24-hour mark, in
    their order, and there is at least one such line. *)
Theorem tick_reports_the_rows_of_the_last_day
  (Date_new : value -> option Z) (dayAgo cutoff : Z) (csv attachment : string) :
  MultiParseJob.mailed (MultiParseJob.tick Date_new dayAgo cutoff csv) = Some attachment ->
  Str.split Str.newline attachment
  = hd EmptyString (Str.split Str.newline csv)
    :: filter (in_last_day Date_new dayAgo) (tl (Str.split Str.newline csv))
  /\ filter (in_last_day Date_new dayAgo) (tl (Str.split Str.newline csv)) <> [].
Proof.
  unfold MultiParseJob.tick.
  pose proof (split_pieces Str.newline csv) as Pieces.
  destruct (split_nonempty Str.newline csv) as (h & rest & E). rewrite E in *.
  cbn [MultiParseJob.report_from MultiParseJob.in_report bind hd tl].
  destruct (MultiParseJob.report_from Date_new dayAgo 1 rest) as [kept|e] eqn:R;
    cbn [bind]; [|discriminate].
  apply report_from_after_first in R. subst kept.
  destruct (List.length (h :: filter (in_last_day Date_new dayAgo) rest) <=? 1)%nat eqn:L;
    [discriminate|].
  intros M.
  assert (A : attachment = Str.join nl (h :: filter (in_last_day Date_new dayAgo) rest))
    by (destruct (MultiParse.cleanup Date_new cutoff csv); cbn [MultiParseJob.mailed] in M; congruence).
  subst attachment. split.
  - unfold nl. apply split_join; [congruence|].
    inversion Pieces; subst. constructor; [assumption | now apply filter_Forall].
  - intros N. rewrite N in L. discriminate L.
Qed.

Lemma tick_reports_the_rows_of_the_last_day_witness :
  let old := Str.q "'a@example.com','1999-01-02T03:04:05.678Z','sender@example.com','192.0.2.1'" in
  let new := Str.q "'b@example.com','2030-01-02T03:04:05.678Z','sender@example.com','192.0.2.1'" in
  Str.split Str.newline (V1.header ++ nl ++ new) = [V1.header; new].
Proof.
  intros old new.
  exact (proj1 (tick_reports_the_rows_of_the_last_day Host.Date_new 946684800000 0
                  (V1.header ++ nl ++ old ++ nl ++ new ++ nl) (V1.header ++ nl ++ new)
                  eq_refl)).
Defined.

(** ** The locked CSV iteration: signature, append, report, job *)

Lemma lookup_set_prop_same (props : list (string * value)) (name : string) (v : value) :
  lookup (set_prop props name v) name = Some v.
Proof.
  induction props as [|[k w] t IH]; cbn [set_prop lookup].
  - now rewrite String.eqb_refl.
  - destruct (String.eqb k name) eqn:E; cbn [lookup]; rewrite E; [reflexivity | exact IH].
Qed.

Lemma lookup_set_prop_other (props : list (string * value)) (name other : string) (v : value) :
  name <> other ->
  lookup (set_prop props name v) other = lookup props other.
Proof.
  intros N. induction props as [|[k w] t IH]; cbn [set_prop lookup].
  - apply String.eqb_neq in N. now rewrite N.
  - destruct (String.eqb k name) eqn:E; cbn [lookup].
    + apply String.eqb_eq in E. subst k.
      apply String.eqb_neq in N. now rewrite N.
    + now rewrite IH.
Qed.

Lemma stringToSign_other_property
  (props : list (string * value)) (name : string) (v : value) (keys : list string) :
  Forall (fun key => name <> key) keys ->
  CsvStore.stringToSign (JObj (set_prop props name v)) keys
  = CsvStore.stringToSign (JObj props) keys.
Proof.
  induction 1 as [|key rest N F IH]; [reflexivity|].
  cbn [CsvStore.stringToSign get]. rewrite (lookup_set_prop_other _ _ _ _ N), IH.
  reflexivity.
Qed.

(** X13.  [verifySignature] of part_005 never looks at what the signature
    is: two envelopes that differ only in a non-empty [Signature] get the
    same verdict. *)
Theorem verifySignature_does_not_read_the_signature
  (URL_hostname : string -> option string) (props : list (string * value))
  (signature forged : value) :
  truthy signature = true ->
  truthy forged = true ->
  CsvStore.verifySignature URL_hostname (JObj (set_prop props "Signature" forged))
  = CsvStore.verifySignature URL_hostname (JObj (set_prop props "Signature" signature)).
Proof.
  intros T1 T2. unfold CsvStore.verifySignature. cbn [get].
  rewrite !lookup_set_prop_same.
  rewrite !(lookup_set_prop_other props "Signature" "SigningCertURL") by discriminate.
  rewrite !(lookup_set_prop_other props "Signature" "SignatureVersion") by discriminate.
  rewrite !(stringToSign_other_property props "Signature")
    by (unfold CsvStore.signed_keys; repeat constructor; discriminate).
  destruct (lookup props "SigningCertURL") as [url|];
    destruct (lookup props "SignatureVersion") as [version|];
    cbn [bind]; rewrite T1, T2; reflexivity.
Qed.

Lemma verifySignature_does_not_read_the_signature_witness :
  CsvStore.verifySignature Host.URL_hostname
    (JObj (set_prop [ ("Type", JStr "Notification");
                      ("Message", JStr Samples.notification_text);
                      ("SigningCertURL", JStr "https://sns.us-east-1.amazonaws.com/cert.pem");
                      ("Signature", JStr "c2ln");
                      ("SignatureVersion", JStr "1") ]
                    "Signature" (JStr "forged")))
  = CsvStore.verifySignature Host.URL_hostname (Samples.envelope (JStr Samples.notification_text)).
Proof.
  apply (verifySignature_does_not_read_the_signature Host.URL_hostname
           [ ("Type", JStr "Notification");
             ("Message", JStr Samples.notification_text);
             ("SigningCertURL", JStr "https://sns.us-east-1.amazonaws.com/cert.pem");
             ("Signature", JStr "c2ln");
             ("SignatureVersion", JStr "1") ]
           (JStr "c2ln") (JStr "forged")); reflexivity.
Defined.

(** X14.  An envelope that lacks the certificate URL, the signature or the
    signature version is refused by part_005: [verifySignature] is false,
    the answer is 500 and the files are not touched, whatever the
    environment would do to the file operations. *)
Theorem envelope_without_signature_fields_is_refused
  (URL_hostname : string -> option string) (env : CsvStore.faults) (body : value)
  (st : CsvStore.fs) :
  truthy (get_opt body "SigningCertURL") && truthy (get_opt body "Signature")
    && truthy (get_opt body "SignatureVersion") = false ->
  CsvStore.verifySignature URL_hostname body = false
  /\ CsvStore.post_sns URL_hostname env body st
     = (mkResponse 500 (ErrorText "Internal server error"), st).
Proof.
  intros H.
  assert (V : CsvStore.verifySignature URL_hostname body = false).
  { unfold CsvStore.verifySignature. unfold get_opt in H.
    destruct (get body "SigningCertURL") as [url|]; [|reflexivity].
    destruct (get body "Signature") as [signature|]; [|reflexivity].
    destruct (get body "SignatureVersion") as [version|]; [|reflexivity].
    cbn [bind].
    destruct (truthy url); [|reflexivity].
    destruct (truthy signature); [|reflexivity].
    destruct (truthy version); [discriminate H | reflexivity]. }
  split; [exact V|].
  unfold CsvStore.post_sns, CsvStore.handle, CsvStore.processSNSMessage, CsvStore.io_bind,
    CsvStore.lift.
  rewrite V. reflexivity.
Qed.

Lemma envelope_without_signature_fields_is_refused_witness :
  let unsigned := JObj [ ("Type", JStr "Notification");
                         ("Message", JStr Samples.notification_text);
                         ("SigningCertURL", JStr "https://sns.us-east-1.amazonaws.com/cert.pem");
                         ("Signature", JStr EmptyString);
                         ("SignatureVersion", JStr "1") ] in
  CsvStore.verifySignature Host.URL_hostname unsigned = false
  /\ CsvStore.post_sns Host.URL_hostname CsvStore.no_faults unsigned Samples.empty_store
     = (mkResponse 500 (ErrorText "Internal server error"), Samples.empty_store).
Proof.
  intros unsigned.
  apply (envelope_without_signature_fields_is_refused Host.URL_hostname CsvStore.no_faults
           unsigned Samples.empty_store).
  reflexivity.
Defined.

(** X15.  [appendToCsv] does not look whether the lock file is there: with
    the lock file already present the call does what it does without it,
    same result and same rows in the data file. *)
Theorem appendToCsv_does_not_wait_for_the_lock
  (env : CsvStore.faults) (data : list value) (table : list (list string))
  (h : list CsvStore.op) :
  fst (CsvStore.appendToCsv env data (CsvStore.mkFs table true h))
  = fst (CsvStore.appendToCsv env data (CsvStore.mkFs table false h))
  /\ CsvStore.csv (snd (CsvStore.appendToCsv env data (CsvStore.mkFs table true h)))
     = CsvStore.csv (snd (CsvStore.appendToCsv env data (CsvStore.mkFs table false h)))
  /\ (CsvStore.on_lock_write env <> None ->
      CsvStore.on_unlink_again env = None ->
      CsvStore.lock (snd (CsvStore.appendToCsv env data (CsvStore.mkFs table true h)))
      = false).
Proof.
  destruct env as [[e1|] [e2|] [e3|] [e4|]];
    unfold CsvStore.appendToCsv, CsvStore.try_catch, CsvStore.io_bind, CsvStore.lift,
      CsvStore.writeLock, CsvStore.appendFile, CsvStore.unlinkLock, CsvStore.ret,
      CsvStore.raise;
    cbn [CsvStore.on_lock_write CsvStore.on_append CsvStore.on_unlink
         CsvStore.on_unlink_again CsvStore.csv CsvStore.lock CsvStore.history];
    destruct (CsvStore.stringifyRecords data) as [rows|e];
    cbn [fst snd CsvStore.csv CsvStore.lock CsvStore.history];
    repeat split; try reflexivity; try congruence; try discriminate.
Qed.

(** X16.  When only the removal of the lock file fails, after the rows were
    appended, the handler of part_005 answers 500 for a bounce it has stored:
    the data file holds what a run without any failure leaves in it. *)
Theorem rows_stay_when_the_lock_removal_fails
  (URL_hostname : string -> option string) (env : CsvStore.faults) (e : exn)
  (body : value) (st : CsvStore.fs) :
  CsvStore.on_lock_write env = None ->
  CsvStore.on_append env = None ->
  CsvStore.on_unlink env = Some e ->
  fst (CsvStore.post_sns URL_hostname CsvStore.no_faults body st)
  = mkResponse 200 (Message "Bounce processed successfully") ->
  fst (CsvStore.post_sns URL_hostname env body st)
  = mkResponse 500 (ErrorText "Internal server error")
  /\ CsvStore.csv (snd (CsvStore.post_sns URL_hostname env body st))
     = CsvStore.csv (snd (CsvStore.post_sns URL_hostname CsvStore.no_faults body st)).
Proof.
  intros H1 H2 H3.
  unfold CsvStore.post_sns, CsvStore.handle, CsvStore.io_bind, CsvStore.lift.
  destruct (CsvStore.processSNSMessage URL_hostname body) as [content|];
    [|cbn; discriminate].
  destruct (truthy content); cbn [negb]; cbv iota;
    [|unfold CsvStore.ret; cbn; discriminate].
  destruct (get content "bounce") as [bounce|]; [|cbn; discriminate].
  destruct (get content "mail") as [mail|]; [|cbn; discriminate].
  destruct (CsvStore.invalid_structure bounce mail);
    [unfold CsvStore.raise; cbn; discriminate|].
  destruct (CsvStore.bounceRecords bounce mail) as [records|]; [|cbn; discriminate].
  unfold CsvStore.appendToCsv, CsvStore.try_catch, CsvStore.io_bind, CsvStore.lift,
    CsvStore.writeLock, CsvStore.appendFile, CsvStore.unlinkLock, CsvStore.ret,
    CsvStore.raise.
  rewrite H1, H2, H3.
  cbn [CsvStore.no_faults CsvStore.on_lock_write CsvStore.on_append CsvStore.on_unlink
       CsvStore.on_unlink_again CsvStore.csv CsvStore.lock CsvStore.history].
  destruct (CsvStore.stringifyRecords records) as [rows|];
    cbn [fst snd CsvStore.csv CsvStore.lock CsvStore.history].
  - intros _. destruct (CsvStore.on_unlink_again env); split; reflexivity.
  - destruct (CsvStore.lock st); cbn; discriminate.
Qed.

Lemma rows_stay_when_the_lock_removal_fails_witness :
  let env := CsvStore.mkFaults None None (Some (SystemError "EPERM")) None in
  let body := Samples.envelope (JStr Samples.notification_text) in
  fst (CsvStore.post_sns Host.URL_hostname env body Samples.empty_store)
  = mkResponse 500 (ErrorText "Internal server error")
  /\ CsvStore.csv (snd (CsvStore.post_sns Host.URL_hostname env body Samples.empty_store))
     = CsvStore.csv (snd (CsvStore.post_sns Host.URL_hostname CsvStore.no_faults body
                            Samples.empty_store)).
Proof.
  intros env body.
  apply (rows_stay_when_the_lock_removal_fails Host.URL_hostname env (SystemError "EPERM")
           body Samples.empty_store); reflexivity.
Defined.

Lemma cells_length (record : value) (names : list string) (row : list string) :
  CsvStore.cells record names = Ok row -> List.length row = List.length names.
Proof.
  revert row. induction names as [|name rest IH]; intros row; cbn [CsvStore.cells].
  - intros E. inversion E. reflexivity.
  - destruct (get record name) as [v|]; cbn [bind]; [|discriminate].
    destruct (CsvStore.cell v) as [c|]; cbn [bind]; [|discriminate].
    destruct (CsvStore.cells record rest) as [cs|]; cbn [bind]; [|discriminate].
    intros E. inversion E. cbn [List.length]. now rewrite (IH cs eq_refl).
Qed.

Lemma cells_nth (record : value) (names : list string) (row : list string) :
  CsvStore.cells record names = Ok row ->
  forall n : nat, (n < List.length names)%nat ->
  (v <- get record (nth n names EmptyString) ;; CsvStore.cell v)
  = Ok (nth n row EmptyString).
Proof.
  revert row. induction names as [|name rest IH]; intros row; cbn [CsvStore.cells].
  - intros _ n Hn. cbn in Hn. lia.
  - destruct (get record name) as [v|] eqn:G; cbn [bind]; [|discriminate].
    destruct (CsvStore.cell v) as [c|] eqn:Cv; cbn [bind]; [|discriminate].
    destruct (CsvStore.cells record rest) as [cs|]; cbn [bind]; [|discriminate].
    intros E n Hn. inversion E; subst row. destruct n as [|n]; cbn [nth].
    + rewrite G. cbn [bind]. exact Cv.
    + apply (IH cs eq_refl). cbn [List.length] in Hn. lia.
Qed.

Lemma stringifyRecords_nine_cells (records : list value) (rows : list (list string)) :
  CsvStore.stringifyRecords records = Ok rows -> Forall nine_cells rows.
Proof.
  revert rows. induction records as [|r rest IH]; intros rows;
    cbn [CsvStore.stringifyRecords].
  - intros E. inversion E. constructor.
  - destruct (CsvStore.cells r CsvStore.ids) as [row|] eqn:C; cbn [bind]; [|discriminate].
    destruct (CsvStore.stringifyRecords rest) as [rows'|]; cbn [bind]; [|discriminate].
    intros E. inversion E. constructor; [|now apply IH].
    unfold nine_cells. now rewrite (cells_length _ _ _ C).
Qed.

(** X17.  A bounce that the handler of part_005 answers with 200 and
    [Bounce processed successfully] had a non-empty list of recipients; the
    data file has grown by one row of nine cells for each of them, nothing
    else in it has changed, and no lock file is left. *)
Theorem accepted_bounce_is_stored_row_by_row
  (URL_hostname : string -> option string) (body : value) (st : CsvStore.fs) :
  fst (CsvStore.post_sns URL_hostname CsvStore.no_faults body st)
  = mkResponse 200 (Message "Bounce processed successfully") ->
  exists content recipients rows,
    CsvStore.processSNSMessage URL_hostname body = Ok content
    /\ get_opt (get_opt content "bounce") "bouncedRecipients" = JArr recipients
    /\ recipients <> []
    /\ CsvStore.csv (snd (CsvStore.post_sns URL_hostname CsvStore.no_faults body st))
       = CsvStore.csv st ++ rows
    /\ List.length rows = List.length recipients
    /\ Forall nine_cells rows
    /\ CsvStore.lock (snd (CsvStore.post_sns URL_hostname CsvStore.no_faults body st)) = false.
Proof.
  unfold CsvStore.post_sns, CsvStore.handle, CsvStore.io_bind, CsvStore.lift.
  destruct (CsvStore.processSNSMessage URL_hostname body) as [content|];
    [|cbn; discriminate].
  destruct (truthy content); cbn [negb]; cbv iota;
    [|unfold CsvStore.ret; cbn; discriminate].
  destruct (get content "bounce") as [bounce|] eqn:Gb; [|cbn; discriminate].
  destruct (get content "mail") as [mail|]; [|cbn; discriminate].
  destruct (CsvStore.invalid_structure bounce mail) eqn:I;
    [unfold CsvStore.raise; cbn; discriminate|].
  destruct (CsvStore.bounceRecords bounce mail) as [records|] eqn:R; [|cbn; discriminate].
  destruct (bounceRecords_one_per_recipient bounce mail records R) as (recipients & Hr & _ & Hl).
  unfold CsvStore.appendToCsv, CsvStore.try_catch, CsvStore.io_bind, CsvStore.lift,
    CsvStore.writeLock, CsvStore.appendFile, CsvStore.unlinkLock, CsvStore.ret,
    CsvStore.raise.
  cbn [CsvStore.no_faults CsvStore.on_lock_write CsvStore.on_append CsvStore.on_unlink
       CsvStore.on_unlink_again CsvStore.csv CsvStore.lock CsvStore.history].
  destruct (CsvStore.stringifyRecords records) as [rows|] eqn:S;
    cbn [fst snd CsvStore.csv CsvStore.lock CsvStore.history].
  - intros _. exists content, recipients, rows.
    split; [reflexivity|]. split; [unfold get_opt at 2; rewrite Gb; exact Hr|].
    split.
    + intros ->. unfold CsvStore.invalid_structure in I. rewrite Hr in I. discriminate I.
    + split; [reflexivity|]. split.
      * rewrite (stringifyRecords_length records rows S). exact Hl.
      * split; [exact (stringifyRecords_nine_cells records rows S) | reflexivity].
  - destruct (CsvStore.lock st); cbn; discriminate.
Qed.

Lemma accepted_bounce_is_stored_row_by_row_witness :
  exists content recipients rows,
    CsvStore.processSNSMessage Host.URL_hostname
      (Samples.envelope (JStr Samples.notification_text)) = Ok content
    /\ get_opt (get_opt content "bounce") "bouncedRecipients" = JArr recipients
    /\ recipients <> []
    /\ CsvStore.csv (snd (CsvStore.post_sns Host.URL_hostname CsvStore.no_faults
                            (Samples.envelope (JStr Samples.notification_text))
                            Samples.empty_store))
       = CsvStore.csv Samples.empty_store ++ rows
    /\ List.length rows = List.length recipients
    /\ Forall nine_cells rows
    /\ CsvStore.lock (snd (CsvStore.post_sns Host.URL_hostname CsvStore.no_faults
                             (Samples.envelope (JStr Samples.notification_text))
                             Samples.empty_store)) = false.
Proof.
  apply (accepted_bounce_is_stored_row_by_row Host.URL_hostname
           (Samples.envelope (JStr Samples.notification_text)) Samples.empty_store).
  reflexivity.
Defined.

(** X18.  What [stringifyRecords] writes for a record, csv-parse reads back
    under the titles of the header: the cell written for an id is the field
    of the parsed record under that id's title.  (The reverse does not hold:
    a parsed record has no field under any id.) *)
Theorem stored_row_is_read_back_under_the_titles (record : value) (row : list string) :
  CsvStore.cells record CsvStore.ids = Ok row ->
  CsvStore.csv_parse [CsvStore.titles; row] = Ok [CsvStore.record_of CsvStore.titles row]
  /\ forall n : nat, (n < 9)%nat ->
       (v <- get record (nth n CsvStore.ids EmptyString) ;; CsvStore.cell v)
       = Ok (nth n row EmptyString)
       /\ get_opt (CsvStore.record_of CsvStore.titles row) (nth n CsvStore.titles EmptyString)
          = JStr (nth n row EmptyString)
       /\ get_opt (CsvStore.record_of CsvStore.titles row) (nth n CsvStore.ids EmptyString)
          = JUndefined.
Proof.
  intros C.
  assert (N : nine_cells row) by (unfold nine_cells; now rewrite (cells_length _ _ _ C)).
  split.
  - unfold CsvStore.csv_parse. cbn [forallb]. unfold nine_cells in N. rewrite N. reflexivity.
  - intros n Hn. split; [exact (cells_nth _ _ _ C n Hn)|].
    destruct (nine_cells_inv row N) as (c1&c2&c3&c4&c5&c6&c7&c8&c9&->).
    do 9 (destruct n as [|n]; [split; reflexivity|]).
    lia.
Qed.

Lemma stored_row_is_read_back_under_the_titles_witness :
  let record := JObj [ ("email", JStr "a@example.com");
                       ("timestamp", JStr "2030-01-02T03:04:05.678Z");
                       ("bounceType", JStr "Permanent") ] in
  let row := [ "a@example.com"; "2030-01-02T03:04:05.678Z"; ""; ""; "Permanent";
               ""; ""; ""; "" ] in
  get_opt (CsvStore.record_of CsvStore.titles row) "Timestamp"
  = JStr "2030-01-02T03:04:05.678Z"
  /\ get_opt (CsvStore.record_of CsvStore.titles row) "timestamp" = JUndefined.
Proof.
  intros record row.
  destruct (stored_row_is_read_back_under_the_titles record row eq_refl) as [_ H].
  destruct (H 1%nat ltac:(lia)) as (_ & H1 & H2).
  split; [exact H1 | exact H2].
Defined.

Lemma send_with_retry_sends (sendMail : nat -> option exn) :
  In SendMail (snd (send_with_retry sendMail)).
Proof.
  rewrite send_with_retry_cases.
  destruct (sendMail 0%nat); [|left; reflexivity].
  destruct (sendMail 1%nat); [|left; reflexivity].
  destruct (sendMail 2%nat); left; reflexivity.
Qed.

(** X19.  On a data file of nine-cell rows, [sendDailyReport] of part_005
    calls the transport exactly when some row carries a date after the
    24-hour mark; with no such row it returns without sending. *)
Theorem report_is_sent_when_a_row_is_recent
  (Date_new : value -> option Z) (sendMail : nat -> option exn) (dayAgo : Z)
  (rows : list (list string)) (st : CsvStore.fs) :
  CsvStore.csv st = CsvStore.titles :: rows ->
  Forall nine_cells rows ->
  (In SendMail (snd (CsvStore.sendDailyReport Date_new sendMail dayAgo st))
   <-> exists row, In row rows /\ row_is_recent Date_new dayAgo row = true)
  /\ (filter (row_is_recent Date_new dayAgo) rows = [] ->
      CsvStore.sendDailyReport Date_new sendMail dayAgo st = (Ok tt, [])).
Proof.
  intros E H. unfold CsvStore.sendDailyReport.
  rewrite E, (csv_parse_rows rows H), (newer_than_parsed Date_new dayAgo rows H).
  destruct (filter (row_is_recent Date_new dayAgo) rows) as [|r recent] eqn:F.
  - cbn [map snd]. split; [|reflexivity]. split; [intros []|].
    intros (row & Hin & Hrecent).
    assert (In row (filter (row_is_recent Date_new dayAgo) rows))
      by (apply filter_In; split; assumption).
    rewrite F in *. assumption.
  - assert (Hr : In r (filter (row_is_recent Date_new dayAgo) rows))
      by (rewrite F; left; reflexivity).
    apply filter_In in Hr.
    assert (N : Forall nine_cells (r :: recent))
      by (rewrite <- F; now apply filter_nine_cells).
    pose proof (stringify_parsed (r :: recent) N) as SP.
    cbn [map] in SP. cbn [map]. rewrite SP.
    split; [|discriminate].
    split; [intros _; exists r; exact Hr | intros _; apply send_with_retry_sends].
Qed.

Lemma report_is_sent_when_a_row_is_recent_witness :
  let st := snd (CsvStore.post_sns Host.URL_hostname CsvStore.no_faults
                   (Samples.envelope (JStr Samples.notification_text)) Samples.empty_store) in
  In SendMail (snd (CsvStore.sendDailyReport Host.Date_new (fun _ => None) 0 st))
  /\ CsvStore.sendDailyReport Host.Date_new (fun _ => None) 1900000000000 st = (Ok tt, []).
Proof.
  intros st. split.
  - destruct (report_is_sent_when_a_row_is_recent Host.Date_new (fun _ => None) 0
                (tl (CsvStore.csv st)) st eq_refl) as [[_ H] _].
    + repeat constructor.
    + apply H. eexists. split; [left; reflexivity | reflexivity].
  - destruct (report_is_sent_when_a_row_is_recent Host.Date_new (fun _ => None)
                1900000000000 (tl (CsvStore.csv st)) st eq_refl) as [_ H].
    + repeat constructor.
    + apply H. reflexivity.
Defined.

(** X20.  The scheduled job of part_005 runs its stages in order and stops
    at the first that fails: the files change only when the backup, the
    transporter and the report (sent, or nothing to send) all went through
    and the pruning of old backups did not fail; a run that logs no error
    has rewritten the data file, once, and left the lock file as it was. *)
Theorem cron_job_cleans_up_only_after_the_report
  (Date_new : value -> option Z) (sendMail : nat -> option exn)
  (backup transporter pruning : option exn) (dayAgo cutoff : Z) (st : CsvStore.fs) :
  (snd (CsvStore.cron_job Date_new sendMail backup transporter pruning dayAgo cutoff st) <> st ->
   backup = None /\ transporter = None /\ pruning = None
   /\ fst (CsvStore.sendDailyReport Date_new sendMail dayAgo st) = Ok tt)
  /\ (fst (fst (CsvStore.cron_job Date_new sendMail backup transporter pruning dayAgo cutoff st))
      = None ->
      exists rows,
        snd (CsvStore.cron_job Date_new sendMail backup transporter pruning dayAgo cutoff st)
        = CsvStore.mkFs (CsvStore.titles :: rows) (CsvStore.lock st)
            (CsvStore.Rewritten (CsvStore.titles :: rows) :: CsvStore.history st))
  /\ (backup <> None \/ transporter <> None ->
      snd (fst (CsvStore.cron_job Date_new sendMail backup transporter pruning dayAgo cutoff st))
      = []).
Proof.
  unfold CsvStore.cron_job.
  destruct backup as [e|]; [cbn; repeat split; try congruence; try discriminate|].
  destruct transporter as [e|]; [cbn; repeat split; try congruence; try discriminate|].
  destruct (CsvStore.sendDailyReport Date_new sendMail dayAgo st) as [[[]|e] events];
    [|cbn; repeat split; try congruence; try discriminate; intros [C|C]; congruence].
  unfold CsvStore.cleanupOldData.
  destruct pruning as [e|];
    [unfold CsvStore.raise; cbn; repeat split; try congruence; try discriminate;
     intros [C|C]; congruence|].
  unfold CsvStore.io_bind, CsvStore.lift, CsvStore.writeFile.
  destruct (CsvStore.csv_parse (CsvStore.csv st)) as [records|e];
    [|cbn; repeat split; try congruence; try discriminate; intros [C|C]; congruence].
  destruct (CsvStore.stringifyRecords (CsvStore.newer_than Date_new cutoff records))
    as [rows|e];
    [|cbn; repeat split; try congruence; try discriminate; intros [C|C]; congruence].
  cbn [fst snd]. split; [intros _; repeat split|]. split.
  - intros _. exists rows. reflexivity.
  - intros [C|C]; congruence.
Qed.

(** ** The database iteration: the endpoint *)

(** X21.  In part_000 the [catch] of [processSNSMessage] logs the error and
    returns nothing, which the handler takes for a notification that is no
    bounce: an envelope without the signature fields, an envelope whose
    [Message] cannot be decoded and a [Message] that is [null] are all
    answered 200 [Non-bounce notification ignored], and [insertMany] is not
    called. *)
Theorem Mongo_endpoint_answers_200_to_what_it_cannot_process
  (URL_hostname : string -> option string) (Date_new : value -> option Z)
  (insert : option exn) (body : value) :
  truthy (get_opt body "SigningCertURL") && truthy (get_opt body "Signature")
    && truthy (get_opt body "SignatureVersion") = false
  \/ (exists e, CsvStore.decode body = Throw e)
  \/ CsvStore.decode body = Ok JNull ->
  MongoEndpoint.post_sns URL_hostname Date_new insert body
  = (mkResponse 200 (Message "Non-bounce notification ignored"), None).
Proof.
  intros H.
  assert (P : truthy (MongoEndpoint.processSNSMessage URL_hostname body) = false).
  { unfold MongoEndpoint.processSNSMessage, MongoEndpoint.processSNSMessage_try.
    destruct H as [H | [[e H] | H]].
    - assert (V : MongoEndpoint.verifySignature URL_hostname body = false).
      { unfold MongoEndpoint.verifySignature. unfold get_opt in H.
        destruct (get body "SigningCertURL") as [url|]; [|reflexivity].
        destruct (get body "Signature") as [signature|]; [|reflexivity].
        destruct (get body "SignatureVersion") as [version|]; [|reflexivity].
        cbn [bind].
        destruct (truthy url); [|reflexivity].
        destruct (truthy signature); [|reflexivity].
        destruct (truthy version); [discriminate H | reflexivity]. }
      rewrite V. reflexivity.
    - destruct (MongoEndpoint.verifySignature URL_hostname body); [|reflexivity].
      rewrite H. reflexivity.
    - destruct (MongoEndpoint.verifySignature URL_hostname body); [|reflexivity].
      rewrite H. reflexivity. }
  unfold MongoEndpoint.post_sns. rewrite P. reflexivity.
Qed.

Lemma Mongo_endpoint_answers_200_to_what_it_cannot_process_witness :
  let unsigned := JObj [ ("Type", JStr "Notification");
                         ("Message", JStr Samples.notification_text) ] in
  MongoEndpoint.post_sns Host.URL_hostname Host.Date_new None unsigned
  = (mkResponse 200 (Message "Non-bounce notification ignored"), None)
  /\ MongoEndpoint.post_sns Host.URL_hostname Host.Date_new None
       (Samples.envelope (JStr "not JSON"))
     = (mkResponse 200 (Message "Non-bounce notification ignored"), None)
  /\ MongoEndpoint.post_sns Host.URL_hostname Host.Date_new None
       (Samples.envelope (JStr "null"))
     = (mkResponse 200 (Message "Non-bounce notification ignored"), None).
Proof.
  intros unsigned. split; [|split].
  - apply Mongo_endpoint_answers_200_to_what_it_cannot_process. left. reflexivity.
  - apply Mongo_endpoint_answers_200_to_what_it_cannot_process. right. left.
    exists (Error "Invalid Message format"). reflexivity.
  - apply Mongo_endpoint_answers_200_to_what_it_cannot_process. right. right. reflexivity.
Defined.

Lemma Mongo_bounceRecord_timestamp
  (Date_new : value -> option Z) (bounce mail recipient : value) (d : Mongo.document) :
  Mongo.bounceRecord Date_new bounce mail recipient = Ok d ->
  Mongo.timestamp d = Date_new (get_opt bounce "timestamp")
  /\ Mongo.email d = get_opt recipient "emailAddress".
Proof.
  unfold Mongo.bounceRecord, get_opt.
  destruct (get recipient "emailAddress") as [v1|]; cbn [bind]; [|discriminate].
  destruct (get bounce "timestamp") as [v2|]; cbn [bind]; [|discriminate].
  destruct (get mail "source") as [v3|]; cbn [bind]; [|discriminate].
  destruct (get mail "sourceIp") as [v4|]; cbn [bind]; [|discriminate].
  destruct (get bounce "bounceType") as [v5|]; cbn [bind]; [|discriminate].
  destruct (get bounce "bounceSubType") as [v6|]; cbn [bind]; [|discriminate].
  destruct (get recipient "diagnosticCode") as [v7|]; cbn [bind]; [|discriminate].
  destruct (get bounce "reportingMTA") as [v8|]; cbn [bind]; [|discriminate].
  destruct (get bounce "feedbackId") as [v9|]; cbn [bind]; [|discriminate].
  intros E. inversion E. split; reflexivity.
Qed.

(** X22.  When the handler of part_000 calls [insertMany], it hands over one
    document for each recipient of the bounce, in their order, each with the
    recipient's address and all with the one date read from the bounce's
    timestamp; the answer is 200 when the insertion resolves and 500 when it
    rejects. *)
Theorem Mongo_endpoint_hands_over_one_document_per_recipient
  (URL_hostname : string -> option string) (Date_new : value -> option Z)
  (insert : option exn) (body : value) (answer : response) (docs : list Mongo.document) :
  MongoEndpoint.post_sns URL_hostname Date_new insert body = (answer, Some docs) ->
  exists recipients,
    get_opt (get_opt (MongoEndpoint.processSNSMessage URL_hostname body) "bounce")
            "bouncedRecipients" = JArr recipients
    /\ recipients <> []
    /\ Forall2 (fun recipient d =>
                  Mongo.email d = get_opt recipient "emailAddress"
                  /\ Mongo.timestamp d
                     = Date_new (get_opt (get_opt (MongoEndpoint.processSNSMessage
                                                      URL_hostname body) "bounce")
                                         "timestamp"))
               recipients docs
    /\ answer = match insert with
                | None => mkResponse 200 (Message "Bounce processed successfully")
                | Some _ => mkResponse 500 (ErrorText "Internal server error")
                end.
Proof.
  unfold MongoEndpoint.post_sns.
  set (content := MongoEndpoint.processSNSMessage URL_hostname body).
  destruct (truthy content); cbn [negb]; [|discriminate].
  destruct (get content "bounce") as [bounce|] eqn:Gb; [|discriminate].
  assert (Eb : get_opt content "bounce" = bounce) by (unfold get_opt; now rewrite Gb).
  rewrite Eb.
  destruct (get content "mail") as [mail|]; [|discriminate].
  destruct (CsvStore.invalid_structure bounce mail) eqn:I; [discriminate|].
  destruct (get_opt bounce "bouncedRecipients") as [| |b|n|s|recipients|o] eqn:Hr;
    try discriminate.
  destruct (CsvStore.map_res (Mongo.bounceRecord Date_new bounce mail) recipients)
    as [records|] eqn:M; [|discriminate].
  intros E. exists recipients. split; [reflexivity|]. split.
  - intros ->. unfold CsvStore.invalid_structure in I. rewrite Hr in I. discriminate I.
  - assert (D : records = docs) by (destruct insert; congruence). subst docs.
    split.
    + apply map_res_Forall2 in M. clear -M.
      induction M as [|r d rs ds H M IH]; constructor; [|exact IH].
      destruct (Mongo_bounceRecord_timestamp _ _ _ _ _ H) as [H1 H2]. split; assumption.
    + destruct insert; congruence.
Qed.

Lemma Mongo_endpoint_hands_over_one_document_per_recipient_witness :
  exists recipients,
    get_opt (get_opt (MongoEndpoint.processSNSMessage Host.URL_hostname
                        (Samples.envelope (JStr Samples.notification_text))) "bounce")
            "bouncedRecipients" = JArr recipients
    /\ List.length recipients
       = List.length (match snd (MongoEndpoint.post_sns Host.URL_hostname Host.Date_new None
                                   (Samples.envelope (JStr Samples.notification_text))) with
                      | Some docs => docs
                      | None => []
                      end).
Proof.
  destruct (Mongo_endpoint_hands_over_one_document_per_recipient Host.URL_hostname
              Host.Date_new None (Samples.envelope (JStr Samples.notification_text))
              _ _ eq_refl) as (recipients & H1 & _ & H3 & _).
  exists recipients. split; [exact H1|]. exact (Forall2_length H3).
Defined.

(** ** The two forms of the inner message *)

Lemma stringToSign_of_Message
  (props : list (string * value)) (m : value) (rest : list string) :
  Forall (fun key => "Message" <> key) rest ->
  CsvStore.stringToSign (JObj (set_prop props "Message" m)) ("Message" :: rest)
  = (part <- (if truthy m
              then (text <- ToString m ;; Ok ("Message" ++ nl ++ text ++ nl)%string)
              else Ok EmptyString) ;;
     others <- CsvStore.stringToSign (JObj props) rest ;;
     Ok (part ++ others)%string).
Proof.
  intros F. cbn [CsvStore.stringToSign get].
  rewrite lookup_set_prop_same, (stringToSign_other_property props "Message" m rest F).
  reflexivity.
Qed.

Lemma stringToSign_message
  (props : list (string * value)) (m1 m2 : value) (s1 s2 : string) :
  ToString m1 = Ok s1 ->
  ToString m2 = Ok s2 ->
  (_ <- CsvStore.stringToSign (JObj (set_prop props "Message" m1)) CsvStore.signed_keys ;;
   Ok true)
  = (_ <- CsvStore.stringToSign (JObj (set_prop props "Message" m2)) CsvStore.signed_keys ;;
     Ok true).
Proof.
  intros T1 T2. unfold CsvStore.signed_keys.
  rewrite !stringToSign_of_Message by (repeat constructor; discriminate).
  rewrite T1, T2.
  destruct (CsvStore.stringToSign (JObj props)
              ["MessageId"; "Subject"; "Timestamp"; "TopicArn"; "Type"]);
    destruct (truthy m1), (truthy m2); reflexivity.
Qed.

(** X23.  The handler of part_005 treats the two forms of [Message] alike:
    an envelope whose [Message] is the JSON text of an object and the
    envelope that carries that object itself get the same answer and leave
    the same files, under the same faults, as long as the object can be
    printed as a string (the signature check prints it). *)
Theorem both_forms_of_Message_are_handled_alike
  (URL_hostname : string -> option string) (env : CsvStore.faults)
  (props : list (string * value)) (text printed : string) (content : value)
  (st : CsvStore.fs) :
  JSON.parse_text text = Some content ->
  typeof_object content = true ->
  ToString content = Ok printed ->
  CsvStore.post_sns URL_hostname env (JObj (set_prop props "Message" (JStr text))) st
  = CsvStore.post_sns URL_hostname env (JObj (set_prop props "Message" content)) st.
Proof.
  intros P T S.
  assert (V : CsvStore.verifySignature URL_hostname (JObj (set_prop props "Message" (JStr text)))
              = CsvStore.verifySignature URL_hostname (JObj (set_prop props "Message" content))).
  { unfold CsvStore.verifySignature. cbn [get].
    rewrite !(lookup_set_prop_other props "Message" "SigningCertURL") by discriminate.
    rewrite !(lookup_set_prop_other props "Message" "Signature") by discriminate.
    rewrite !(lookup_set_prop_other props "Message" "SignatureVersion") by discriminate.
    rewrite (stringToSign_message props (JStr text) content text printed eq_refl S).
    reflexivity. }
  assert (D : CsvStore.decode (JObj (set_prop props "Message" (JStr text)))
              = CsvStore.decode (JObj (set_prop props "Message" content))).
  { unfold CsvStore.decode. cbn [get]. rewrite !lookup_set_prop_same. cbn [bind].
    rewrite T. cbn [typeof_object]. rewrite parse_string, P. reflexivity. }
  unfold CsvStore.post_sns, CsvStore.handle, CsvStore.processSNSMessage.
  rewrite V, D. reflexivity.
Qed.

Lemma both_forms_of_Message_are_handled_alike_witness :
  CsvStore.post_sns Host.URL_hostname CsvStore.no_faults
    (Samples.envelope (JStr Samples.notification_text)) Samples.empty_store
  = CsvStore.post_sns Host.URL_hostname CsvStore.no_faults
      (Samples.envelope Samples.two_recipients) Samples.empty_store.
Proof.
  apply (both_forms_of_Message_are_handled_alike Host.URL_hostname CsvStore.no_faults
           [ ("Type", JStr "Notification");
             ("Message", JNull);
             ("SigningCertURL", JStr "https://sns.us-east-1.amazonaws.com/cert.pem");
             ("Signature", JStr "c2ln");
             ("SignatureVersion", JStr "1") ]
           Samples.notification_text "[object Object]" Samples.two_recipients
           Samples.empty_store); vm_compute; reflexivity.
Defined.

(** ** A data file with a row of another length *)

(** X24.  One row whose number of cells differs from the header's stops the
    scheduled job of part_005 at the report: csv-parse rejects the file, no
    mail is sent, the clean-up is not reached and the files stay as they
    are. *)
Theorem ragged_file_stops_the_job
  (Date_new : value -> option Z) (sendMail : nat -> option exn) (pruning : option exn)
  (dayAgo cutoff : Z) (names : list string) (rows : list (list string)) (st : CsvStore.fs) :
  CsvStore.csv st = names :: rows ->
  existsb (fun row => negb (List.length row =? List.length names)%nat) rows = true ->
  exists e,
    CsvStore.sendDailyReport Date_new sendMail dayAgo st = (Throw e, [])
    /\ CsvStore.cron_job Date_new sendMail None None pruning dayAgo cutoff st
       = (Some e, [], st).
Proof.
  intros E R.
  assert (F : forallb (fun r => (List.length r =? List.length names)%nat) rows = false).
  { clear -R. induction rows as [|r rest IH]; [discriminate R|].
    cbn [existsb forallb] in *. destruct (List.length r =? List.length names)%nat;
      [cbn in *; now apply IH | reflexivity]. }
  exists (Error "Invalid Record Length").
  assert (S : CsvStore.sendDailyReport Date_new sendMail dayAgo st
              = (Throw (Error "Invalid Record Length"), [])).
  { unfold CsvStore.sendDailyReport, CsvStore.csv_parse. rewrite E, F. reflexivity. }
  split; [exact S|].
  unfold CsvStore.cron_job. rewrite S. reflexivity.
Qed.

Lemma ragged_file_stops_the_job_witness :
  let st := CsvStore.mkFs [CsvStore.titles; ["a@example.com"; "2030-01-02T03:04:05.678Z"]]
              false [] in
  exists e,
    CsvStore.sendDailyReport Host.Date_new (fun _ => None) 0 st = (Throw e, [])
    /\ CsvStore.cron_job Host.Date_new (fun _ => None) None None None 0 0 st
       = (Some e, [], st).
Proof.
  intros st.
  apply (ragged_file_stops_the_job Host.Date_new (fun _ => None) None 0 0 CsvStore.titles
           [["a@example.com"; "2030-01-02T03:04:05.678Z"]] st); reflexivity.
Defined.
